(** * SaleCounter bot: the sales-window calculator, the date parser and the
      sheet aggregator of [main.py], embedded in Rocq.

    The Python functions are translated one by one, keeping their names and
    their control flow.  The calls they make into the Python standard
    library ([datetime], [str] methods, [re.sub], [datetime.strptime],
    [float]) are modelled after CPython 3.11, for text made of ASCII
    characters and for the C/English locale.  Logging is left out: it never
    changes a result. *)

From Stdlib Require Import ZArith List Ascii String Bool Lia.
From Stdlib Require Import Floats.
Import ListNotations.

Local Open Scope Z_scope.

(** ** Exceptions and results *)

(** The exceptions that can travel through the modelled code.  [HttpError]
    stands for whatever the Sheets client raises when a request fails. *)
Inductive exn : Type :=
| ValueError (msg : string)
| OverflowError (msg : string)
| HttpError (msg : string).

(** What a call produces: a value, or a raised exception. *)
Inductive outcome (A : Type) : Type :=
| Return (a : A)
| Raise (e : exn).

Arguments Return {A} a.
Arguments Raise {A} e.

Definition bind {A B : Type} (c : outcome A) (k : A -> outcome B) : outcome B :=
  match c with
  | Return a => k a
  | Raise e => Raise e
  end.

Declare Scope outcome_scope.
Delimit Scope outcome_scope with outcome.
Notation "x <- c ;; k" := (bind c (fun x => k))
  (at level 61, c at next level, right associativity) : outcome_scope.
Local Open Scope outcome_scope.

Definition raises {A : Type} (c : outcome A) : Prop :=
  exists e, c = Raise e.

Definition returns {A : Type} (c : outcome A) : Prop :=
  exists a, c = Return a.

(** ** The [datetime] module *)

Definition MINYEAR : Z := 1.
Definition MAXYEAR : Z := 9999.

(** [_MAXORDINAL] is [date(9999, 12, 31).toordinal()]. *)
Definition MAXORDINAL : Z := 3652059.

(** A naive [datetime.datetime] object. *)
Record datetime : Type := mk_datetime {
  year : Z;
  month : Z;
  day : Z;
  hour : Z;
  minute : Z;
  second : Z;
  microsecond : Z
}.

(** A normalised [datetime.timedelta]. *)
Record timedelta : Type := mk_timedelta {
  days : Z;
  seconds : Z;
  microseconds : Z
}.

Definition is_leap (y : Z) : bool :=
  (y mod 4 =? 0) && (negb (y mod 100 =? 0) || (y mod 400 =? 0)).

(** [_DAYS_IN_MONTH]: the lengths of the months of a common year. *)
Definition DAYS_IN_MONTH (m : Z) : Z :=
  match m with
  | 1 => 31
  | 2 => 28
  | 3 => 31
  | 4 => 30
  | 5 => 31
  | 6 => 30
  | 7 => 31
  | 8 => 31
  | 9 => 30
  | 10 => 31
  | 11 => 30
  | 12 => 31
  | _ => 0
  end.

Definition days_in_month (y m : Z) : Z :=
  if (m =? 2) && is_leap y then 29 else DAYS_IN_MONTH m.

(** [_DAYS_BEFORE_MONTH]: the days of a common year before month [m]. *)
Definition DAYS_BEFORE_MONTH (m : Z) : Z :=
  match m with
  | 1 => 0
  | 2 => 31
  | 3 => 59
  | 4 => 90
  | 5 => 120
  | 6 => 151
  | 7 => 181
  | 8 => 212
  | 9 => 243
  | 10 => 273
  | 11 => 304
  | 12 => 334
  | _ => 0
  end.

Definition days_before_year (y : Z) : Z :=
  let y' := y - 1 in
  y' * 365 + y' / 4 - y' / 100 + y' / 400.

Definition days_before_month (y m : Z) : Z :=
  DAYS_BEFORE_MONTH m + (if (2 <? m) && is_leap y then 1 else 0).

Definition ymd2ord (y m d : Z) : Z :=
  days_before_year y + days_before_month y m + d.

Definition DI400Y : Z := 146097.
Definition DI100Y : Z := 36524.
Definition DI4Y : Z := 1461.

(** The last lines of [_ord2ymd]: month and day of the [n]-th day (from 0)
    of a year, by an estimate of the month that is at most one too large. *)
Definition yday2md (leapyear : bool) (n : Z) : Z * Z :=
  let m := Z.shiftr (n + 50) 5 in
  let preceding :=
    DAYS_BEFORE_MONTH m + (if (2 <? m) && leapyear then 1 else 0) in
  if n <? preceding then
    let m' := m - 1 in
    let preceding' :=
      preceding - (DAYS_IN_MONTH m' + (if (m' =? 2) && leapyear then 1 else 0)) in
    (m', n - preceding' + 1)
  else (m, n - preceding + 1).

(** [_ord2ymd]: the date of a proleptic Gregorian ordinal. *)
Definition ord2ymd (n0 : Z) : Z * Z * Z :=
  let n := n0 - 1 in
  let n400 := n / DI400Y in
  let n := n mod DI400Y in
  let y := n400 * 400 + 1 in
  let n100 := n / DI100Y in
  let n := n mod DI100Y in
  let n4 := n / DI4Y in
  let n := n mod DI4Y in
  let n1 := n / 365 in
  let n := n mod 365 in
  let y := y + n100 * 100 + n4 * 4 + n1 in
  if (n1 =? 4) || (n100 =? 4) then (y - 1, 12, 31)
  else
    let leapyear := (n1 =? 3) && (negb (n4 =? 24) || (n100 =? 3)) in
    let '(m, d) := yday2md leapyear n in
    (y, m, d).

(** The checks of [_check_date_fields] and [_check_time_fields]. *)
Definition check_date_fields (y m d : Z) : bool :=
  (MINYEAR <=? y) && (y <=? MAXYEAR) &&
  (1 <=? m) && (m <=? 12) &&
  (1 <=? d) && (d <=? days_in_month y m).

Definition check_time_fields (h mi s us : Z) : bool :=
  (0 <=? h) && (h <=? 23) &&
  (0 <=? mi) && (mi <=? 59) &&
  (0 <=? s) && (s <=? 59) &&
  (0 <=? us) && (us <=? 999999).

Definition valid_datetime (dt : datetime) : Prop :=
  check_date_fields (year dt) (month dt) (day dt) = true /\
  check_time_fields (hour dt) (minute dt) (second dt) (microsecond dt) = true.

(** The constructor [datetime(y, m, d, h, mi, s, us)]. *)
Definition new_datetime (y m d h mi s us : Z) : outcome datetime :=
  if negb (check_date_fields y m d) then
    Raise (ValueError "date value out of range")
  else if negb (check_time_fields h mi s us) then
    Raise (ValueError "time value out of range")
  else Return (mk_datetime y m d h mi s us).

Definition or_default (o : option Z) (z : Z) : Z :=
  match o with
  | Some v => v
  | None => z
  end.

(** [dt.replace(day=.., hour=.., minute=.., second=.., microsecond=..)]:
    a keyword that is not given is [None] and keeps the field. *)
Definition replace (dt : datetime) (d h mi s us : option Z) : outcome datetime :=
  new_datetime (year dt) (month dt) (or_default d (day dt))
    (or_default h (hour dt)) (or_default mi (minute dt))
    (or_default s (second dt)) (or_default us (microsecond dt)).

Definition toordinal (dt : datetime) : Z :=
  ymd2ord (year dt) (month dt) (day dt).

(** The [timedelta] constructor, which carries microseconds into seconds
    and seconds into days. *)
Definition new_timedelta (d s us : Z) : timedelta :=
  let s1 := s + us / 1000000 in
  let d1 := d + s1 / 86400 in
  mk_timedelta d1 (s1 mod 86400) (us mod 1000000).

(** [dt - timedelta(days=n)]. *)
Definition sub_days (dt : datetime) (n : Z) : outcome datetime :=
  let o := toordinal dt - n in
  if (0 <? o) && (o <=? MAXORDINAL) then
    let '(y, m, d) := ord2ymd o in
    Return (mk_datetime y m d (hour dt) (minute dt) (second dt) (microsecond dt))
  else Raise (OverflowError "date value out of range").

(** [a - b] for two datetimes. *)
Definition sub_datetime (a b : datetime) : timedelta :=
  let secs1 := second a + minute a * 60 + hour a * 3600 in
  let secs2 := second b + minute b * 60 + hour b * 3600 in
  new_timedelta (toordinal a - toordinal b) (secs1 - secs2)
    (microsecond a - microsecond b).

(** The comparison of two naive datetimes, field by field. *)
Definition cmp_datetime (a b : datetime) : comparison :=
  match year a ?= year b with
  | Eq =>
    match month a ?= month b with
    | Eq =>
      match day a ?= day b with
      | Eq =>
        match hour a ?= hour b with
        | Eq =>
          match minute a ?= minute b with
          | Eq =>
            match second a ?= second b with
            | Eq => microsecond a ?= microsecond b
            | c => c
            end
          | c => c
          end
        | c => c
        end
      | c => c
      end
    | c => c
    end
  | c => c
  end.

Definition datetime_leb (a b : datetime) : bool :=
  match cmp_datetime a b with
  | Gt => false
  | _ => true
  end.

(** ** The window calculator *)

(** [calculate_window_days()]; [today] is the reading of [datetime.utcnow()]. *)
Definition calculate_window_days (today : datetime) : outcome Z :=
  let d := day today in
  let start_day :=
    if (8 <=? d) && (d <=? 17) then Some 8
    else if (18 <=? d) && (d <=? 27) then Some 18
    else if 28 <=? d then Some 28
    else None in
  match start_day with
  | None =>
    first <- replace today (Some 1) None None None None ;;
    prev_month <- sub_days first 1 ;;
    start <- replace prev_month (Some 28) (Some 0) (Some 0) (Some 0) (Some 0) ;;
    Return (days (sub_datetime today start) + 1)
  | Some sd =>
    start <- replace today (Some sd) (Some 0) (Some 0) (Some 0) (Some 0) ;;
    Return (days (sub_datetime today start) + 1)
  end.

Definition _month_start (dt : datetime) : outcome datetime :=
  replace dt (Some 1) (Some 0) (Some 0) (Some 0) (Some 0).

(** [get_window_range(window)]; [today] is the reading of
    [datetime.utcnow()]. *)
Definition get_window_range (today : datetime) (window : string)
  : outcome (datetime * datetime) :=
  this_month_start <- _month_start today ;;
  if String.eqb window "first" then
    prev_month_last <- sub_days this_month_start 1 ;;
    start <- replace prev_month_last (Some 28) (Some 0) (Some 0) (Some 0) (Some 0) ;;
    end_ <- replace this_month_start (Some 7) (Some 23) (Some 59) (Some 59) (Some 999999) ;;
    Return (start, end_)
  else if String.eqb window "second" then
    start <- replace this_month_start (Some 8) (Some 0) (Some 0) (Some 0) (Some 0) ;;
    end_ <- replace this_month_start (Some 17) (Some 23) (Some 59) (Some 59) (Some 999999) ;;
    Return (start, end_)
  else if String.eqb window "third" then
    start <- replace this_month_start (Some 18) (Some 0) (Some 0) (Some 0) (Some 0) ;;
    end_ <- replace this_month_start (Some 27) (Some 23) (Some 59) (Some 59) (Some 999999) ;;
    Return (start, end_)
  else Raise (ValueError ("Unknown window name: " ++ window)).

(** ** Strings *)

Local Open Scope string_scope.

(** [str.isspace] on the ASCII range: tab to carriage return, the four
    separators 0x1c to 0x1f, and the space. *)
Definition is_space (c : ascii) : bool :=
  ((Ascii.leb "009" c) && (Ascii.leb c "013")) ||
  ((Ascii.leb "028" c) && (Ascii.leb c " ")).

Definition is_digit (c : ascii) : bool :=
  (Ascii.leb "0" c) && (Ascii.leb c "9").

Definition is_upper (c : ascii) : bool :=
  (Ascii.leb "A" c) && (Ascii.leb c "Z").

Definition lower_char (c : ascii) : ascii :=
  if is_upper c then ascii_of_nat (nat_of_ascii c + 32) else c.

(** [s.lower()] *)
Fixpoint lower (s : string) : string :=
  match s with
  | "" => ""
  | String c s' => String (lower_char c) (lower s')
  end.

Fixpoint lstrip (s : string) : string :=
  match s with
  | "" => ""
  | String c s' => if is_space c then lstrip s' else s
  end.

Fixpoint rstrip (s : string) : string :=
  match s with
  | "" => ""
  | String c s' =>
    match rstrip s' with
    | "" => if is_space c then "" else String c ""
    | r => String c r
    end
  end.

(** [s.strip()] *)
Definition strip (s : string) : string := rstrip (lstrip s).

(** [sep in s] *)
Fixpoint contains (sep s : string) : bool :=
  if prefix sep s then true
  else match s with
       | "" => false
       | String _ s' => contains sep s'
       end.

(** [s.split(sep)[0]]: the text before the first occurrence of [sep], the
    whole of [s] when there is none. *)
Fixpoint split_head (sep s : string) : string :=
  if prefix sep s then ""
  else match s with
       | "" => ""
       | String c s' => String c (split_head sep s')
       end.

(** [s.replace(c, '')] for a single character [c]. *)
Fixpoint remove_char (c : ascii) (s : string) : string :=
  match s with
  | "" => ""
  | String x s' => if Ascii.eqb x c then remove_char c s' else String x (remove_char c s')
  end.

(** [s.count(c)] for a single character [c]. *)
Fixpoint count_char (c : ascii) (s : string) : nat :=
  match s with
  | "" => O
  | String x s' => if Ascii.eqb x c then S (count_char c s') else count_char c s'
  end.

(** One of the suffixes [st|nd|rd|th] of the ordinal pattern. *)
Definition is_ordinal_suffix (a b : ascii) : bool :=
  (Ascii.eqb a "s" && Ascii.eqb b "t") ||
  (Ascii.eqb a "n" && Ascii.eqb b "d") ||
  (Ascii.eqb a "r" && Ascii.eqb b "d") ||
  (Ascii.eqb a "t" && Ascii.eqb b "h").

(** [re.sub(r'(\d+)(st|nd|rd|th)', r'\1', s)].  A match is a whole run of
    digits and the suffix after it, and it is replaced by the digits: so the
    text is copied, and a suffix that comes right after a digit is skipped,
    the scan going on behind it. *)
Fixpoint sub_ordinals (s : string) : string :=
  match s with
  | "" => ""
  | String c s' =>
    String c
      (if is_digit c then
         match s' with
         | String a (String b rest) =>
           if is_ordinal_suffix a b then sub_ordinals rest else sub_ordinals s'
         | _ => sub_ordinals s'
         end
       else sub_ordinals s')
  end.

(** ** [datetime.strptime] *)

(** The directives that the formats of [main.py] use. *)
Inductive directive : Type :=
| dir_d | dir_H | dir_I | dir_m | dir_M | dir_S | dir_Y | dir_B | dir_b | dir_p.

Definition directive_eqb (a b : directive) : bool :=
  match a, b with
  | dir_d, dir_d | dir_H, dir_H | dir_I, dir_I | dir_m, dir_m | dir_M, dir_M
  | dir_S, dir_S | dir_Y, dir_Y | dir_B, dir_B | dir_b, dir_b | dir_p, dir_p => true
  | _, _ => false
  end.

(** A format, as [TimeRE.pattern] reads it: directives, runs of white space
    (which become [\s+]) and literal characters. *)
Inductive fmt_item : Type :=
| Dir (d : directive)
| Spaces
| Lit (c : ascii).

Definition directive_of_char (c : ascii) : option directive :=
  match c with
  | "d"%char => Some dir_d
  | "H"%char => Some dir_H
  | "I"%char => Some dir_I
  | "m"%char => Some dir_m
  | "M"%char => Some dir_M
  | "S"%char => Some dir_S
  | "Y"%char => Some dir_Y
  | "B"%char => Some dir_B
  | "b"%char => Some dir_b
  | "p"%char => Some dir_p
  | _ => None
  end.

(** [None] is the [ValueError] of a bad directive or of a stray [%]. *)
Fixpoint compile_format (fmt : string) : option (list fmt_item) :=
  match fmt with
  | "" => Some []
  | String c rest =>
    if Ascii.eqb c "%" then
      match rest with
      | "" => None
      | String x rest' =>
        match (if Ascii.eqb x "%" then Some (Lit "%") else option_map Dir (directive_of_char x)),
              compile_format rest' with
        | Some it, Some items => Some (it :: items)
        | _, _ => None
        end
      end
    else if is_space c then
      match compile_format rest with
      | Some (Spaces :: items) => Some (Spaces :: items)
      | Some items => Some (Spaces :: items)
      | None => None
      end
    else option_map (cons (Lit c)) (compile_format rest)
  end.

(** A character class of a regular expression. *)
Definition cls : Type := ascii -> bool.

(** [[a-b]] *)
Definition rng (a b : ascii) : cls :=
  fun c => Ascii.leb a c && Ascii.leb c b.

(** A literal character; the patterns are compiled with [IGNORECASE]. *)
Definition chr (a : ascii) : cls :=
  fun c => Ascii.eqb (lower_char c) (lower_char a).

(** [\d] *)
Definition dig : cls := rng "0" "9".

(** A literal word. *)
Fixpoint word (w : string) : list cls :=
  match w with
  | "" => []
  | String c w' => chr c :: word w'
  end.

(** [LocaleTime.f_month], [a_month] and [am_pm] of the C locale. *)
Definition f_month : list string :=
  [""; "january"; "february"; "march"; "april"; "may"; "june"; "july";
   "august"; "september"; "october"; "november"; "december"].

Definition a_month : list string :=
  [""; "jan"; "feb"; "mar"; "apr"; "may"; "jun"; "jul"; "aug"; "sep"; "oct";
   "nov"; "dec"].

Definition am_pm : list string := ["am"; "pm"].

(** The regular expression of a directive in [TimeRE.__init__], as the list
    of its alternatives, each a sequence of character classes.  The names of
    [%B], [%b] and [%p] are in the order [__seqToRE] gives them: longest
    first, and in the order of the locale among names of one length. *)
Definition regex_of (d : directive) : list (list cls) :=
  match d with
  | dir_d => [[chr "3"; rng "0" "1"]; [rng "1" "2"; dig]; [chr "0"; rng "1" "9"];
              [rng "1" "9"]; [chr " "; rng "1" "9"]]
  | dir_H => [[chr "2"; rng "0" "3"]; [rng "0" "1"; dig]; [dig]]
  | dir_I => [[chr "1"; rng "0" "2"]; [chr "0"; rng "1" "9"]; [rng "1" "9"]]
  | dir_m => [[chr "1"; rng "0" "2"]; [chr "0"; rng "1" "9"]; [rng "1" "9"]]
  | dir_M => [[rng "0" "5"; dig]; [dig]]
  | dir_S => [[chr "6"; rng "0" "1"]; [rng "0" "5"; dig]; [dig]]
  | dir_Y => [[dig; dig; dig; dig]]
  | dir_B => map word ["september"; "february"; "november"; "december";
                       "january"; "october"; "august"; "march"; "april";
                       "june"; "july"; "may"]
  | dir_b => map word ["jan"; "feb"; "mar"; "apr"; "may"; "jun"; "jul"; "aug";
                       "sep"; "oct"; "nov"; "dec"]
  | dir_p => map word ["am"; "pm"]
  end.

(** A sequence of classes against the head of [s]: the text it takes and
    the rest. *)
Fixpoint match_seq (cs : list cls) (s : string) : option (string * string) :=
  match cs with
  | [] => Some ("", s)
  | p :: cs' =>
    match s with
    | "" => None
    | String c s' =>
      if p c then
        match match_seq cs' s' with
        | Some (t, r) => Some (String c t, r)
        | None => None
        end
      else None
    end
  end.

(** The ways an alternation can match at the head of [s], in the order in
    which a backtracking matcher tries them. *)
Definition match_alts (alts : list (list cls)) (s : string) : list (string * string) :=
  flat_map (fun cs => match match_seq cs s with
                      | Some tr => [tr]
                      | None => []
                      end) alts.

(** [\s+], greedy: the longest run of white space first. *)
Fixpoint match_spaces (s : string) : list (string * string) :=
  match s with
  | "" => []
  | String c s' =>
    if is_space c then
      map (fun tr => (String c (fst tr), snd tr)) (match_spaces s') ++ [(String c "", s')]
    else []
  end.

(** The named groups of a match. *)
Definition groups : Type := list (directive * string).

Definition match_item (it : fmt_item) (s : string) : list (groups * string) :=
  match it with
  | Dir d => map (fun tr => ([(d, fst tr)], snd tr)) (match_alts (regex_of d) s)
  | Spaces => map (fun tr => ([], snd tr)) (match_spaces s)
  | Lit c => map (fun tr => ([], snd tr)) (match_alts [[chr c]] s)
  end.

(** All the matches of a compiled format at the head of [s], in the order
    of the backtracking search: the first one is what [re.match] finds. *)
Fixpoint match_items (items : list fmt_item) (s : string) : list (groups * string) :=
  match items with
  | [] => [([], s)]
  | it :: items' =>
    flat_map (fun gr =>
                map (fun gr' => ((fst gr ++ fst gr')%list, snd gr'))
                    (match_items items' (snd gr)))
             (match_item it s)
  end.

Fixpoint group (d : directive) (g : groups) : option string :=
  match g with
  | [] => None
  | (d', t) :: g' => if directive_eqb d d' then Some t else group d g'
  end.

(** [int(t)] for a group of digits; the space that [%d] may take in front
    is skipped, as [int] skips white space. *)
Fixpoint int_digits (acc : Z) (t : string) : Z :=
  match t with
  | "" => acc
  | String c t' =>
    if is_digit c then int_digits (10 * acc + (Z.of_nat (nat_of_ascii c) - 48)) t'
    else int_digits acc t'
  end.

Definition py_int (t : string) : Z := int_digits 0 t.

(** [names.index(t)] *)
Fixpoint index_of (t : string) (names : list string) : Z :=
  match names with
  | [] => 0
  | n :: names' => if String.eqb n t then 0 else 1 + index_of t names'
  end.

(** The fields that [_strptime] reads from the groups, with its defaults. *)
Definition fields_of_groups (g : groups) : Z * Z * Z * Z * Z * Z :=
  let y := match group dir_Y g with Some t => py_int t | None => 1900 end in
  let m :=
    match group dir_m g, group dir_B g, group dir_b g with
    | Some t, _, _ => py_int t
    | None, Some t, _ => index_of (lower t) f_month
    | None, None, Some t => index_of (lower t) a_month
    | None, None, None => 1
    end in
  let d := match group dir_d g with Some t => py_int t | None => 1 end in
  let h :=
    match group dir_H g, group dir_I g with
    | Some t, _ => py_int t
    | None, Some t =>
      let h := py_int t in
      let ampm := match group dir_p g with Some p => lower p | None => "" end in
      if String.eqb ampm "" || String.eqb ampm "am" then
        (if Z.eqb h 12 then 0 else h)
      else if String.eqb ampm "pm" then
        (if Z.eqb h 12 then h else h + 12)
      else h
    | None, None => 0
    end in
  let mi := match group dir_M g with Some t => py_int t | None => 0 end in
  let s := match group dir_S g with Some t => py_int t | None => 0 end in
  (y, m, d, h, mi, s).

(** [datetime.strptime(data_string, format)]; [None] is its [ValueError]:
    a bad format, no match, text left over after the match, or fields that
    are not a date and a time. *)
Definition strptime (data_string format : string) : option datetime :=
  match compile_format format with
  | None => None
  | Some items =>
    match match_items items data_string with
    | [] => None
    | (g, rest) :: _ =>
      match rest with
      | "" =>
        let '(y, m, d, h, mi, s) := fields_of_groups g in
        match new_datetime y m d h mi s 0 with
        | Return dt => Some dt
        | Raise _ => None
        end
      | String _ _ => None
      end
    end
  end.

(** ** The date parser *)

Definition candidates : list string :=
  ["%B %d, %Y at %I:%M %p";
   "%b %d, %Y at %I:%M %p";
   "%b %d, %Y, %I:%M:%S %p";
   "%B %d, %Y, %I:%M:%S %p";
   "%Y-%m-%d";
   "%Y/%m/%d";
   "%m/%d/%Y";
   "%d/%m/%Y";
   "%Y-%m-%d %H:%M";
   "%Y/%m/%d %H:%M"].

(** The loop [for fmt in ...: try: return strptime(s, fmt) except
    ValueError: continue]. *)
Fixpoint try_formats (s : string) (fmts : list string) : option datetime :=
  match fmts with
  | [] => None
  | fmt :: fmts' =>
    match strptime s fmt with
    | Some dt => Some dt
    | None => try_formats s fmts'
    end
  end.

(** The normalisation at the head of [parse_sheet_date]. *)
Definition clean_date (raw : string) : string :=
  let cleaned := strip raw in
  let cleaned :=
    if contains " GMT" cleaned then strip (split_head " GMT" cleaned)
    else cleaned in
  sub_ordinals cleaned.

Definition parse_sheet_date (raw : string) : option datetime :=
  let cleaned := clean_date raw in
  match try_formats cleaned candidates with
  | Some dt => Some dt
  | None =>
    if (10 <=? String.length cleaned)%nat then
      let head := substring 0 10 cleaned in
      let iso :=
        if (count_char "-" head =? 2)%nat then strptime head "%Y-%m-%d"
        else None in
      match iso with
      | Some dt => Some dt
      | None =>
        if (count_char "/" head =? 2)%nat then
          match strptime head "%m/%d/%Y" with
          | Some dt => Some dt
          | None => strptime head "%d/%m/%Y"
          end
        else None
      end
    else None
  end.

(** ** [float] *)

(** The longest run of digits at the head of [s], and what follows it. *)
Fixpoint span_digits (s : string) : string * string :=
  match s with
  | "" => ("", "")
  | String c s' =>
    if is_digit c then
      let '(d, r) := span_digits s' in (String c d, r)
    else ("", s)
  end.

(** The check of [_Py_string_to_number_with_underscores]: an underscore
    stands between two digits, and is dropped.  [prev] is the character
    before [s]. *)
Fixpoint drop_underscores (prev : ascii) (s : string) : option string :=
  match s with
  | "" => if Ascii.eqb prev "_" then None else Some ""
  | String c s' =>
    if Ascii.eqb c "_" then
      if is_digit prev then drop_underscores c s' else None
    else if Ascii.eqb prev "_" && negb (is_digit c) then None
    else option_map (String c) (drop_underscores c s')
  end.

(** The binary64 number nearest to [m * 10 ^ e], ties to even, with the
    sign [neg]: what a correctly rounded [strtod] returns. *)
Definition float_of_decimal (neg : bool) (m e : Z) : float :=
  SF2Prim
    (match m with
     | Zpos p =>
       if Z.leb 0 e then binary_round prec emax neg (Z.to_pos (m * 10 ^ e)) 0
       else SFdiv prec emax (S754_finite neg p 0)
                  (S754_finite false (Z.to_pos (10 ^ (- e))) 0)
     | _ => S754_zero neg
     end).

(** The exponent part of a decimal literal: nothing, or [e], a sign and
    digits up to the end of the text. *)
Definition parse_exponent (s : string) : option Z :=
  match s with
  | "" => Some 0
  | String c s' =>
    if Ascii.eqb (lower_char c) "e" then
      let '(neg, s'') :=
        match s' with
        | String "-" r => (true, r)
        | String "+" r => (false, r)
        | _ => (false, s')
        end in
      match span_digits s'' with
      | (String d ds, "") =>
        Some (if neg then - py_int (String d ds) else py_int (String d ds))
      | _ => None
      end
    else None
  end.

(** [float(s)] for a string; [None] is its [ValueError]. *)
Definition py_float (s : string) : option float :=
  match drop_underscores "000" (strip s) with
  | None => None
  | Some s1 =>
    let '(neg, s2) :=
      match s1 with
      | String "-" r => (true, r)
      | String "+" r => (false, r)
      | _ => (false, s1)
      end in
    let word := lower s2 in
    if String.eqb word "inf" || String.eqb word "infinity" then
      Some (if neg then neg_infinity else infinity)
    else if String.eqb word "nan" then Some nan
    else
      let '(ip, r1) := span_digits s2 in
      let '(fp, r2) :=
        match r1 with
        | String "." r => span_digits r
        | _ => ("", r1)
        end in
      match ip ++ fp with
      | "" => None
      | String _ _ =>
        match parse_exponent r2 with
        | Some e =>
          Some (float_of_decimal neg (py_int (ip ++ fp))
                  (e - Z.of_nat (String.length fp)))
        | None => None
        end
      end
  end.

(** ** Sheet layouts *)

Record sheet_config : Type := mk_config {
  name_idx : nat;
  date_idx : nat;
  sale_idx : nat;
  formats : list string
}.

Definition SHEET_CONFIGS : list (string * sheet_config) :=
  [("1MlIztcbS1hR-gMnT9aOtH5LMALcIOLCUL08o1SMsePg",
    mk_config 0 3 5
      ["%b %d, %Y, %I:%M:%S %p"; "%B %d, %Y, %I:%M:%S %p"; "%Y-%m-%d"]);
   ("1Q0VkLwxwKTc_-t17Ij-t_rI-wtwdLE37FyUjkznCYrI",
    mk_config 0 2 4
      ["%B %dth, %Y at %I:%M %p"; "%B %dst, %Y at %I:%M %p";
       "%B %dnd, %Y at %I:%M %p"; "%B %drd, %Y at %I:%M %p"]);
   ("1Eqtc8utEzUAdknJI_-u1AGg1SxBH3T78JpVwkpIQZ2Q",
    mk_config 0 3 5 ["%Y-%m-%d"; "%b %d, %Y"; "%B %d, %Y"])].

Definition DEFAULT_CONFIG : sheet_config :=
  mk_config 0 3 5 ["%b %d, %Y, %I:%M:%S %p"; "%B %d, %Y"; "%Y-%m-%d"].

(** [SHEET_CONFIGS.get(sheet_id, DEFAULT_CONFIG)] *)
Fixpoint get_config (table : list (string * sheet_config)) (sheet_id : string)
  : sheet_config :=
  match table with
  | [] => DEFAULT_CONFIG
  | (k, conf) :: table' =>
    if String.eqb k sheet_id then conf else get_config table' sheet_id
  end.

(** ** The breakdown: a [dict] from sheet identifier to subtotal *)

(** A Python [dict] keeps its keys in the order of their first insertion. *)
Definition dict : Type := list (string * float).

(** [d[k] = v] *)
Fixpoint dict_set (k : string) (v : float) (d : dict) : dict :=
  match d with
  | [] => [(k, v)]
  | (k', v') :: d' =>
    if String.eqb k' k then (k, v) :: d' else (k', v') :: dict_set k v d'
  end.

(** [d.get(k)] *)
Fixpoint dict_get (k : string) (d : dict) : option float :=
  match d with
  | [] => None
  | (k', v') :: d' => if String.eqb k' k then Some v' else dict_get k d'
  end.

Definition dict_keys (d : dict) : list string := map fst d.

Definition dict_values (d : dict) : list float := map snd d.

(** The sum of a list of floats, added one after the other from zero, as
    the running total of the aggregation adds them. *)
Definition float_sum (vs : list float) : float :=
  fold_left PrimFloat.add vs 0%float.

(** ** The aggregation *)

(** [dt.strftime('%Y-%m-%d')], with the year on four digits. *)
Definition digit_char (n : Z) : ascii := ascii_of_nat (48 + Z.to_nat (n mod 10)).

Definition two_digits (n : Z) : string :=
  String (digit_char (n / 10)) (String (digit_char n) "").

Definition strftime_date (dt : datetime) : string :=
  two_digits (year dt / 100) ++ two_digits (year dt) ++ "-" ++
  two_digits (month dt) ++ "-" ++ two_digits (day dt).

(** [', '.join(l)] *)
Fixpoint join (sep : string) (l : list string) : string :=
  match l with
  | [] => ""
  | [x] => x
  | x :: l' => x ++ sep ++ join sep l'
  end.

(** The variables that the row loop updates: the counters and the sample
    dates of the whole run, and the subtotal and the count of the sheet. *)
Record loop_state : Type := mk_state {
  total_rows : Z;
  name_matches : Z;
  matching_sales : Z;
  sample_dates : list string;
  sheet_total : float;
  sheet_sales_count : Z
}.

(** Lines 313 and 314: the amount of a sale; [None] is the [ValueError] of
    [float]. *)
Definition clean_amount (sale_str : string) : string :=
  strip (remove_char "," (remove_char "$" sale_str)).

Definition parse_amount (sale_str : string) : option float :=
  match clean_amount sale_str with
  | "" => Some 0%float
  | String c s => py_float (String c s)
  end.

(** The date of a row: the formats of the layout first, then the parser. *)
Definition parse_row_date (conf : sheet_config) (date_str : string)
  : option datetime :=
  match try_formats date_str (formats conf) with
  | Some dt => Some dt
  | None => parse_sheet_date date_str
  end.

(** The body of the loop over the data rows of a sheet. *)
Definition process_row (conf : sheet_config) (user_name : string)
           (since until : datetime) (st : loop_state) (row : list string)
  : loop_state :=
  let st := mk_state (total_rows st + 1) (name_matches st) (matching_sales st)
                     (sample_dates st) (sheet_total st) (sheet_sales_count st) in
  if (List.length row <=? Nat.max (name_idx conf) (Nat.max (date_idx conf) (sale_idx conf)))%nat
  then st
  else
    let name := strip (nth (name_idx conf) row "") in
    let date_str := strip (nth (date_idx conf) row "") in
    let sale_str := strip (nth (sale_idx conf) row "") in
    if negb (String.eqb (lower name) (lower user_name)) then st
    else
      let st := mk_state (total_rows st) (name_matches st + 1) (matching_sales st)
                         (sample_dates st) (sheet_total st) (sheet_sales_count st) in
      match parse_row_date conf date_str with
      | None => st
      | Some sale_date =>
        let st :=
          if (List.length (sample_dates st) <? 5)%nat then
            mk_state (total_rows st) (name_matches st) (matching_sales st)
                     (sample_dates st ++ [strftime_date sale_date])
                     (sheet_total st) (sheet_sales_count st)
          else st in
        if datetime_leb since sale_date && datetime_leb sale_date until then
          match parse_amount sale_str with
          | Some amount =>
            mk_state (total_rows st) (name_matches st) (matching_sales st + 1)
                     (sample_dates st) (sheet_total st + amount)%float
                     (sheet_sales_count st + 1)
          | None => st
          end
        else st
      end.

(** The state of the loop over the sheets. *)
Record run_state : Type := mk_run {
  totals : float;
  breakdown : dict;
  run_total_rows : Z;
  run_name_matches : Z;
  run_matching_sales : Z;
  run_sample_dates : list string
}.

(** The state in which the loop over the sheets starts. *)
Definition initial_run : run_state := mk_run 0 [] 0 0 0 [].

(** The rows loop of one sheet, from the counters of the run. *)
Definition process_rows (conf : sheet_config) (user_name : string)
           (since until : datetime) (run : run_state) (data : list (list string))
  : loop_state :=
  fold_left (process_row conf user_name since until) data
    (mk_state (run_total_rows run) (run_name_matches run)
              (run_matching_sales run) (run_sample_dates run) 0%float 0).

(** The body of the loop over [SHEETS_IDS].  [fetch] is the request
    [service.spreadsheets().values().get(...).execute()] followed by
    [result.get('values', [])]; an exception it raises is caught by the
    [except Exception] of the loop. *)
Definition process_sheet (fetch : string -> outcome (list (list string)))
           (user_name : string) (since until : datetime)
           (run : run_state) (sheet_id : string) : run_state :=
  let conf := get_config SHEET_CONFIGS sheet_id in
  match fetch sheet_id with
  | Raise _ => run
  | Return [] => run
  | Return (_ :: data) =>
    let st := process_rows conf user_name since until run data in
    if (0 <? sheet_total st)%float then
      mk_run (totals run + sheet_total st)%float
             (dict_set sheet_id (sheet_total st) (breakdown run))
             (total_rows st) (name_matches st) (matching_sales st)
             (sample_dates st)
    else
      mk_run (totals run) (breakdown run)
             (total_rows st) (name_matches st) (matching_sales st)
             (sample_dates st)
  end.

(** What the function reads from its surroundings. *)
Record environment : Type := mk_env {
  (** [os.getenv('GOOGLE_SERVICE_ACCOUNT_JSON')] *)
  SERVICE_ACCOUNT_JSON : option string;
  (** [os.path.exists] *)
  path_exists : string -> bool;
  (** whether [service_account] and [build] were imported *)
  google_client_installed : bool;
  (** [str(e)] of the exception that building the credentials and the
      service raises, if it raises one *)
  service_error : option string;
  SHEETS_IDS : list string;
  fetch_values : string -> outcome (list (list string));
  (** the readings of [datetime.utcnow()] for [since] and for [until] *)
  utcnow_since : datetime;
  utcnow_until : datetime
}.

Record debug_info : Type := mk_debug {
  dbg_total_rows : Z;
  dbg_name_matches : Z;
  dbg_matching_sales : Z;
  dbg_date_range : string;
  dbg_sample_dates : string
}.

(** The returned dictionary: [total], [per_sheet], and either [error] or
    [debug_info]. *)
Record sales_result : Type := mk_result {
  total : float;
  per_sheet : dict;
  error : option string;
  debug : option debug_info
}.

Definition window_since (env : environment) (days_ : Z) (start_date : option datetime)
  : outcome datetime :=
  match start_date with
  | Some sd => replace sd None (Some 0) (Some 0) (Some 0) (Some 0)
  | None =>
    since <- sub_days (utcnow_since env) (days_ - 1) ;;
    replace since None (Some 0) (Some 0) (Some 0) (Some 0)
  end.

Definition window_until (env : environment) (end_date : option datetime)
  : outcome datetime :=
  match end_date with
  | Some ed => replace ed None (Some 23) (Some 59) (Some 59) (Some 999999)
  | None => replace (utcnow_until env) None (Some 23) (Some 59) (Some 59) (Some 999999)
  end.

Definition fetch_sales_from_sheets (env : environment) (user_name : string)
           (days_ : Z) (start_date end_date : option datetime)
  : outcome sales_result :=
  if match SERVICE_ACCOUNT_JSON env with
     | None => true
     | Some "" => true
     | Some path => negb (path_exists env path)
     end
  then Return (mk_result 0 [] (Some "Service account not configured") None)
  else if negb (google_client_installed env)
  then Return (mk_result 0 [] (Some "Google API client not installed") None)
  else
    match service_error env with
    | Some e => Return (mk_result 0 [] (Some ("Authentication error: " ++ e)) None)
    | None =>
      since <- window_since env days_ start_date ;;
      until <- window_until env end_date ;;
      let run :=
        fold_left (process_sheet (fetch_values env) user_name since until)
                  (SHEETS_IDS env) initial_run in
      Return (mk_result (totals run) (breakdown run) None
                (Some (mk_debug (run_total_rows run) (run_name_matches run)
                         (run_matching_sales run)
                         (strftime_date since ++ " to " ++ strftime_date until)
                         (match run_sample_dates run with
                          | [] => "None found"
                          | l => join ", " (firstn 5 l)
                          end))))
    end.

(** ** Notions used in the statements *)

(** The year and month that precede month [m] of year [y]. *)
Definition prev_month (y m : Z) : Z * Z :=
  if (m =? 1)%Z then (y - 1, 12) else (y, m - 1).

(** The length of the month before the month of [dt]. *)
Definition prev_month_length (dt : datetime) : Z :=
  let '(py, pm) := prev_month (year dt) (month dt) in days_in_month py pm.

(** Day 28 of the month before the month of [dt], at midnight. *)
Definition prev_month_day28 (dt : datetime) : datetime :=
  let '(py, pm) := prev_month (year dt) (month dt) in
  mk_datetime py pm 28 0 0 0 0.

(** The midnight at which the window of [dt] starts: day 8, 18 or 28 of its
    month, or day 28 of the month before for the days 1 to 7. *)
Definition window_start (dt : datetime) : datetime :=
  let d := day dt in
  if (28 <=? d)%Z then mk_datetime (year dt) (month dt) 28 0 0 0 0
  else if (18 <=? d)%Z then mk_datetime (year dt) (month dt) 18 0 0 0 0
  else if (8 <=? d)%Z then mk_datetime (year dt) (month dt) 8 0 0 0 0
  else prev_month_day28 dt.

(** The start of the window of [dt] is a date that [datetime] can hold:
    this leaves out the first seven days of year 1 only, whose window would
    start before [datetime.min], and which no clock reads. *)
Definition window_start_exists (dt : datetime) : Prop :=
  7 < day dt \/ 1 < month dt \/ MINYEAR < year dt.

(** The calendar day after [(y, m, d)]. *)
Definition next_date (y m d : Z) : Z * Z * Z :=
  if (d <? days_in_month y m)%Z then (y, m, d + 1)
  else if (m <? 12)%Z then (y, m + 1, 1)
  else (y + 1, 1, 1).

(** Every character of [s] satisfies [p]. *)
Fixpoint all_chars (p : ascii -> bool) (s : string) : bool :=
  match s with
  | "" => true
  | String c s' => p c && all_chars p s'
  end.

(** The text [t] is matched, character by character, by the classes [cs]. *)
Fixpoint seq_ok (cs : list cls) (t : string) : Prop :=
  match cs, t with
  | [], "" => True
  | p :: cs', String c t' => p c = true /\ seq_ok cs' t'
  | _, _ => False
  end.

(** The characters of a date written with digits and slashes. *)
Definition date_char (c : ascii) : bool :=
  is_digit c || Ascii.eqb c "/" || Ascii.eqb c " ".

(** The shape of a text that the pattern of [%m/%d/%Y] matches to its end. *)
Definition slash_date_shape (s : string) : Prop :=
  exists tm td ty,
    s = tm ++ String "/" (td ++ String "/" ty) /\
    (exists cs, In cs (regex_of dir_m) /\ seq_ok cs tm) /\
    (exists cs, In cs (regex_of dir_d) /\ seq_ok cs td) /\
    (exists cs, In cs (regex_of dir_Y) /\ seq_ok cs ty).

(** What the cleaning and the earlier formats look at in a text of that
    shape. *)
Record slash_date_text (s : string) : Prop := {
  sd_chars : all_chars date_char s = true;
  sd_first : exists c r, s = String c r /\ is_digit c = true;
  sd_last : exists t c, s = t ++ String c "" /\ is_digit c = true;
  sd_slash : (exists c1 r, s = String c1 (String "/" r)) \/
             (exists c1 c2 r, s = String c1 (String c2 (String "/" r)))
}.

(** The subtotal that the row loop computes for a sheet, when the sheet can
    be read and has a header row. *)
Definition sheet_subtotal (fetch : string -> outcome (list (list string)))
           (user_name : string) (since until : datetime) (sheet_id : string)
  : option float :=
  match fetch sheet_id with
  | Return (_ :: data) =>
    Some (sheet_total (process_rows (get_config SHEET_CONFIGS sheet_id)
                                    user_name since until initial_run data))
  | _ => None
  end.

(** The number of rows of a sheet that the row loop examines. *)
Definition rows_examined (fetch : string -> outcome (list (list string)))
           (sheet_id : string) : Z :=
  match fetch sheet_id with
  | Return (_ :: data) => Z.of_nat (List.length data)
  | _ => 0
  end.

Definition sum_Z (l : list Z) : Z := fold_right Z.add 0 l.

(** The subtotals above zero of the sheets [ids], one for each time a
    sheet is listed. *)
Definition positive_subtotals (fetch : string -> outcome (list (list string)))
           (user_name : string) (since until : datetime) (ids : list string)
  : list float :=
  flat_map (fun id =>
              match sheet_subtotal fetch user_name since until id with
              | Some v => if (0 <? v)%float then [v] else []
              | None => []
              end) ids.

(** The requests for the sheets can be made: the service account file is
    named and exists, the client library is there, and building the
    service raises nothing. *)
Definition service_available (env : environment) : Prop :=
  (exists c path, SERVICE_ACCOUNT_JSON env = Some (String c path) /\
                  path_exists env (String c path) = true) /\
  google_client_installed env = true /\
  service_error env = None.

(** The characters that the cleaning of an amount keeps. *)
Definition amount_char (c : ascii) : bool :=
  negb (Ascii.eqb c "$" || Ascii.eqb c ",").

(** The environment with another list of sheets. *)
Definition with_sheets (env : environment) (ids : list string) : environment :=
  mk_env (SERVICE_ACCOUNT_JSON env) (path_exists env) (google_client_installed env)
         (service_error env) ids (fetch_values env) (utcnow_since env)
         (utcnow_until env).

(** The order of the three counters. *)
Definition counters_ok (st : loop_state) : Prop :=
  0 <= matching_sales st <= name_matches st /\ name_matches st <= total_rows st.

(** What holds of the state of the run after the sheets [seen]. *)
Record run_ok (fetch : string -> outcome (list (list string)))
       (user_name : string) (since until : datetime)
       (seen : list string) (run : run_state) : Prop := {
  ok_counters :
    0 <= run_matching_sales run <= run_name_matches run /\
    run_name_matches run <= run_total_rows run;
  ok_rows :
    run_total_rows run = sum_Z (map (rows_examined fetch) seen);
  ok_present :
    forall id v, dict_get id (breakdown run) = Some v ->
      In id seen /\ (0 <? v)%float = true /\
      sheet_subtotal fetch user_name since until id = Some v;
  ok_absent :
    forall id v, In id seen ->
      sheet_subtotal fetch user_name since until id = Some v ->
      (0 <? v)%float = false -> dict_get id (breakdown run) = None;
  ok_total :
    NoDup seen -> totals run = float_sum (dict_values (breakdown run))
}.

(** ** Sample data *)

Definition example_now : datetime := mk_datetime 2025 1 20 12 0 0 0.

Definition example_env (ids : list string)
           (fetch : string -> outcome (list (list string))) : environment :=
  mk_env (Some "service-account.json") (fun _ => true) true None ids fetch
         example_now example_now.

Definition example_header : list string :=
  ["Name"; "Team"; "Item"; "Date"; "Notes"; "Sale"].

Definition example_row (amount : string) : list string :=
  ["bob"; "north"; "widget"; "2025-01-15"; ""; amount].

(** A source in which the sheet [down] cannot be read and every other sheet
    holds one sale of 5. *)
Definition one_sale_source (sheet_id : string) : outcome (list (list string)) :=
  if String.eqb sheet_id "down" then Raise (HttpError "503")
  else Return [example_header; example_row "5"].

Definition january_start : datetime := mk_datetime 2025 1 1 0 0 0 0.

Definition january_end : datetime := mk_datetime 2025 1 31 0 0 0 0.

Definition example_result : sales_result :=
  mk_result 5 [("up", 5%float)] None
    (Some (mk_debug 1 1 1 "2025-01-01 to 2025-01-31" "2025-01-15")).

(** ** Notions of the further properties *)

(** A datetime lies in a range, both ends included: [s <= dt <= e]. *)
Definition in_range (dt : datetime) (r : datetime * datetime) : bool :=
  datetime_leb (fst r) dt && datetime_leb dt (snd r).

(** A character other than the separators [:], [-] and [/]. *)
Definition no_separator (c : ascii) : bool :=
  negb (Ascii.eqb c ":" || Ascii.eqb c "-" || Ascii.eqb c "/").

(** The literal characters of a compiled format. *)
Fixpoint literals (items : list fmt_item) : list ascii :=
  match items with
  | [] => []
  | Lit c :: items' => c :: literals items'
  | _ :: items' => literals items'
  end.

(** ** The users file *)

From Stdlib Require Import DecimalString DecimalPos DecimalZ.

(** [str(n)] for an integer. *)
Definition str_of_Z (z : Z) : string := NilZero.string_of_int (Z.to_int z).

(** The values that [json.load] returns. *)
#[warnings="-register-all"]
Inductive json : Type :=
| JNull
| JBool (b : bool)
| JInt (n : Z)
| JFloat (x : float)
| JStr (s : string)
| JList (l : list json)
| JDict (d : list (string * json)).

(** The truth value of a Python value in a condition. *)
Definition truthy (v : json) : bool :=
  match v with
  | JNull => false
  | JBool b => b
  | JInt n => negb (n =? 0)%Z
  | JFloat x => negb (x =? 0)%float
  | JStr s => negb (String.eqb s "")
  | JList l => match l with [] => false | _ :: _ => true end
  | JDict d => match d with [] => false | _ :: _ => true end
  end.

(** [type(v).__name__] *)
Definition type_name (v : json) : string :=
  match v with
  | JNull => "NoneType"
  | JBool _ => "bool"
  | JInt _ => "int"
  | JFloat _ => "float"
  | JStr _ => "str"
  | JList _ => "list"
  | JDict _ => "dict"
  end.

(** The text of a value in an f-string: a string is its own text, and
    [repr] gives the text of the other values. *)
Definition text_of (repr : json -> string) (v : json) : string :=
  match v with
  | JStr s => s
  | _ => repr v
  end.

(** [d[k] = v] *)
Fixpoint map_set (k : string) (v : json) (d : list (string * json))
  : list (string * json) :=
  match d with
  | [] => [(k, v)]
  | (k', v') :: d' =>
    if String.eqb k' k then (k, v) :: d' else (k', v') :: map_set k v d'
  end.

(** [d.get(k)] *)
Fixpoint map_get (k : string) (d : list (string * json)) : option json :=
  match d with
  | [] => None
  | (k', v') :: d' => if String.eqb k' k then Some v' else map_get k d'
  end.

(** The exceptions that end a command handler: those of the calendar, the
    exception [name] that reading the users file raises, and the two that
    a value of the wrong type gives. *)
Inductive failure : Type :=
| Exn (e : exn)
| ReadError (name : string)
| AttributeError (msg : string)
| TypeError (msg : string).

Inductive result (A : Type) : Type :=
| Ok (a : A)
| Failed (e : failure).

Arguments Ok {A} a.
Arguments Failed {A} e.

(** The content of [data/users.json], in a file system that works: no
    file; a text in UTF-8 that [json.load] reads as the value [v]; a text
    in UTF-8 that [json.load] rejects with [JSONDecodeError]; or a content
    on which reading raises another exception [name], as
    [UnicodeDecodeError] for bytes that are not UTF-8 and [RecursionError]
    for a nesting too deep. *)
Inductive users_file : Type :=
| NoFile
| JsonFile (v : json)
| BadJson
| Unreadable (name : string).

(** [ensure_data_dir()]: the file is created, with [{}], when it is absent. *)
Definition ensure_data_dir (f : users_file) : users_file :=
  match f with
  | NoFile => JsonFile (JDict [])
  | _ => f
  end.

(** [load_user_map()]: the file after the call, and what is returned or
    raised.  [JSONDecodeError] and [FileNotFoundError] give the empty
    mapping, every other exception goes through; a value that is no
    mapping is returned as it is. *)
Definition load_user_map (f : users_file) : users_file * result json :=
  let f := ensure_data_dir f in
  match f with
  | JsonFile v => (f, Ok v)
  | BadJson => (f, Ok (JDict []))
  | NoFile => (f, Ok (JDict []))
  | Unreadable name => (f, Failed (ReadError name))
  end.

(** [save_user_map(data)]: the file is created if need be, then
    overwritten. *)
Definition save_user_map (data : json) (f : users_file) : users_file :=
  let created := ensure_data_dir f in
  JsonFile data.

(** What the bot reads of a Telegram user. *)
Record telegram_user : Type := mk_user {
  user_id : Z;
  full_name : string
}.

(** [resolve_user_name(telegram_user)]; [DEFAULT_USER] is the stripped
    value of the variable [DEFAULT_USER_NAME], empty when it is not set.
    The value returned is the entry of the user when it is true, of
    whatever type it is. *)
Definition resolve_user_name (DEFAULT_USER : string) (f : users_file)
           (u : telegram_user) : users_file * result json :=
  match load_user_map f with
  | (f, Failed e) => (f, Failed e)
  | (f, Ok (JDict d)) =>
    let default :=
      match DEFAULT_USER with
      | "" => full_name u
      | String _ _ => DEFAULT_USER
      end in
    match map_get (str_of_Z (user_id u)) d with
    | Some mapped => if truthy mapped then (f, Ok mapped) else (f, Ok (JStr default))
    | None => (f, Ok (JStr default))
    end
  | (f, Ok v) =>
    (f, Failed (AttributeError
                  ("'" ++ type_name v ++ "' object has no attribute 'get'")))
  end.

Definition newline : string := String (ascii_of_nat 10) "".

Definition double_quote : string := String (ascii_of_nat 34) "".

(** What a command handler does: the users file it leaves, the replies it
    sends, in order, and the exception that ends it, if one does.  Sending
    a reply is taken to succeed. *)
Record handled : Type := mk_handled {
  file_after : users_file;
  replies : list string;
  raised : option failure
}.

(** The [TypeError] of [v[k] = ...] for a key that is a string and a value
    [v] that is no mapping. *)
Definition item_assignment_error (v : json) : failure :=
  match v with
  | JList _ => TypeError "list indices must be integers or slices, not str"
  | _ => TypeError ("'" ++ type_name v ++ "' object does not support item assignment")
  end.

(** [setname(update, context)]; [args] is [context.args]. *)
Definition setname (repr : json -> string) (DEFAULT_USER : string)
           (f : users_file) (u : telegram_user) (args : list string) : handled :=
  match args with
  | [] =>
    match resolve_user_name DEFAULT_USER f u with
    | (f, Failed e) => mk_handled f [] (Some e)
    | (f, Ok current_name) =>
      mk_handled f
        ["Current name: " ++ text_of repr current_name ++ newline ++ newline ++
         "Usage: /setname <name as it appears in the sheet>" ++ newline ++
         "Example: /setname John Smith"] None
    end
  | _ :: _ =>
    let name := strip (join " " args) in
    match load_user_map f with
    | (f, Failed e) => mk_handled f [] (Some e)
    | (f, Ok (JDict d)) =>
      let user_map := JDict (map_set (str_of_Z (user_id u)) (JStr name) d) in
      let f := save_user_map user_map f in
      mk_handled f
        ["✅ Saved! Your sheet name is now " ++ double_quote ++ name ++
         double_quote ++ "."] None
    | (f, Ok v) => mk_handled f [] (Some (item_assignment_error v))
    end
  end.

(** The users file reads as a mapping: it is absent, or rejected by
    [json.load] with [JSONDecodeError], or holds a JSON object. *)
Definition reads_as_mapping (f : users_file) : bool :=
  match f with
  | NoFile | BadJson | JsonFile (JDict _) => true
  | _ => false
  end.

(** ** The sales message *)

(** [s[-8:]] *)
Definition last8 (s : string) : string :=
  substring (String.length s - 8) 8 s.

(** The lines of the loop over [data['per_sheet'].items()];
    [format_2f x] stands for the text of [f"{x:.2f}"]. *)
Fixpoint breakdown_lines (format_2f : float -> string) (d : dict) : string :=
  match d with
  | [] => ""
  | (sheet_id, amount) :: d' =>
    "• Sheet ..." ++ last8 sheet_id ++ ": $" ++ format_2f amount ++ newline ++
    breakdown_lines format_2f d'
  end.

(** [build_sales_message(user_name, data, descriptor)] *)
Definition build_sales_message (format_2f : float -> string) (user_name : string)
           (data : sales_result) (descriptor : string) : string :=
  match error data with
  | Some e =>
    "❌ Error: " ++ e ++ newline ++ newline ++
    "Please contact the bot administrator."
  | None =>
    if (0 <? total data)%float then
      "💰 " ++ user_name ++ "'s sales for " ++ descriptor ++ ":" ++ newline ++ newline ++
      "**Total: $" ++ format_2f (total data) ++ "**" ++ newline ++ newline ++
      match per_sheet data with
      | [] => ""
      | _ :: _ =>
        "Breakdown by sheet:" ++ newline ++ breakdown_lines format_2f (per_sheet data)
      end ++
      match debug data with
      | Some d =>
        newline ++ "📊 Debug: " ++ str_of_Z (dbg_matching_sales d) ++ " sales found"
      | None => ""
      end
    else
      "📊 " ++ user_name ++ ": No sales found for " ++ descriptor ++ newline ++ newline ++
      match debug data with
      | Some d =>
        "Debug info:" ++ newline ++
        "• Total rows checked: " ++ str_of_Z (dbg_total_rows d) ++ newline ++
        "• Rows with your name: " ++ str_of_Z (dbg_name_matches d) ++ newline ++
        "• Date range: " ++ dbg_date_range d ++ newline ++
        "• Sample dates found: " ++ dbg_sample_dates d
      | None => ""
      end
  end.

(** ** The sales commands *)

(** The row loop of a sheet when [user_name] is no string: at the first row
    that has the columns of the layout, [user_name.lower()] raises
    [AttributeError], which ends the work on the sheet.  The rows counted in
    [total_rows] by then. *)
Fixpoint rows_until_name (conf : sheet_config) (data : list (list string)) : Z :=
  match data with
  | [] => 0
  | row :: data' =>
    if (List.length row <=?
        Nat.max (name_idx conf) (Nat.max (date_idx conf) (sale_idx conf)))%nat
    then 1 + rows_until_name conf data'
    else 1
  end.

(** The body of the loop over [SHEETS_IDS] in that case: the exception is
    caught by the [except Exception] of the loop, before the subtotal is
    looked at. *)
Definition process_sheet_no_name (fetch : string -> outcome (list (list string)))
           (run : run_state) (sheet_id : string) : run_state :=
  match fetch sheet_id with
  | Return (_ :: data) =>
    mk_run (totals run) (breakdown run)
           (run_total_rows run +
            rows_until_name (get_config SHEET_CONFIGS sheet_id) data)
           (run_name_matches run) (run_matching_sales run) (run_sample_dates run)
  | _ => run
  end.

(** [fetch_sales_from_sheets] for the value that [resolve_user_name]
    returns, a string or not. *)
Definition fetch_sales_for (env : environment) (user : json) (days_ : Z)
           (start_date end_date : option datetime) : outcome sales_result :=
  match user with
  | JStr user_name =>
    fetch_sales_from_sheets env user_name days_ start_date end_date
  | _ =>
    if match SERVICE_ACCOUNT_JSON env with
       | None => true
       | Some "" => true
       | Some path => negb (path_exists env path)
       end
    then Return (mk_result 0 [] (Some "Service account not configured") None)
    else if negb (google_client_installed env)
    then Return (mk_result 0 [] (Some "Google API client not installed") None)
    else
      match service_error env with
      | Some e => Return (mk_result 0 [] (Some ("Authentication error: " ++ e)) None)
      | None =>
        since <- window_since env days_ start_date ;;
        until <- window_until env end_date ;;
        let run :=
          fold_left (process_sheet_no_name (fetch_values env))
                    (SHEETS_IDS env) initial_run in
        Return (mk_result (totals run) (breakdown run) None
                  (Some (mk_debug (run_total_rows run) (run_name_matches run)
                           (run_matching_sales run)
                           (strftime_date since ++ " to " ++ strftime_date until)
                           (match run_sample_dates run with
                            | [] => "None found"
                            | l => join ", " (firstn 5 l)
                            end))))
      end
  end.

(** [mysales(update, context)]; [today] is the clock reading of
    [calculate_window_days]. *)
Definition mysales (repr : json -> string) (format_2f : float -> string)
           (DEFAULT_USER : string) (env : environment) (today : datetime)
           (f : users_file) (u : telegram_user) : handled :=
  match resolve_user_name DEFAULT_USER f u with
  | (f, Failed e) => mk_handled f [] (Some e)
  | (f, Ok user) =>
    let user_name := text_of repr user in
    match calculate_window_days today with
    | Raise e => mk_handled f [] (Some (Exn e))
    | Return days_ =>
      let checking := "🔍 Checking sales for " ++ user_name ++ "..." in
      match fetch_sales_for env user days_ None None with
      | Raise e => mk_handled f [checking] (Some (Exn e))
      | Return data =>
        let descriptor := "the current window (" ++ str_of_Z days_ ++ " days)" in
        mk_handled f [checking;
                      build_sales_message format_2f user_name data descriptor] None
      end
    end
  end.

(** [week(update, context)] *)
Definition week (repr : json -> string) (format_2f : float -> string)
           (DEFAULT_USER : string) (env : environment) (today : datetime)
           (f : users_file) (u : telegram_user) : handled :=
  mysales repr format_2f DEFAULT_USER env today f u.

(** [_send_window_sales(update, label, start, end)]; the call of
    [fetch_sales_from_sheets] leaves [days] at its default, 1. *)
Definition _send_window_sales (repr : json -> string) (format_2f : float -> string)
           (DEFAULT_USER : string) (env : environment) (f : users_file)
           (u : telegram_user) (label : string) (start end_ : datetime) : handled :=
  match resolve_user_name DEFAULT_USER f u with
  | (f, Failed e) => mk_handled f [] (Some e)
  | (f, Ok user) =>
    let user_name := text_of repr user in
    let descriptor :=
      label ++ " window (" ++ strftime_date start ++ " - " ++
      strftime_date end_ ++ ")" in
    let checking := "🔍 Checking " ++ descriptor ++ " for " ++ user_name ++ "..." in
    match fetch_sales_for env user 1 (Some start) (Some end_) with
    | Raise e => mk_handled f [checking] (Some (Exn e))
    | Return data =>
      mk_handled f [checking;
                    build_sales_message format_2f user_name data descriptor] None
    end
  end.

(** [first_window(update, context)]; [today] is the clock reading of
    [get_window_range]. *)
Definition first_window (repr : json -> string) (format_2f : float -> string)
           (DEFAULT_USER : string) (env : environment) (today : datetime)
           (f : users_file) (u : telegram_user) : handled :=
  match get_window_range today "first" with
  | Raise e => mk_handled f [] (Some (Exn e))
  | Return (start, end_) =>
    _send_window_sales repr format_2f DEFAULT_USER env f u "the 28th-7th" start end_
  end.

(** [second_window(update, context)] *)
Definition second_window (repr : json -> string) (format_2f : float -> string)
           (DEFAULT_USER : string) (env : environment) (today : datetime)
           (f : users_file) (u : telegram_user) : handled :=
  match get_window_range today "second" with
  | Raise e => mk_handled f [] (Some (Exn e))
  | Return (start, end_) =>
    _send_window_sales repr format_2f DEFAULT_USER env f u "the 8th-17th" start end_
  end.

(** [third_window(update, context)] *)
Definition third_window (repr : json -> string) (format_2f : float -> string)
           (DEFAULT_USER : string) (env : environment) (today : datetime)
           (f : users_file) (u : telegram_user) : handled :=
  match get_window_range today "third" with
  | Raise e => mk_handled f [] (Some (Exn e))
  | Return (start, end_) =>
    _send_window_sales repr format_2f DEFAULT_USER env f u "the 18th-27th" start end_
  end.

(** ** Dates written as [YYYY-MM-DD] *)

(** The characters of such a date. *)
Definition iso_char (c : ascii) : bool := is_digit c || Ascii.eqb c "-".

(** ** The rows of a user *)

(** The two tests that a data row passes before the row loop reads it as a
    row of [user_name]: it has the columns of the layout, and its name cell,
    stripped, is the user name, whatever the case. *)
Definition own_row (conf : sheet_config) (user_name : string) (row : list string)
  : bool :=
  negb (List.length row <=?
        Nat.max (name_idx conf) (Nat.max (date_idx conf) (sale_idx conf)))%nat &&
  String.eqb (lower (strip (nth (name_idx conf) row ""))) (lower user_name).

(** The source [fetch] without the data rows of the other users. *)
Definition own_rows_only (user_name : string)
           (fetch : string -> outcome (list (list string))) (sheet_id : string)
  : outcome (list (list string)) :=
  match fetch sheet_id with
  | Return (header :: data) =>
    Return (header :: filter (own_row (get_config SHEET_CONFIGS sheet_id) user_name) data)
  | r => r
  end.

(** [env] with another source of sheet values. *)
Definition with_source (env : environment)
           (fetch : string -> outcome (list (list string))) : environment :=
  mk_env (SERVICE_ACCOUNT_JSON env) (path_exists env) (google_client_installed env)
         (service_error env) (SHEETS_IDS env) fetch (utcnow_since env)
         (utcnow_until env).

(** [res] with [n] as the count of the rows examined. *)
Definition with_total_rows (n : Z) (res : sales_result) : sales_result :=
  mk_result (total res) (per_sheet res) (error res)
    (match debug res with
     | Some d =>
       Some (mk_debug n (dbg_name_matches d) (dbg_matching_sales d)
                      (dbg_date_range d) (dbg_sample_dates d))
     | None => None
     end).

(** The row loop on all the rows, [st], and on the rows of the user alone,
    [st']: the same state but for the count of the rows examined, which for
    [st'] is the count of the rows of the user. *)
Definition same_sales (st st' : loop_state) : Prop :=
  name_matches st' = name_matches st /\
  matching_sales st' = matching_sales st /\
  sample_dates st' = sample_dates st /\
  sheet_total st' = sheet_total st /\
  sheet_sales_count st' = sheet_sales_count st /\
  total_rows st' = name_matches st'.

(** The same for the loop over the sheets. *)
Definition same_run (run run' : run_state) : Prop :=
  totals run' = totals run /\
  breakdown run' = breakdown run /\
  run_name_matches run' = run_name_matches run /\
  run_matching_sales run' = run_matching_sales run /\
  run_sample_dates run' = run_sample_dates run /\
  run_total_rows run' = run_name_matches run'.

(** A source in which every sheet holds a sale of the user [bob], a sale of
    another user and a row that is too short. *)
Definition shared_source (sheet_id : string) : outcome (list (list string)) :=
  Return [example_header; example_row "5";
          ["alice"; "north"; "widget"; "2025-01-16"; ""; "7"]; ["bob"]].

(** ** Tactics *)

(** Linear arithmetic with division and remainder by constants. *)
Ltac zdiv := Z.to_euclidean_division_equations; lia.

(** The cases [x = k], [x = k + 1], ... for [n] values of an integer in a
    known range. *)
Ltac enum_Z x k n :=
  lazymatch n with
  | O => exfalso; lia
  | S ?n' =>
    destruct (Z.eq_dec x k) as [-> | ?];
    [ | let k' := eval compute in (k + 1) in enum_Z x k' n' ]
  end.

(** The 256 characters, one by one. *)
Ltac each_char c :=
  let b0 := fresh "b" in let b1 := fresh "b" in let b2 := fresh "b" in
  let b3 := fresh "b" in let b4 := fresh "b" in let b5 := fresh "b" in
  let b6 := fresh "b" in let b7 := fresh "b" in
  destruct c as [b0 b1 b2 b3 b4 b5 b6 b7];
  destruct b0, b1, b2, b3, b4, b5, b6, b7.

(** Membership in a list that is written out. *)
Ltac in_list := unfold In; repeat first [left; reflexivity | right].

(** From [p c = true], for a class [p] of a written-out list, the fact that
    the lemma [lem] gives about [c]. *)
Ltac class_fact lem H :=
  match type of H with
  | ?p ?c = true => apply (lem p c ltac:(in_list)) in H
  end.

(** * Proofs *)

(** ** Calendar arithmetic *)

Local Close Scope string_scope.

Lemma year_decomp (Y : Z) : 0 <= Y ->
  exists a b c e, Y = 400*a + 100*b + 4*c + e /\ 0 <= a /\ 0 <= b <= 3 /\ 0 <= c <= 24 /\ 0 <= e <= 3.
Proof.
  intros. exists (Y/400), (Y mod 400 / 100), (Y mod 100 / 4), (Y mod 4). zdiv.
Qed.

Lemma days_before_year_decomp (a b c e : Z) :
  0 <= a -> 0 <= b <= 3 -> 0 <= c <= 24 -> 0 <= e <= 3 ->
  days_before_year (400*a + 100*b + 4*c + e + 1) = 146097*a + 36524*b + 1461*c + 365*e.
Proof.
  intros. unfold days_before_year. cbv zeta.
  replace (400*a + 100*b + 4*c + e + 1 - 1) with (400*a + 100*b + 4*c + e) by lia.
  zdiv.
Qed.

Lemma is_leap_decomp (a b c e : Z) :
  0 <= a -> 0 <= b <= 3 -> 0 <= c <= 24 -> 0 <= e <= 3 ->
  is_leap (400*a + 100*b + 4*c + e + 1) = (e =? 3) && (negb (c =? 24) || (b =? 3)).
Proof.
  intros. unfold is_leap. apply eq_true_iff_eq.
  rewrite !andb_true_iff, !orb_true_iff, !negb_true_iff, !Z.eqb_eq, !Z.eqb_neq.
  zdiv.
Qed.

Lemma yday2md_correct (leap : bool) (m d : Z) :
  1 <= m <= 12 ->
  1 <= d <= DAYS_IN_MONTH m + (if (m =? 2) && leap then 1 else 0) ->
  yday2md leap (DAYS_BEFORE_MONTH m + (if (2 <? m) && leap then 1 else 0) + d - 1) = (m, d).
Proof.
  intros Hm Hd.
  destruct leap; enum_Z m 1 12%nat; cbn in Hd; enum_Z d 1 31%nat; try reflexivity; exfalso; lia.
Qed.

Lemma ord2ymd_decomp (a b c e r : Z) :
  0 <= a -> 0 <= b <= 3 -> 0 <= c <= 24 -> 0 <= e <= 3 ->
  let leap := (e =? 3) && (negb (c =? 24) || (b =? 3)) in
  0 <= r < 365 + (if leap then 1 else 0) ->
  ord2ymd (146097*a + 36524*b + 1461*c + 365*e + r + 1) =
  (400*a + 100*b + 4*c + e + 1, fst (yday2md leap r), snd (yday2md leap r)).
Proof.
  intros Ha Hb Hc He leap Hr.
  unfold ord2ymd, DI400Y, DI100Y, DI4Y. cbv zeta.
  set (N := 146097*a + 36524*b + 1461*c + 365*e + r + 1 - 1).
  assert (Hleap : leap = true <-> e = 3 /\ (c <> 24 \/ b = 3)).
  { unfold leap. rewrite andb_true_iff, orb_true_iff, negb_true_iff, !Z.eqb_eq, Z.eqb_neq. tauto. }
  destruct (Z.eq_dec r 365) as [Hr365 | Hr365].
  - (* the last day of a leap year *)
    assert (Hl : leap = true) by (destruct leap; [reflexivity | lia]).
    rewrite Hl. subst r. apply Hleap in Hl. destruct Hl as [-> Hcb].
    replace (yday2md true 365) with (12, 31) by reflexivity. cbn [fst snd].
    assert (H400 : N / 146097 = a) by (unfold N; zdiv).
    assert (M400 : N mod 146097 = 36524*b + 1461*c + 1460) by (unfold N; zdiv).
    rewrite H400, M400.
    destruct (Z.eq_dec c 24) as [-> | Hc24].
    + assert (b = 3) by lia. subst b.
      change ((36524 * 3 + 1461 * 24 + 1460) / 36524) with 4.
      change ((36524 * 3 + 1461 * 24 + 1460) mod 36524) with 0.
      change (0 mod 1461) with 0. change (0 / 1461) with 0. change (0 / 365) with 0.
      change ((0 =? 4) || (4 =? 4)) with true. cbv iota.
      f_equal. f_equal. lia.
    + assert (H100 : (36524*b + 1461*c + 1460) / 36524 = b) by zdiv.
      assert (M100 : (36524*b + 1461*c + 1460) mod 36524 = 1461*c + 1460) by zdiv.
      rewrite H100, M100.
      assert (H4 : (1461*c + 1460) / 1461 = c) by zdiv.
      assert (M4 : (1461*c + 1460) mod 1461 = 1460) by zdiv.
      rewrite H4, M4.
      change (1460 / 365) with 4. change ((4 =? 4) || (b =? 4)) with true. cbv iota.
      f_equal. f_equal. lia.
  - assert (Hr' : 0 <= r < 365) by (destruct leap; lia).
    assert (H400 : N / 146097 = a) by (unfold N; zdiv).
    assert (M400 : N mod 146097 = 36524*b + 1461*c + 365*e + r) by (unfold N; zdiv).
    rewrite H400, M400.
    assert (Hbound : 1461*c + 365*e + r < 36524).
    { destruct (Z.eq_dec c 24); destruct (Z.eq_dec e 3); destruct (Z.eq_dec b 3); try lia. }
    assert (H100 : (36524*b + 1461*c + 365*e + r) / 36524 = b) by zdiv.
    assert (M100 : (36524*b + 1461*c + 365*e + r) mod 36524 = 1461*c + 365*e + r) by zdiv.
    rewrite H100, M100.
    assert (H4 : (1461*c + 365*e + r) / 1461 = c) by zdiv.
    assert (M4 : (1461*c + 365*e + r) mod 1461 = 365*e + r) by zdiv.
    rewrite H4, M4.
    assert (H1 : (365*e + r) / 365 = e) by zdiv.
    assert (M1 : (365*e + r) mod 365 = r) by zdiv.
    rewrite H1, M1.
    replace ((e =? 4) || (b =? 4)) with false
      by (symmetry; apply orb_false_iff; split; apply Z.eqb_neq; lia).
    fold leap. destruct (yday2md leap r) as [m d]. cbn [fst snd].
    f_equal. f_equal. lia.
Qed.

Lemma check_date_fields_spec (y m d : Z) :
  check_date_fields y m d = true <->
  MINYEAR <= y <= MAXYEAR /\ 1 <= m <= 12 /\ 1 <= d <= days_in_month y m.
Proof.
  unfold check_date_fields. rewrite !andb_true_iff, !Z.leb_le. tauto.
Qed.

Lemma days_in_month_alt (y m : Z) :
  days_in_month y m = DAYS_IN_MONTH m + (if (m =? 2) && is_leap y then 1 else 0).
Proof.
  unfold days_in_month.
  destruct (Z.eqb_spec m 2) as [-> | ?]; cbn [andb]; [destruct (is_leap y); reflexivity | lia].
Qed.

(** [_ord2ymd] undoes [_ymd2ord] on every date from year 1 on. *)
Lemma ord2ymd_ymd2ord (y m d : Z) :
  1 <= y -> 1 <= m <= 12 -> 1 <= d <= days_in_month y m ->
  ord2ymd (ymd2ord y m d) = (y, m, d).
Proof.
  intros Hy Hm Hd.
  destruct (year_decomp (y - 1)) as (a & b & c & e & HY & Ha & Hb & Hc & He); [lia|].
  assert (Ey : y = 400*a + 100*b + 4*c + e + 1) by lia.
  unfold ymd2ord, days_before_month.
  rewrite days_in_month_alt in Hd.
  rewrite Ey in Hd |- *.
  rewrite days_before_year_decomp, is_leap_decomp in * by assumption.
  set (leap := (e =? 3) && (negb (c =? 24) || (b =? 3))) in *.
  set (r := DAYS_BEFORE_MONTH m + (if (2 <? m) && leap then 1 else 0) + d - 1).
  replace (146097*a + 36524*b + 1461*c + 365*e +
           (DAYS_BEFORE_MONTH m + (if (2 <? m) && leap then 1 else 0)) + d)
    with (146097*a + 36524*b + 1461*c + 365*e + r + 1) by (unfold r; lia).
  assert (Hmd : yday2md leap r = (m, d)) by (apply yday2md_correct; assumption).
  rewrite ord2ymd_decomp; try assumption.
  - fold leap. rewrite Hmd. reflexivity.
  - fold leap. unfold r. clear - Hm Hd.
    destruct leap; enum_Z m 1 12%nat;
      cbv [DAYS_BEFORE_MONTH DAYS_IN_MONTH Z.eqb Z.ltb Z.compare Pos.compare Pos.compare_cont andb Pos.eqb] in *; lia.
Qed.

Lemma days_in_month_bounds (y m : Z) : 1 <= m <= 12 -> 28 <= days_in_month y m <= 31.
Proof.
  intros Hm. unfold days_in_month.
  enum_Z m 1 12%nat; cbn [Z.eqb Pos.eqb andb DAYS_IN_MONTH]; try lia.
  destruct (is_leap y); cbn; lia.
Qed.

Lemma days_before_year_succ (y : Z) :
  1 <= y ->
  days_before_year (y + 1) = days_before_year y + 365 + (if is_leap y then 1 else 0).
Proof.
  intros Hy. unfold days_before_year. cbv zeta.
  replace (y + 1 - 1) with y by lia.
  destruct (is_leap y) eqn:E; unfold is_leap in E.
  - rewrite andb_true_iff, orb_true_iff, negb_true_iff, !Z.eqb_eq, Z.eqb_neq in E. zdiv.
  - rewrite andb_false_iff, orb_false_iff, negb_false_iff, !Z.eqb_neq, Z.eqb_eq in E. zdiv.
Qed.

Lemma days_before_month_succ (y m : Z) :
  1 <= m <= 11 ->
  days_before_month y (m + 1) = days_before_month y m + days_in_month y m.
Proof.
  intros Hm. unfold days_before_month, days_in_month.
  enum_Z m 1 11%nat; destruct (is_leap y); reflexivity.
Qed.

(** The first day of a month comes right after the last day of the month
    before it. *)
Lemma ymd2ord_month_start (y m : Z) :
  1 <= m <= 12 -> (1 < y \/ 1 < m) ->
  let '(py, pm) := prev_month y m in
  ymd2ord y m 1 = ymd2ord py pm (days_in_month py pm) + 1.
Proof.
  intros Hm Hy. unfold prev_month.
  destruct (Z.eqb_spec m 1) as [-> | Hm1].
  - unfold ymd2ord. replace y with (y - 1 + 1) at 1 by lia.
    rewrite days_before_year_succ by lia.
    unfold days_before_month, days_in_month.
    replace (y - 1 + 1) with y by lia. cbn [DAYS_BEFORE_MONTH DAYS_IN_MONTH Z.ltb Z.eqb Z.compare Pos.compare Pos.compare_cont Pos.eqb andb].
    destruct (is_leap (y - 1)); lia.
  - unfold ymd2ord. replace m with (m - 1 + 1) at 1 by lia.
    rewrite days_before_month_succ by lia. lia.
Qed.

Lemma prev_month_valid (y m : Z) :
  1 <= m <= 12 -> (1 < y \/ 1 < m) -> 1 <= y ->
  1 <= fst (prev_month y m) <= y /\ 1 <= snd (prev_month y m) <= 12.
Proof.
  intros. unfold prev_month. destruct (Z.eqb_spec m 1); cbn [fst snd]; lia.
Qed.

Lemma new_datetime_ok (y m d h mi s us : Z) :
  check_date_fields y m d = true -> check_time_fields h mi s us = true ->
  new_datetime y m d h mi s us = Return (mk_datetime y m d h mi s us).
Proof.
  intros Hd Ht. unfold new_datetime. rewrite Hd, Ht. reflexivity.
Qed.

Lemma check_date_fields_day (y m d d' : Z) :
  check_date_fields y m d = true -> 1 <= d' <= 28 ->
  check_date_fields y m d' = true.
Proof.
  rewrite !check_date_fields_spec. intros (Hy & Hm & Hd) Hd'.
  pose proof (days_in_month_bounds y m Hm). lia.
Qed.

Lemma check_date_fields_day_le (y m d d' : Z) :
  check_date_fields y m d = true -> 1 <= d' <= d ->
  check_date_fields y m d' = true.
Proof.
  rewrite !check_date_fields_spec. intros (Hy & Hm & Hd) Hd'. lia.
Qed.

Lemma check_time_fields_spec (h mi s us : Z) :
  check_time_fields h mi s us = true <->
  0 <= h <= 23 /\ 0 <= mi <= 59 /\ 0 <= s <= 59 /\ 0 <= us <= 999999.
Proof.
  unfold check_time_fields. rewrite !andb_true_iff, !Z.leb_le. tauto.
Qed.

(** Subtracting a midnight from a later instant of the same or a later day
    gives the difference of the ordinals as [days]. *)
Lemma sub_datetime_midnight_days (a : datetime) (y m d : Z) :
  check_time_fields (hour a) (minute a) (second a) (microsecond a) = true ->
  days (sub_datetime a (mk_datetime y m d 0 0 0 0)) = toordinal a - ymd2ord y m d.
Proof.
  rewrite check_time_fields_spec. intros Ht.
  unfold sub_datetime, new_timedelta, toordinal. cbn [days year month day hour minute second microsecond].
  zdiv.
Qed.

Lemma ymd2ord_range (y m d : Z) :
  MINYEAR <= y <= MAXYEAR -> 1 <= m <= 12 -> 1 <= d <= days_in_month y m ->
  0 < ymd2ord y m d <= MAXORDINAL.
Proof.
  unfold MINYEAR, MAXYEAR, MAXORDINAL. intros Hy Hm Hd.
  assert (Hyear : days_before_month y m + d <= 365 + (if is_leap y then 1 else 0)).
  { unfold days_before_month. unfold days_in_month in Hd.
    destruct (is_leap y); enum_Z m 1 12%nat;
      cbn [DAYS_BEFORE_MONTH DAYS_IN_MONTH Z.ltb Z.eqb Z.compare Pos.compare
           Pos.compare_cont Pos.eqb andb] in *; lia. }
  assert (Hpos : 0 <= days_before_month y m).
  { unfold days_before_month.
    destruct (is_leap y); enum_Z m 1 12%nat; cbn; lia. }
  pose proof (days_before_year_succ y ltac:(lia)) as Hsucc.
  assert (Hlo : 0 <= days_before_year y) by (unfold days_before_year; zdiv).
  assert (Hhi : days_before_year (y + 1) <= 3652059) by (unfold days_before_year; zdiv).
  unfold ymd2ord. lia.
Qed.

(** [first - timedelta(days=1)] for the first day of a month: the last day of
    the month before, at the same time of day. *)
Lemma sub_days_month_start (y m h mi s us : Z) :
  check_date_fields y m 1 = true -> (1 < y \/ 1 < m) ->
  sub_days (mk_datetime y m 1 h mi s us) 1 =
  let '(py, pm) := prev_month y m in
  Return (mk_datetime py pm (days_in_month py pm) h mi s us).
Proof.
  rewrite check_date_fields_spec. unfold MINYEAR, MAXYEAR. intros (Hy & Hm & Hd) Hne.
  pose proof (ymd2ord_month_start y m Hm Hne) as Hord.
  pose proof (prev_month_valid y m Hm Hne ltac:(lia)) as Hpv.
  destruct (prev_month y m) as [py pm] eqn:Epm. cbn [fst snd] in Hpv.
  pose proof (days_in_month_bounds py pm ltac:(lia)) as Hdim.
  unfold sub_days, toordinal. cbn [year month day hour minute second microsecond].
  replace (ymd2ord y m 1 - 1) with (ymd2ord py pm (days_in_month py pm)) by lia.
  rewrite ord2ymd_ymd2ord by lia.
  assert (Hrange : 0 < ymd2ord py pm (days_in_month py pm) <= MAXORDINAL).
  { apply ymd2ord_range; unfold MINYEAR, MAXYEAR; lia. }
  destruct Hrange as [H0 H1].
  apply Z.ltb_lt in H0. apply Z.leb_le in H1. rewrite H0, H1. reflexivity.
Qed.

Lemma replace_midnight (dt : datetime) (d : Z) :
  check_date_fields (year dt) (month dt) d = true ->
  replace dt (Some d) (Some 0) (Some 0) (Some 0) (Some 0) =
  Return (mk_datetime (year dt) (month dt) d 0 0 0 0).
Proof.
  intros H. unfold replace. cbn [or_default]. apply new_datetime_ok; [assumption | reflexivity].
Qed.

Lemma calculate_window_days_anchor (today : datetime) :
  valid_datetime today ->
  (7 < day today \/ MINYEAR < year today \/ 1 < month today) ->
  calculate_window_days today =
  Return (toordinal today - toordinal (window_start today) + 1).
Proof.
  intros [Hd Ht] Hne. unfold MINYEAR in Hne.
  pose proof Hd as Hd'. rewrite check_date_fields_spec in Hd'. unfold MINYEAR, MAXYEAR in Hd'.
  destruct Hd' as (Hy & Hm & Hday).
  unfold calculate_window_days, window_start, prev_month_day28. cbv zeta.
  destruct (Z.leb_spec 28 (day today)) as [H28 | H28].
  - replace ((8 <=? day today) && (day today <=? 17)) with false by (symmetry; apply andb_false_iff; right; apply Z.leb_gt; lia).
    replace ((18 <=? day today) && (day today <=? 27)) with false by (symmetry; apply andb_false_iff; right; apply Z.leb_gt; lia).
    rewrite replace_midnight by (eapply check_date_fields_day; [eassumption | lia]).
    cbn [bind]. rewrite sub_datetime_midnight_days by assumption. reflexivity.
  - destruct (Z.leb_spec 18 (day today)) as [H18 | H18].
    + replace ((8 <=? day today) && (day today <=? 17)) with false by (symmetry; apply andb_false_iff; right; apply Z.leb_gt; lia).
      replace (day today <=? 27) with true by (symmetry; apply Z.leb_le; lia). cbn [andb].
      rewrite replace_midnight by (eapply check_date_fields_day; [eassumption | lia]).
      cbn [bind]. rewrite sub_datetime_midnight_days by assumption. reflexivity.
    + destruct (Z.leb_spec 8 (day today)) as [H8 | H8].
      * replace (day today <=? 17) with true by (symmetry; apply Z.leb_le; lia). cbn [andb].
        rewrite replace_midnight by (eapply check_date_fields_day; [eassumption | lia]).
        cbn [bind]. rewrite sub_datetime_midnight_days by assumption. reflexivity.
      * cbn [andb].
        assert (Hfirst : check_date_fields (year today) (month today) 1 = true)
          by (eapply check_date_fields_day; [eassumption | lia]).
        unfold replace at 1. cbn [or_default].
        rewrite new_datetime_ok by assumption. cbn [bind].
        rewrite sub_days_month_start by (assumption || lia).
        pose proof (prev_month_valid (year today) (month today) Hm ltac:(lia) ltac:(lia)) as Hpv.
        destruct (prev_month (year today) (month today)) as [py pm]. cbn [fst snd] in Hpv.
        cbn [bind].
        pose proof (days_in_month_bounds py pm ltac:(lia)) as Hdim.
        rewrite replace_midnight; cbn [year month].
        2:{ apply check_date_fields_spec. unfold MINYEAR, MAXYEAR. lia. }
        cbn [bind]. rewrite sub_datetime_midnight_days by assumption. reflexivity.
Qed.

Lemma toordinal_same_month (dt : datetime) (d : Z) :
  toordinal dt - ymd2ord (year dt) (month dt) d = day dt - d.
Proof. unfold toordinal, ymd2ord. lia. Qed.

Lemma toordinal_prev_month (dt : datetime) :
  1 <= month dt <= 12 -> (1 < year dt \/ 1 < month dt) ->
  let '(py, pm) := prev_month (year dt) (month dt) in
  toordinal dt - ymd2ord py pm 28 = day dt + days_in_month py pm - 28.
Proof.
  intros Hm Hne. pose proof (ymd2ord_month_start _ _ Hm Hne) as H.
  destruct (prev_month (year dt) (month dt)) as [py pm].
  unfold toordinal, ymd2ord in *. lia.
Qed.

Lemma calculate_window_days_value (today : datetime) :
  valid_datetime today ->
  (7 < day today \/ MINYEAR < year today \/ 1 < month today) ->
  calculate_window_days today =
  Return (let d := day today in
          if 28 <=? d then d - 27
          else if 18 <=? d then d - 17
          else if 8 <=? d then d - 7
          else d + (prev_month_length today - 27)).
Proof.
  intros Hv Hne. rewrite calculate_window_days_anchor by assumption.
  destruct Hv as [Hd Ht]. rewrite check_date_fields_spec in Hd. unfold MINYEAR, MAXYEAR in *.
  destruct Hd as (Hy & Hm & Hday).
  f_equal. unfold window_start, prev_month_day28, prev_month_length. cbv zeta.
  destruct (Z.leb_spec 28 (day today)); [unfold toordinal at 2; cbn [year month day]; rewrite toordinal_same_month; lia|].
  destruct (Z.leb_spec 18 (day today)); [unfold toordinal at 2; cbn [year month day]; rewrite toordinal_same_month; lia|].
  destruct (Z.leb_spec 8 (day today)); [unfold toordinal at 2; cbn [year month day]; rewrite toordinal_same_month; lia|].
  pose proof (toordinal_prev_month today Hm ltac:(lia)) as Hprev.
  destruct (prev_month (year today) (month today)) as [py pm].
  unfold toordinal at 2; cbn [year month day]. lia.
Qed.

Lemma valid_datetime_date (dt : datetime) :
  valid_datetime dt ->
  1 <= year dt <= 9999 /\ 1 <= month dt <= 12 /\
  1 <= day dt <= days_in_month (year dt) (month dt).
Proof.
  intros [Hd _]. rewrite check_date_fields_spec in Hd. exact Hd.
Qed.

(** [_ymd2ord] is one-to-one on dates. *)
Lemma ymd2ord_inj (y1 m1 d1 y2 m2 d2 : Z) :
  1 <= y1 -> 1 <= m1 <= 12 -> 1 <= d1 <= days_in_month y1 m1 ->
  1 <= y2 -> 1 <= m2 <= 12 -> 1 <= d2 <= days_in_month y2 m2 ->
  ymd2ord y1 m1 d1 = ymd2ord y2 m2 d2 ->
  y1 = y2 /\ m1 = m2 /\ d1 = d2.
Proof.
  intros Hy1 Hm1 Hd1 Hy2 Hm2 Hd2 E.
  pose proof (ord2ymd_ymd2ord y1 m1 d1 Hy1 Hm1 Hd1) as R1.
  pose proof (ord2ymd_ymd2ord y2 m2 d2 Hy2 Hm2 Hd2) as R2.
  rewrite E in R1. rewrite R1 in R2. inversion R2. auto.
Qed.

Lemma next_date_spec (y m d : Z) :
  1 <= y -> 1 <= m <= 12 -> 1 <= d <= days_in_month y m ->
  let '(y', m', d') := next_date y m d in
  ymd2ord y' m' d' = ymd2ord y m d + 1 /\
  1 <= y' /\ 1 <= m' <= 12 /\ 1 <= d' <= days_in_month y' m'.
Proof.
  intros Hy Hm Hd. unfold next_date.
  destruct (Z.ltb_spec d (days_in_month y m)) as [Hlt | Hge].
  - unfold ymd2ord. lia.
  - assert (d = days_in_month y m) by lia. subst d.
    destruct (Z.ltb_spec m 12) as [Hm12 | Hm12].
    + pose proof (ymd2ord_month_start y (m + 1) ltac:(lia) ltac:(lia)) as H.
      unfold prev_month in H. destruct (Z.eqb_spec (m + 1) 1); [lia|].
      replace (m + 1 - 1) with m in H by lia.
      pose proof (days_in_month_bounds y (m + 1) ltac:(lia)). lia.
    + assert (m = 12) by lia. subst m.
      pose proof (ymd2ord_month_start (y + 1) 1 ltac:(lia) ltac:(lia)) as H.
      unfold prev_month in H. cbn [Z.eqb Pos.eqb] in H.
      replace (y + 1 - 1) with y in H by lia.
      pose proof (days_in_month_bounds (y + 1) 1 ltac:(lia)). lia.
Qed.

Lemma tomorrow_date (today tomorrow : datetime) :
  valid_datetime today -> valid_datetime tomorrow ->
  toordinal tomorrow = toordinal today + 1 ->
  (year tomorrow, month tomorrow, day tomorrow) =
  next_date (year today) (month today) (day today).
Proof.
  intros H1 H2 E.
  apply valid_datetime_date in H1. apply valid_datetime_date in H2.
  destruct H1 as (Hy1 & Hm1 & Hd1). destruct H2 as (Hy2 & Hm2 & Hd2).
  pose proof (next_date_spec (year today) (month today) (day today) ltac:(lia) Hm1 Hd1) as N.
  destruct (next_date (year today) (month today) (day today)) as [[y' m'] d'].
  destruct N as (Eo & Hy' & Hm' & Hd').
  unfold toordinal in E.
  destruct (ymd2ord_inj (year tomorrow) (month tomorrow) (day tomorrow) y' m' d')
    as (-> & -> & ->); try assumption; try lia.
  reflexivity.
Qed.

Lemma calculate_window_days_tomorrow (today tomorrow : datetime) :
  valid_datetime today -> valid_datetime tomorrow ->
  window_start_exists today ->
  toordinal tomorrow = toordinal today + 1 ->
  day today <> 7 -> day today <> 17 -> day today <> 27 ->
  exists n, calculate_window_days today = Return n /\
            calculate_window_days tomorrow = Return (n + 1).
Proof.
  intros Hv1 Hv2 Hs1 Eo N7 N17 N27.
  pose proof (tomorrow_date today tomorrow Hv1 Hv2 Eo) as Et.
  pose proof (valid_datetime_date today Hv1) as (Hy1 & Hm1 & Hd1).
  pose proof (valid_datetime_date tomorrow Hv2) as (Hy2 & Hm2 & Hd2).
  pose proof (days_in_month_bounds (year today) (month today) Hm1) as Hdim.
  unfold window_start_exists, MINYEAR in *.
  eexists. split.
  - apply calculate_window_days_value; [assumption | unfold MINYEAR; lia].
  - unfold next_date in Et.
    destruct (Z.ltb_spec (day today) (days_in_month (year today) (month today))) as [Hlt | Hge].
    + injection Et as Ey Em Ed.
      rewrite calculate_window_days_value; [| assumption | unfold MINYEAR; lia].
      f_equal. cbv zeta. unfold prev_month_length. rewrite Ey, Em, Ed.
      repeat match goal with |- context [?a <=? ?b] => destruct (Z.leb_spec a b) end; lia.
    + assert (Elast : day today = days_in_month (year today) (month today)) by lia.
      assert (Hprev : prev_month (year tomorrow) (month tomorrow) = (year today, month today)).
      { unfold prev_month. destruct (Z.ltb_spec (month today) 12).
        - injection Et as Ey Em Ed. rewrite Ey, Em.
          destruct (Z.eqb_spec (month today + 1) 1); [lia|].
          f_equal; lia.
        - injection Et as Ey Em Ed. rewrite Ey, Em. cbn [Z.eqb Pos.eqb]. f_equal; lia. }
      assert (Ed : day tomorrow = 1) by (destruct (month today <? 12); injection Et as _ _ Ed; exact Ed).
      rewrite calculate_window_days_value; [| assumption | ].
      2:{ unfold MINYEAR. destruct (month today <? 12); injection Et as Ey Em Ed'; lia. }
      f_equal. cbv zeta. unfold prev_month_length. rewrite Hprev, Ed.
      repeat match goal with |- context [?a <=? ?b] => destruct (Z.leb_spec a b) end; lia.
Qed.

(** C2: [calculate_window_days] counts the days from the start of the
    window of today, that start included: the count is the distance from
    [window_start today], which is day 8, 18 or 28 of the month, or day 28
    of the month before for the days 1 to 7; day 8 gives 1, the days 8 to 17
    and 18 to 27 give 1 to 10, the days from 28 on give [day - 27], and the
    days 1 to 7 go on from the length [L] of the month before with
    [L - 27 + day].  From one day to the next of the window of day 28, the
    end of the month included, the count grows by exactly one. *)
Theorem calculate_window_days_windows (today tomorrow : datetime) :
  valid_datetime today -> valid_datetime tomorrow ->
  window_start_exists today ->
  calculate_window_days today =
    Return (toordinal today - toordinal (window_start today) + 1) /\
  (day today = 8 -> calculate_window_days today = Return 1) /\
  (8 <= day today <= 17 ->
     calculate_window_days today = Return (day today - 7) /\
     1 <= day today - 7 <= 10) /\
  (18 <= day today <= 27 ->
     calculate_window_days today = Return (day today - 17) /\
     1 <= day today - 17 <= 10) /\
  (28 <= day today ->
     calculate_window_days today = Return (day today - 27)) /\
  (day today <= 7 ->
     calculate_window_days today =
     Return (prev_month_length today - 27 + day today)) /\
  (toordinal tomorrow = toordinal today + 1 ->
   28 <= day today \/ day today < 7 ->
   exists n, calculate_window_days today = Return n /\
             calculate_window_days tomorrow = Return (n + 1)).
Proof.
  intros Hv1 Hv2 Hs.
  assert (Hs' : 7 < day today \/ MINYEAR < year today \/ 1 < month today)
    by (unfold window_start_exists in Hs; tauto).
  pose proof (calculate_window_days_value today Hv1 Hs') as Hval. cbv zeta in Hval.
  split; [apply calculate_window_days_anchor; assumption|].
  split; [intros E; rewrite Hval, E; reflexivity|].
  split; [intros R; split; [|lia]; rewrite Hval; f_equal;
          repeat match goal with |- context [?a <=? ?b] => destruct (Z.leb_spec a b) end; lia|].
  split; [intros R; split; [|lia]; rewrite Hval; f_equal;
          repeat match goal with |- context [?a <=? ?b] => destruct (Z.leb_spec a b) end; lia|].
  split; [intros R; rewrite Hval; f_equal;
          repeat match goal with |- context [?a <=? ?b] => destruct (Z.leb_spec a b) end; lia|].
  split; [intros R; rewrite Hval; f_equal;
          repeat match goal with |- context [?a <=? ?b] => destruct (Z.leb_spec a b) end; lia|].
  intros Eo Hin. apply calculate_window_days_tomorrow; try assumption; lia.
Qed.

Lemma calculate_window_days_windows_witness :
  calculate_window_days (mk_datetime 2025 1 31 9 30 0 0) = Return 4 /\
  calculate_window_days (mk_datetime 2025 2 1 0 0 0 0) = Return 5.
Proof.
  destruct (calculate_window_days_windows
              (mk_datetime 2025 1 31 9 30 0 0) (mk_datetime 2025 2 1 0 0 0 0))
    as (_ & _ & _ & _ & H28 & _ & Hnext).
  - split; reflexivity.
  - split; reflexivity.
  - left. cbn. lia.
  - destruct Hnext as (n & Hn & Hn1); [reflexivity | left; cbn; lia |].
    rewrite H28 in Hn by (cbn; lia). cbn in Hn. inversion Hn; subst n.
    split; [apply H28; cbn; lia | exact Hn1].
Defined.

(** C10: [calculate_window_days] returns a number from 1 to 11; it is 11
    exactly on day 7 of a month that follows a month of 31 days, and it is
    above 10 only for the days 1 to 7. *)
Theorem calculate_window_days_bounds (today : datetime) :
  valid_datetime today -> window_start_exists today ->
  exists n, calculate_window_days today = Return n /\
            1 <= n <= 11 /\
            (n = 11 <-> day today = 7 /\ prev_month_length today = 31) /\
            (10 < n -> day today <= 7).
Proof.
  intros Hv Hs.
  assert (Hs' : 7 < day today \/ MINYEAR < year today \/ 1 < month today)
    by (unfold window_start_exists in Hs; tauto).
  pose proof (calculate_window_days_value today Hv Hs') as Hval. cbv zeta in Hval.
  pose proof (valid_datetime_date today Hv) as (Hy & Hm & Hd).
  pose proof (days_in_month_bounds (year today) (month today) Hm) as Hdim.
  eexists. split; [exact Hval|].
  assert (Hprev : 7 < day today \/ 28 <= prev_month_length today <= 31).
  { destruct (Z.ltb_spec 7 (day today)); [left; assumption | right].
    unfold prev_month_length.
    pose proof (prev_month_valid (year today) (month today) Hm) as Hpv.
    unfold MINYEAR in Hs'.
    destruct (prev_month (year today) (month today)) as [py pm]. cbn [fst snd] in Hpv.
    apply days_in_month_bounds. lia. }
  repeat match goal with |- context [?a <=? ?b] => destruct (Z.leb_spec a b) end; lia.
Qed.

Lemma calculate_window_days_bounds_witness :
  exists n, calculate_window_days (mk_datetime 2025 8 7 23 59 59 999999) = Return n /\
            1 <= n <= 11 /\
            (n = 11 <-> 7 = 7 /\ prev_month_length (mk_datetime 2025 8 7 23 59 59 999999) = 31) /\
            (10 < n -> 7 <= 7).
Proof.
  apply (calculate_window_days_bounds (mk_datetime 2025 8 7 23 59 59 999999)).
  - split; reflexivity.
  - right; left; cbn; lia.
Defined.

Local Open Scope string_scope.

Lemma month_start_ok (today : datetime) :
  valid_datetime today ->
  _month_start today = Return (mk_datetime (year today) (month today) 1 0 0 0 0).
Proof.
  intros [Hd _]. unfold _month_start. apply replace_midnight.
  eapply check_date_fields_day; [eassumption | lia].
Qed.

Lemma replace_month_start (y m d h mi s us : Z) :
  check_date_fields y m 1 = true -> 1 <= d <= 28 ->
  check_time_fields h mi s us = true ->
  replace (mk_datetime y m 1 0 0 0 0) (Some d) (Some h) (Some mi) (Some s) (Some us) =
  Return (mk_datetime y m d h mi s us).
Proof.
  intros Hd Hr Ht. unfold replace. cbn [or_default year month].
  apply new_datetime_ok; [|assumption].
  eapply check_date_fields_day; eassumption.
Qed.

Lemma get_window_range_second (today : datetime) :
  valid_datetime today ->
  get_window_range today "second" =
  Return (mk_datetime (year today) (month today) 8 0 0 0 0,
          mk_datetime (year today) (month today) 17 23 59 59 999999).
Proof.
  intros Hv. unfold get_window_range. rewrite month_start_ok by assumption.
  destruct Hv as [Hd _].
  assert (H1 : check_date_fields (year today) (month today) 1 = true)
    by (eapply check_date_fields_day; [eassumption | lia]).
  cbn [bind]. change ("second" =? "first") with false. change ("second" =? "second") with true.
  cbv iota. rewrite !replace_month_start by (assumption || lia || reflexivity).
  reflexivity.
Qed.

Lemma get_window_range_third (today : datetime) :
  valid_datetime today ->
  get_window_range today "third" =
  Return (mk_datetime (year today) (month today) 18 0 0 0 0,
          mk_datetime (year today) (month today) 27 23 59 59 999999).
Proof.
  intros Hv. unfold get_window_range. rewrite month_start_ok by assumption.
  destruct Hv as [Hd _].
  assert (H1 : check_date_fields (year today) (month today) 1 = true)
    by (eapply check_date_fields_day; [eassumption | lia]).
  cbn [bind]. change ("third" =? "first") with false. change ("third" =? "second") with false.
  change ("third" =? "third") with true.
  cbv iota. rewrite !replace_month_start by (assumption || lia || reflexivity).
  reflexivity.
Qed.

Lemma get_window_range_first (today : datetime) :
  valid_datetime today ->
  1 < month today \/ MINYEAR < year today ->
  get_window_range today "first" =
  Return (prev_month_day28 today,
          mk_datetime (year today) (month today) 7 23 59 59 999999).
Proof.
  intros Hv Hne. unfold get_window_range, prev_month_day28. rewrite month_start_ok by assumption.
  pose proof (valid_datetime_date today Hv) as (Hy & Hm & Hday).
  destruct Hv as [Hd _]. unfold MINYEAR in Hne.
  assert (H1 : check_date_fields (year today) (month today) 1 = true)
    by (eapply check_date_fields_day; [eassumption | lia]).
  cbn [bind]. change ("first" =? "first") with true. cbv iota.
  rewrite sub_days_month_start by (assumption || lia).
  pose proof (prev_month_valid (year today) (month today) Hm ltac:(lia) ltac:(lia)) as Hpv.
  destruct (prev_month (year today) (month today)) as [py pm]. cbn [fst snd] in Hpv.
  cbn [bind]. rewrite replace_midnight; cbn [year month].
  2:{ apply check_date_fields_spec. unfold MINYEAR, MAXYEAR.
      pose proof (days_in_month_bounds py pm ltac:(lia)). lia. }
  cbn [bind]. rewrite replace_month_start by (assumption || lia || reflexivity).
  reflexivity.
Qed.

(** C5: for the month of today, [get_window_range] gives the window
    [second] from day 8 at 00:00:00 to day 17 at 23:59:59.999999, and the
    window [first] from day 28 of the month before, at midnight and whatever
    the length of that month, to day 7 at 23:59:59.999999.  (The month before
    January of year 1 is before [datetime.min].) *)
Theorem get_window_range_bounds (today : datetime) :
  valid_datetime today ->
  get_window_range today "second" =
    Return (mk_datetime (year today) (month today) 8 0 0 0 0,
            mk_datetime (year today) (month today) 17 23 59 59 999999) /\
  (1 < month today \/ MINYEAR < year today ->
   get_window_range today "first" =
     Return (prev_month_day28 today,
             mk_datetime (year today) (month today) 7 23 59 59 999999)).
Proof.
  intros Hv. split.
  - apply get_window_range_second; assumption.
  - apply get_window_range_first; assumption.
Qed.

Lemma get_window_range_bounds_witness :
  get_window_range (mk_datetime 2024 3 15 10 20 30 40) "second" =
    Return (mk_datetime 2024 3 8 0 0 0 0, mk_datetime 2024 3 17 23 59 59 999999) /\
  get_window_range (mk_datetime 2024 3 15 10 20 30 40) "first" =
    Return (mk_datetime 2024 2 28 0 0 0 0, mk_datetime 2024 3 7 23 59 59 999999).
Proof.
  destruct (get_window_range_bounds (mk_datetime 2024 3 15 10 20 30 40)) as [H2 H1].
  - split; reflexivity.
  - split; [exact H2 | apply H1; left; cbn; lia].
Defined.

(** C9: [get_window_range] returns bounds for the names [second] and
    [third], and for [first] when the month before exists, and raises a
    [ValueError] for every other name. *)
Theorem get_window_range_names (today : datetime) (window : string) :
  valid_datetime today ->
  (window = "second" \/ window = "third" ->
   returns (get_window_range today window)) /\
  (window = "first" -> 1 < month today \/ MINYEAR < year today ->
   returns (get_window_range today window)) /\
  (~ In window ["first"; "second"; "third"] ->
   get_window_range today window =
   Raise (ValueError ("Unknown window name: " ++ window))).
Proof.
  intros Hv. split; [|split].
  - intros [-> | ->]; eexists.
    + apply get_window_range_second; assumption.
    + apply get_window_range_third; assumption.
  - intros -> Hne. eexists. apply get_window_range_first; assumption.
  - intros Hnot. unfold get_window_range. rewrite month_start_ok by assumption.
    cbn [bind].
    destruct (String.eqb_spec window "first") as [-> | _]; [exfalso; apply Hnot; cbn; auto|].
    destruct (String.eqb_spec window "second") as [-> | _]; [exfalso; apply Hnot; cbn; auto|].
    destruct (String.eqb_spec window "third") as [-> | _]; [exfalso; apply Hnot; cbn; auto|].
    reflexivity.
Qed.

Lemma get_window_range_names_witness :
  returns (get_window_range (mk_datetime 2024 3 15 10 20 30 40) "third") /\
  returns (get_window_range (mk_datetime 2024 3 15 10 20 30 40) "first") /\
  get_window_range (mk_datetime 2024 3 15 10 20 30 40) "fourth" =
    Raise (ValueError "Unknown window name: fourth").
Proof.
  assert (Hv : valid_datetime (mk_datetime 2024 3 15 10 20 30 40))
    by (split; reflexivity).
  split; [|split].
  - apply (proj1 (get_window_range_names _ "third" Hv)). right. reflexivity.
  - apply (proj1 (proj2 (get_window_range_names _ "first" Hv))).
    + reflexivity.
    + left. cbn. lia.
  - apply (proj2 (proj2 (get_window_range_names _ "fourth" Hv))).
    cbn. intros [H | [H | [H | []]]]; discriminate H.
Defined.

(** ** The date parser *)

Lemma match_seq_sound (cs : list cls) :
  forall s t r, match_seq cs s = Some (t, r) -> s = t ++ r /\ seq_ok cs t.
Proof.
  induction cs as [| p cs IH]; intros s t r H.
  - cbn in H. injection H as <- <-. split; [reflexivity | exact I].
  - destruct s as [| c s']; [discriminate H|]. cbn in H.
    destruct (p c) eqn:Hp; [|discriminate H].
    destruct (match_seq cs s') as [[t' r']|] eqn:E; [|discriminate H].
    injection H as <- <-. destruct (IH _ _ _ E) as [-> Hok].
    split; [reflexivity | split; assumption].
Qed.

Lemma match_alts_sound (alts : list (list cls)) (s t r : string) :
  In (t, r) (match_alts alts s) ->
  s = t ++ r /\ exists cs, In cs alts /\ seq_ok cs t.
Proof.
  unfold match_alts. rewrite in_flat_map. intros (cs & Hin & H).
  destruct (match_seq cs s) as [[t' r']|] eqn:E; [|destruct H].
  destruct H as [H | []]. injection H as -> ->.
  destruct (match_seq_sound _ _ _ _ E) as [-> Hok].
  split; [reflexivity | exists cs; split; assumption].
Qed.

Lemma digit_facts (c : ascii) :
  is_digit c = true ->
  is_space c = false /\ date_char c = true /\ lower_char c = c.
Proof. each_char c; intros H; try discriminate H; repeat split. Qed.

Lemma date_char_facts (c : ascii) :
  date_char c = true ->
  c <> "G"%char /\ Ascii.eqb c "s" = false /\ Ascii.eqb c "n" = false /\
  Ascii.eqb c "r" = false /\ Ascii.eqb c "t" = false.
Proof. each_char c; intros H; try discriminate H; repeat split; discriminate. Qed.

Lemma append_nil_r (s : string) : s ++ "" = s.
Proof. induction s as [| c s IH]; cbn; [reflexivity | rewrite IH; reflexivity]. Qed.

Lemma append_assoc (a b c : string) : (a ++ b) ++ c = a ++ (b ++ c).
Proof. induction a as [| x a IH]; cbn; [reflexivity | rewrite IH; reflexivity]. Qed.

Lemma in_match_items_cons (it : fmt_item) (items : list fmt_item) (s : string)
      (g : groups) (rest : string) :
  In (g, rest) (match_items (it :: items) s) ->
  exists g1 r1 g2,
    In (g1, r1) (match_item it s) /\ In (g2, rest) (match_items items r1) /\
    g = (g1 ++ g2)%list.
Proof.
  cbn [match_items]. rewrite in_flat_map. intros ([g1 r1] & H1 & H2).
  rewrite in_map_iff in H2. destruct H2 as ([g2 r2] & E & H2).
  cbn [fst snd] in E. injection E as <- <-.
  exists g1, r1, g2. auto.
Qed.

Lemma in_match_item_dir (d : directive) (s : string) (g : groups) (r : string) :
  In (g, r) (match_item (Dir d) s) ->
  exists t, g = [(d, t)] /\ s = t ++ r /\ exists cs, In cs (regex_of d) /\ seq_ok cs t.
Proof.
  cbn [match_item]. rewrite in_map_iff. intros ([t r'] & E & H).
  cbn [fst snd] in E. injection E as <- <-.
  apply match_alts_sound in H. destruct H as [-> H]. exists t. auto.
Qed.

Lemma in_match_item_slash (s : string) (g : groups) (r : string) :
  In (g, r) (match_item (Lit "/") s) -> g = [] /\ s = String "/" r.
Proof.
  cbn [match_item]. rewrite in_map_iff. intros ([t r'] & E & H).
  cbn [fst snd] in E. injection E as <- <-.
  apply match_alts_sound in H. destruct H as [-> (cs & [<- | []] & Hok)].
  destruct t as [| c [| c' t']]; cbn in Hok; try tauto.
  destruct Hok as [Hc _]. split; [reflexivity|].
  assert (c = "/"%char) as -> by (revert Hc; each_char c; intros Hc; try discriminate Hc; reflexivity).
  reflexivity.
Qed.

Lemma strptime_mdY_shape (s : string) (dt : datetime) :
  strptime s "%m/%d/%Y" = Some dt -> slash_date_shape s.
Proof.
  unfold strptime.
  change (compile_format "%m/%d/%Y")
    with (Some [Dir dir_m; Lit "/"; Dir dir_d; Lit "/"; Dir dir_Y]).
  cbv beta iota.
  destruct (match_items _ s) as [| [g rest] l] eqn:E; [discriminate|].
  destruct rest; [|discriminate]. intros _.
  assert (H : In (g, "") (match_items [Dir dir_m; Lit "/"; Dir dir_d; Lit "/"; Dir dir_Y] s))
    by (rewrite E; left; reflexivity).
  clear E l.
  apply in_match_items_cons in H. destruct H as (g1 & r1 & g1' & H1 & H & _).
  apply in_match_items_cons in H. destruct H as (g2 & r2 & g2' & H2 & H & _).
  apply in_match_items_cons in H. destruct H as (g3 & r3 & g3' & H3 & H & _).
  apply in_match_items_cons in H. destruct H as (g4 & r4 & g4' & H4 & H & _).
  apply in_match_items_cons in H. destruct H as (g5 & r5 & g5' & H5 & H & _).
  cbn in H. destruct H as [H | []]. injection H as _ ->.
  apply in_match_item_dir in H1. destruct H1 as (tm & _ & -> & Hm).
  apply in_match_item_slash in H2. destruct H2 as (_ & ->).
  apply in_match_item_dir in H3. destruct H3 as (td & _ & -> & Hd).
  apply in_match_item_slash in H4. destruct H4 as (_ & ->).
  apply in_match_item_dir in H5. destruct H5 as (ty & _ & -> & Hy).
  exists tm, td, ty. rewrite append_nil_r. auto.
Qed.

Lemma cls_digit (p : cls) (c : ascii) :
  In p [chr "0"; chr "1"; chr "3"; rng "0" "1"; rng "0" "2"; rng "1" "2";
        rng "1" "9"; dig] ->
  p c = true -> is_digit c = true.
Proof.
  intros Hin.
  repeat (destruct Hin as [<- | Hin];
          [each_char c; intros H; try discriminate H; reflexivity|]).
  destruct Hin.
Qed.

Lemma cls_blank (c : ascii) : chr " " c = true -> c = " "%char.
Proof. each_char c; intros H; try discriminate H; reflexivity. Qed.

Lemma all_chars_app (p : ascii -> bool) (a b : string) :
  all_chars p (a ++ b) = all_chars p a && all_chars p b.
Proof.
  induction a as [| c a IH]; cbn; [reflexivity|].
  rewrite IH, andb_assoc. reflexivity.
Qed.

Lemma month_text (tm : string) :
  (exists cs, In cs (regex_of dir_m) /\ seq_ok cs tm) ->
  (exists c, tm = String c "" /\ is_digit c = true) \/
  (exists c1 c2, tm = String c1 (String c2 "") /\ is_digit c1 = true /\ is_digit c2 = true).
Proof.
  intros (cs & Hin & Hok). cbn in Hin.
  destruct Hin as [<- | [<- | [<- | []]]];
    destruct tm as [| c1 [| c2 [| c3 t]]]; cbn in Hok; try tauto.
  - destruct Hok as (H1 & H2 & _). class_fact cls_digit H1. class_fact cls_digit H2. right. eauto.
  - destruct Hok as (H1 & H2 & _). class_fact cls_digit H1. class_fact cls_digit H2. right. eauto.
  - destruct Hok as (H1 & _). class_fact cls_digit H1. left. eauto.
Qed.

Lemma day_text (td : string) :
  (exists cs, In cs (regex_of dir_d) /\ seq_ok cs td) ->
  all_chars date_char td = true.
Proof.
  intros (cs & Hin & Hok). cbn in Hin.
  destruct Hin as [<- | [<- | [<- | [<- | [<- | []]]]]];
    destruct td as [| c1 [| c2 [| c3 t]]]; cbn in Hok; try tauto.
  - destruct Hok as (H1 & H2 & _). class_fact cls_digit H1. class_fact cls_digit H2.
    cbn. apply digit_facts in H1, H2. destruct H1 as (_ & -> & _), H2 as (_ & -> & _). reflexivity.
  - destruct Hok as (H1 & H2 & _). class_fact cls_digit H1. class_fact cls_digit H2.
    cbn. apply digit_facts in H1, H2. destruct H1 as (_ & -> & _), H2 as (_ & -> & _). reflexivity.
  - destruct Hok as (H1 & H2 & _). class_fact cls_digit H1. class_fact cls_digit H2.
    cbn. apply digit_facts in H1, H2. destruct H1 as (_ & -> & _), H2 as (_ & -> & _). reflexivity.
  - destruct Hok as (H1 & _). class_fact cls_digit H1.
    cbn. apply digit_facts in H1. destruct H1 as (_ & -> & _). reflexivity.
  - destruct Hok as (H1 & H2 & _). apply cls_blank in H1. subst c1. class_fact cls_digit H2.
    cbn. apply digit_facts in H2. destruct H2 as (_ & -> & _). reflexivity.
Qed.

Lemma year_text (ty : string) :
  (exists cs, In cs (regex_of dir_Y) /\ seq_ok cs ty) ->
  exists c1 c2 c3 c4,
    ty = String c1 (String c2 (String c3 (String c4 ""))) /\
    is_digit c1 = true /\ is_digit c2 = true /\ is_digit c3 = true /\ is_digit c4 = true.
Proof.
  intros (cs & Hin & Hok). cbn in Hin. destruct Hin as [<- | []].
  destruct ty as [| c1 [| c2 [| c3 [| c4 [| c5 t]]]]]; cbn in Hok; try tauto.
  destruct Hok as (H1 & H2 & H3 & H4 & _).
  class_fact cls_digit H1. class_fact cls_digit H2. class_fact cls_digit H3. class_fact cls_digit H4.
  exists c1, c2, c3, c4. auto.
Qed.

Lemma slash_date_shape_text (s : string) : slash_date_shape s -> slash_date_text s.
Proof.
  intros (tm & td & ty & -> & Hm & Hd & Hy).
  apply month_text in Hm. apply day_text in Hd. apply year_text in Hy.
  destruct Hy as (y1 & y2 & y3 & y4 & -> & Hy1 & Hy2 & Hy3 & Hy4).
  assert (Hmc : all_chars date_char tm = true).
  { destruct Hm as [(c & -> & H) | (c1 & c2 & -> & H1 & H2)]; cbn.
    - apply digit_facts in H. destruct H as (_ & -> & _). reflexivity.
    - apply digit_facts in H1, H2. destruct H1 as (_ & -> & _), H2 as (_ & -> & _). reflexivity. }
  split.
  - rewrite all_chars_app. cbn [all_chars]. rewrite all_chars_app. cbn [all_chars].
    rewrite Hmc, Hd.
    apply digit_facts in Hy1, Hy2, Hy3, Hy4.
    destruct Hy1 as (_ & -> & _), Hy2 as (_ & -> & _), Hy3 as (_ & -> & _), Hy4 as (_ & -> & _).
    reflexivity.
  - destruct Hm as [(c & -> & H) | (c1 & c2 & -> & H1 & H2)]; cbn; eauto.
  - exists (tm ++ String "/" (td ++ String "/" (String y1 (String y2 (String y3 "")))))%string, y4.
    split; [|assumption].
    rewrite !append_assoc. cbn. rewrite !append_assoc. reflexivity.
  - destruct Hm as [(c & -> & H) | (c1 & c2 & -> & H1 & H2)]; cbn; eauto.
Qed.

Lemma rstrip_last (t : string) (c : ascii) :
  is_space c = false -> rstrip (t ++ String c "") = t ++ String c "".
Proof.
  intros Hc. induction t as [| a t IH]; cbn.
  - rewrite Hc. reflexivity.
  - rewrite IH. destruct t; reflexivity.
Qed.

Lemma prefix_GMT_date (s : string) :
  all_chars date_char s = true -> prefix "GMT" s = false.
Proof.
  destruct s as [| c s]; [reflexivity|]. cbn [all_chars prefix].
  intros H. apply andb_true_iff in H. destruct H as [H _].
  apply date_char_facts in H. destruct H as (H & _).
  destruct (ascii_dec "G" c) as [E | _]; [congruence | reflexivity].
Qed.

Lemma contains_GMT_date (s : string) :
  all_chars date_char s = true -> contains " GMT" s = false.
Proof.
  induction s as [| c s IH]; [reflexivity|].
  intros H. cbn in H. apply andb_true_iff in H. destruct H as [Hc Hs].
  cbn [contains]. rewrite IH by assumption.
  cbn [prefix]. destruct (ascii_dec " " c); [|reflexivity].
  rewrite prefix_GMT_date by assumption. reflexivity.
Qed.

Lemma sub_ordinals_date (s : string) :
  all_chars date_char s = true -> sub_ordinals s = s.
Proof.
  induction s as [| c s IH]; [reflexivity|].
  intros H. cbn in H. apply andb_true_iff in H. destruct H as [Hc Hs].
  specialize (IH Hs). cbn [sub_ordinals].
  destruct s as [| a [| b rest]]; try (rewrite IH; destruct (is_digit c); reflexivity).
  assert (Ha : is_ordinal_suffix a b = false).
  { cbn in Hs. apply andb_true_iff in Hs. destruct Hs as [Ha _].
    apply date_char_facts in Ha. destruct Ha as (_ & E1 & E2 & E3 & E4).
    unfold is_ordinal_suffix. rewrite E1, E2, E3, E4. reflexivity. }
  rewrite Ha, IH. destruct (is_digit c); reflexivity.
Qed.

Lemma clean_date_slash_date (s : string) : slash_date_text s -> clean_date s = s.
Proof.
  intros [Hchars (c & r & Es & Hc) (t & z & Et & Hz) _].
  assert (Hstrip : strip s = s).
  { unfold strip.
    assert (lstrip s = s) as ->.
    { rewrite Es. cbn. apply digit_facts in Hc. destruct Hc as (-> & _). reflexivity. }
    rewrite Et. apply rstrip_last. apply digit_facts in Hz. tauto. }
  unfold clean_date. rewrite Hstrip, contains_GMT_date by assumption.
  apply sub_ordinals_date. assumption.
Qed.

Lemma month_name_digit (c : ascii) (r : string) :
  is_digit c = true ->
  match_alts (regex_of dir_B) (String c r) = [] /\
  match_alts (regex_of dir_b) (String c r) = [].
Proof.
  each_char c; intros H; try discriminate H; split; reflexivity.
Qed.

Lemma year_slash (s : string) :
  (exists c1 r, s = String c1 (String "/" r)) \/
  (exists c1 c2 r, s = String c1 (String c2 (String "/" r))) ->
  match_alts (regex_of dir_Y) s = [].
Proof.
  intros [(c1 & r & ->) | (c1 & c2 & r & ->)]; cbn.
  - destruct (dig c1); reflexivity.
  - destruct (dig c1); [destruct (dig c2)|]; reflexivity.
Qed.

Lemma earlier_candidates_fail (s : string) :
  slash_date_text s ->
  strptime s "%B %d, %Y at %I:%M %p" = None /\
  strptime s "%b %d, %Y at %I:%M %p" = None /\
  strptime s "%b %d, %Y, %I:%M:%S %p" = None /\
  strptime s "%B %d, %Y, %I:%M:%S %p" = None /\
  strptime s "%Y-%m-%d" = None /\
  strptime s "%Y/%m/%d" = None.
Proof.
  intros [_ (c & r & Es & Hc) _ Hslash].
  pose proof (month_name_digit c r Hc) as [HB Hb]. rewrite <- Es in HB, Hb.
  pose proof (year_slash s Hslash) as HY.
  unfold strptime.
  repeat split.
  - change (compile_format "%B %d, %Y at %I:%M %p") with
      (Some (Dir dir_B :: [Spaces; Dir dir_d; Lit ","; Spaces; Dir dir_Y; Spaces;
             Lit "a"; Lit "t"; Spaces; Dir dir_I; Lit ":"; Dir dir_M; Spaces; Dir dir_p])).
    cbv beta iota. cbn [match_items match_item]. rewrite HB. reflexivity.
  - change (compile_format "%b %d, %Y at %I:%M %p") with
      (Some (Dir dir_b :: [Spaces; Dir dir_d; Lit ","; Spaces; Dir dir_Y; Spaces;
             Lit "a"; Lit "t"; Spaces; Dir dir_I; Lit ":"; Dir dir_M; Spaces; Dir dir_p])).
    cbv beta iota. cbn [match_items match_item]. rewrite Hb. reflexivity.
  - change (compile_format "%b %d, %Y, %I:%M:%S %p") with
      (Some (Dir dir_b :: [Spaces; Dir dir_d; Lit ","; Spaces; Dir dir_Y; Lit ","; Spaces;
             Dir dir_I; Lit ":"; Dir dir_M; Lit ":"; Dir dir_S; Spaces; Dir dir_p])).
    cbv beta iota. cbn [match_items match_item]. rewrite Hb. reflexivity.
  - change (compile_format "%B %d, %Y, %I:%M:%S %p") with
      (Some (Dir dir_B :: [Spaces; Dir dir_d; Lit ","; Spaces; Dir dir_Y; Lit ","; Spaces;
             Dir dir_I; Lit ":"; Dir dir_M; Lit ":"; Dir dir_S; Spaces; Dir dir_p])).
    cbv beta iota. cbn [match_items match_item]. rewrite HB. reflexivity.
  - change (compile_format "%Y-%m-%d") with
      (Some (Dir dir_Y :: [Lit "-"; Dir dir_m; Lit "-"; Dir dir_d])).
    cbv beta iota. cbn [match_items match_item]. rewrite HY. reflexivity.
  - change (compile_format "%Y/%m/%d") with
      (Some (Dir dir_Y :: [Lit "/"; Dir dir_m; Lit "/"; Dir dir_d])).
    cbv beta iota. cbn [match_items match_item]. rewrite HY. reflexivity.
Qed.

Lemma parse_sheet_date_month_first (s : string) (dt : datetime) :
  strptime s "%m/%d/%Y" = Some dt -> parse_sheet_date s = Some dt.
Proof.
  intros H.
  pose proof (slash_date_shape_text s (strptime_mdY_shape s dt H)) as Ht.
  destruct (earlier_candidates_fail s Ht) as (F1 & F2 & F3 & F4 & F5 & F6).
  unfold parse_sheet_date. rewrite clean_date_slash_date by assumption.
  unfold candidates. cbn [try_formats].
  rewrite F1, F2, F3, F4, F5, F6, H. reflexivity.
Qed.

(** C6: ["11/15/2025"] parses as November 15, 2025; and every text that
    [%m/%d/%Y] and [%d/%m/%Y] both accept is parsed by [parse_sheet_date] as
    [%m/%d/%Y] reads it, month first. *)
Theorem parse_sheet_date_slash_precedence (s : string) (month_first day_first : datetime) :
  strptime s "%m/%d/%Y" = Some month_first ->
  strptime s "%d/%m/%Y" = Some day_first ->
  parse_sheet_date "11/15/2025" = Some (mk_datetime 2025 11 15 0 0 0 0) /\
  parse_sheet_date s = Some month_first.
Proof.
  intros Hm _. split; [reflexivity|].
  apply parse_sheet_date_month_first. assumption.
Qed.

Lemma parse_sheet_date_slash_precedence_witness :
  strptime "03/04/2025" "%d/%m/%Y" = Some (mk_datetime 2025 4 3 0 0 0 0) /\
  parse_sheet_date "03/04/2025" = Some (mk_datetime 2025 3 4 0 0 0 0).
Proof.
  split; [reflexivity|].
  apply (parse_sheet_date_slash_precedence "03/04/2025"
           (mk_datetime 2025 3 4 0 0 0 0) (mk_datetime 2025 4 3 0 0 0 0));
    reflexivity.
Defined.

(** C3: ["August 6th, 2025 at 5:52 PM GMT+8"] is cut at [" GMT"], its
    ordinal suffix is dropped, which leaves ["August 6, 2025 at 5:52 PM"],
    and [parse_sheet_date] returns August 6, 2025 at 17:52. *)
Theorem parse_sheet_date_ordinal_example :
  strip (split_head " GMT" "August 6th, 2025 at 5:52 PM GMT+8") =
    "August 6th, 2025 at 5:52 PM" /\
  sub_ordinals "August 6th, 2025 at 5:52 PM" = "August 6, 2025 at 5:52 PM" /\
  clean_date "August 6th, 2025 at 5:52 PM GMT+8" = "August 6, 2025 at 5:52 PM" /\
  strptime "August 6, 2025 at 5:52 PM" "%B %d, %Y at %I:%M %p" =
    Some (mk_datetime 2025 8 6 17 52 0 0) /\
  parse_sheet_date "August 6th, 2025 at 5:52 PM GMT+8" =
    Some (mk_datetime 2025 8 6 17 52 0 0).
Proof. repeat split; vm_compute; reflexivity. Qed.

(** ** The aggregation *)

Section Rows.
Variable conf : sheet_config.
Variable user_name : string.
Variables since until : datetime.

Lemma process_row_counters (st : loop_state) (row : list string) :
  counters_ok st -> counters_ok (process_row conf user_name since until st row).
Proof.
  unfold counters_ok, process_row. intros H.
  repeat match goal with
         | |- context [if ?b then _ else _] => destruct b
         | |- context [match ?o with Some _ => _ | None => _ end] => destruct o
         end; cbn; lia.
Qed.

Lemma process_row_total_rows (st : loop_state) (row : list string) :
  total_rows (process_row conf user_name since until st row) = total_rows st + 1.
Proof.
  unfold process_row.
  repeat match goal with
         | |- context [if ?b then _ else _] => destruct b
         | |- context [match ?o with Some _ => _ | None => _ end] => destruct o
         end; reflexivity.
Qed.

Lemma process_row_sheet_total (st st' : loop_state) (row : list string) :
  sheet_total st = sheet_total st' ->
  sheet_total (process_row conf user_name since until st row) = sheet_total (process_row conf user_name since until st' row).
Proof.
  unfold process_row. intros E.
  repeat match goal with
         | |- context [if ?b then _ else _] => destruct b
         | |- context [match ?o with Some _ => _ | None => _ end] => destruct o
         end; cbn; rewrite ?E; reflexivity.
Qed.

Lemma fold_counters (data : list (list string)) :
  forall st, counters_ok st -> counters_ok (fold_left (process_row conf user_name since until) data st).
Proof.
  induction data as [| row data IH]; intros st H; cbn; [assumption|].
  apply IH, process_row_counters, H.
Qed.

Lemma fold_total_rows (data : list (list string)) :
  forall st, total_rows (fold_left (process_row conf user_name since until) data st) = total_rows st + Z.of_nat (List.length data).
Proof.
  induction data as [| row data IH]; intros st; cbn [fold_left List.length]; [lia|].
  rewrite IH, process_row_total_rows. lia.
Qed.

Lemma fold_sheet_total (data : list (list string)) :
  forall st st', sheet_total st = sheet_total st' ->
  sheet_total (fold_left (process_row conf user_name since until) data st) = sheet_total (fold_left (process_row conf user_name since until) data st').
Proof.
  induction data as [| row data IH]; intros st st' E; cbn; [assumption|].
  apply IH, process_row_sheet_total, E.
Qed.
End Rows.

Lemma dict_get_set_same (k : string) (v : float) (d : dict) :
  dict_get k (dict_set k v d) = Some v.
Proof.
  induction d as [| [k' v'] d IH]; cbn.
  - rewrite String.eqb_refl. reflexivity.
  - destruct (String.eqb_spec k' k) as [-> | Hne]; cbn.
    + rewrite String.eqb_refl. reflexivity.
    + destruct (String.eqb_spec k' k); [contradiction | exact IH].
Qed.

Lemma dict_get_set_other (k k0 : string) (v : float) (d : dict) :
  k <> k0 -> dict_get k0 (dict_set k v d) = dict_get k0 d.
Proof.
  intros Hne. induction d as [| [k' v'] d IH]; cbn.
  - destruct (String.eqb_spec k k0); [contradiction | reflexivity].
  - destruct (String.eqb_spec k' k) as [-> | Hne']; cbn.
    + destruct (String.eqb_spec k k0); [contradiction | reflexivity].
    + destruct (String.eqb_spec k' k0); [reflexivity | exact IH].
Qed.

Lemma dict_set_fresh (k : string) (v : float) (d : dict) :
  dict_get k d = None -> dict_set k v d = (d ++ [(k, v)])%list.
Proof.
  induction d as [| [k' v'] d IH]; cbn; [reflexivity|].
  destruct (String.eqb_spec k' k); [discriminate|].
  intros H. rewrite IH by assumption. reflexivity.
Qed.

Lemma float_sum_snoc (vs : list float) (v : float) :
  float_sum (vs ++ [v]) = (float_sum vs + v)%float.
Proof. unfold float_sum. rewrite fold_left_app. reflexivity. Qed.

Section Sheets.
Variable fetch : string -> outcome (list (list string)).
Variable user_name : string.
Variables since until : datetime.

Lemma process_rows_total_rows (conf : sheet_config) (run : run_state)
      (data : list (list string)) :
  total_rows (process_rows conf user_name since until run data) =
  run_total_rows run + Z.of_nat (List.length data).
Proof. unfold process_rows. rewrite fold_total_rows. reflexivity. Qed.

Lemma process_rows_sheet_total (conf : sheet_config) (run : run_state)
      (data : list (list string)) :
  sheet_total (process_rows conf user_name since until run data) =
  sheet_total (process_rows conf user_name since until initial_run data).
Proof. unfold process_rows. apply fold_sheet_total. reflexivity. Qed.

Lemma sum_Z_snoc (l : list Z) (z : Z) : sum_Z (l ++ [z]) = sum_Z l + z.
Proof. unfold sum_Z. induction l as [| a l IH]; cbn in *; lia. Qed.

Lemma run_ok_initial : run_ok fetch user_name since until [] initial_run.
Proof.
  split; cbn; try (intros; discriminate); try lia; try reflexivity.
Qed.

Lemma run_ok_skip (seen : list string) (run : run_state) (id : string) :
  run_ok fetch user_name since until seen run ->
  rows_examined fetch id = 0 ->
  sheet_subtotal fetch user_name since until id = None ->
  run_ok fetch user_name since until (seen ++ [id]) run.
Proof.
  intros [Hc Hr Hp Ha Ht] Hrows Hsub. split.
  - exact Hc.
  - rewrite map_app; cbn [map]; rewrite sum_Z_snoc; lia.
  - intros k v Hk. destruct (Hp k v Hk) as (Hin & Hpos & Hs).
    repeat split; try assumption. apply in_or_app. left. exact Hin.
  - intros k v Hin Hs Hv. apply in_app_or in Hin. destruct Hin as [Hin | [<- | []]].
    + eapply Ha; eassumption.
    + congruence.
  - intros Hnd. apply Ht. apply NoDup_remove_1 in Hnd.
    rewrite app_nil_r in Hnd. exact Hnd.
Qed.

Lemma process_sheet_ok (seen : list string) (run : run_state) (id : string) :
  run_ok fetch user_name since until seen run -> run_ok fetch user_name since until (seen ++ [id]) (process_sheet fetch user_name since until run id).
Proof.
  intros Hok. unfold process_sheet.
  destruct (fetch id) as [[| header data] | e] eqn:Ef.
  - apply run_ok_skip; [assumption | |]; unfold rows_examined, sheet_subtotal; rewrite Ef; reflexivity.
  - set (conf := get_config SHEET_CONFIGS id).
    set (st := process_rows conf user_name since until run data).
    assert (Hsub : sheet_subtotal fetch user_name since until id = Some (sheet_total st)).
    { unfold sheet_subtotal. rewrite Ef. f_equal. symmetry. apply process_rows_sheet_total. }
    assert (Hrows : total_rows st = run_total_rows run + rows_examined fetch id).
    { unfold rows_examined. rewrite Ef. apply process_rows_total_rows. }
    assert (Hcnt : counters_ok st).
    { apply fold_counters. destruct Hok as [Hc _ _ _ _]. exact Hc. }
    destruct Hok as [Hc Hr Hp Ha Ht].
    destruct (0 <? sheet_total st)%float eqn:Hpos; split; cbn [totals breakdown run_total_rows run_name_matches run_matching_sales].
    + exact Hcnt.
    + rewrite map_app; cbn [map]; rewrite sum_Z_snoc; lia.
    + intros k v Hk. destruct (String.eqb_spec id k) as [<- | Hne].
      * rewrite dict_get_set_same in Hk. injection Hk as <-.
        repeat split; try assumption. apply in_or_app. right. left. reflexivity.
      * rewrite dict_get_set_other in Hk by assumption.
        destruct (Hp k v Hk) as (Hin & Hv & Hs).
        repeat split; try assumption. apply in_or_app. left. exact Hin.
    + intros k v Hin Hs Hv. destruct (String.eqb_spec id k) as [<- | Hne].
      * congruence.
      * rewrite dict_get_set_other by assumption.
        apply in_app_or in Hin. destruct Hin as [Hin | [E | []]]; [|contradiction].
        eapply Ha; eassumption.
    + intros Hnd.
      assert (Hfresh : dict_get id (breakdown run) = None).
      { destruct (dict_get id (breakdown run)) as [v|] eqn:E; [|reflexivity].
        destruct (Hp id v E) as (Hin & _). exfalso.
        apply NoDup_remove_2 in Hnd. apply Hnd. rewrite app_nil_r. exact Hin. }
      rewrite dict_set_fresh by assumption.
      unfold dict_values. rewrite map_app. cbn [map snd]. rewrite float_sum_snoc.
      f_equal. apply Ht. apply NoDup_remove_1 in Hnd. rewrite app_nil_r in Hnd. exact Hnd.
    + exact Hcnt.
    + rewrite map_app; cbn [map]; rewrite sum_Z_snoc; lia.
    + intros k v Hk. destruct (Hp k v Hk) as (Hin & Hv & Hs).
      repeat split; try assumption. apply in_or_app. left. exact Hin.
    + intros k v Hin Hs Hv. apply in_app_or in Hin. destruct Hin as [Hin | [<- | []]].
      * eapply Ha; eassumption.
      * destruct (dict_get id (breakdown run)) as [w|] eqn:E; [|reflexivity].
        destruct (Hp id w E) as (_ & Hw & Hs'). congruence.
    + intros Hnd. apply Ht. apply NoDup_remove_1 in Hnd. rewrite app_nil_r in Hnd. exact Hnd.
  - apply run_ok_skip; [assumption | |]; unfold rows_examined, sheet_subtotal; rewrite Ef; reflexivity.
Qed.

Lemma fold_sheets_ok (ids : list string) :
  run_ok fetch user_name since until ids (fold_left (process_sheet fetch user_name since until) ids initial_run).
Proof.
  induction ids as [| id ids IH] using rev_ind.
  - apply run_ok_initial.
  - rewrite fold_left_app. cbn [fold_left]. apply process_sheet_ok. exact IH.
Qed.

Lemma fold_sheets_skip_failed (bad : string) (e : exn) (ids : list string) :
  fetch bad = Raise e ->
  forall run,
    fold_left (process_sheet fetch user_name since until) ids run =
    fold_left (process_sheet fetch user_name since until) (filter (fun id => negb (String.eqb id bad)) ids) run.
Proof.
  intros Hbad. induction ids as [| id ids IH]; intros run; [reflexivity|].
  cbn [fold_left filter]. destruct (String.eqb_spec id bad) as [-> | Hne]; cbn [negb].
  - rewrite <- IH. f_equal. unfold process_sheet. rewrite Hbad. reflexivity.
  - cbn [fold_left]. apply IH.
Qed.
Lemma process_sheet_totals (run : run_state) (id : string) :
  totals (process_sheet fetch user_name since until run id) =
  fold_left PrimFloat.add (positive_subtotals fetch user_name since until [id])
            (totals run).
Proof.
  unfold process_sheet, positive_subtotals, sheet_subtotal. cbn [flat_map].
  destruct (fetch id) as [[| header data] | e]; try reflexivity.
  rewrite <- (process_rows_sheet_total _ run data).
  destruct (0 <? _)%float; reflexivity.
Qed.

Lemma fold_sheets_totals (ids : list string) :
  forall run,
  totals (fold_left (process_sheet fetch user_name since until) ids run) =
  fold_left PrimFloat.add (positive_subtotals fetch user_name since until ids)
            (totals run).
Proof.
  induction ids as [| id ids IH]; intros run; [reflexivity|].
  cbn [fold_left]. rewrite IH, process_sheet_totals.
  change (id :: ids) with ([id] ++ ids)%list.
  unfold positive_subtotals at 3. rewrite flat_map_app, fold_left_app.
  reflexivity.
Qed.
End Sheets.

Lemma not_configured_result (env : environment) (user_name : string) (days_ : Z)
      (start_date end_date : option datetime) (res : sales_result) :
  fetch_sales_from_sheets env user_name days_ start_date end_date = Return res ->
  (exists msg, res = mk_result 0 [] (Some msg) None) \/
  (exists since until,
     window_since env days_ start_date = Return since /\
     window_until env end_date = Return until /\
     let run := fold_left (process_sheet (fetch_values env) user_name since until)
                          (SHEETS_IDS env) initial_run in
     total res = totals run /\ per_sheet res = breakdown run /\
     exists range samples,
       debug res = Some (mk_debug (run_total_rows run) (run_name_matches run)
                                  (run_matching_sales run) range samples)).
Proof.
  unfold fetch_sales_from_sheets. intros H.
  destruct (match SERVICE_ACCOUNT_JSON env with
            | None => true
            | Some "" => true
            | Some (String _ _ as path) => negb (path_exists env path)
            end).
  { injection H as <-. left. eauto. }
  destruct (negb (google_client_installed env)).
  { injection H as <-. left. eauto. }
  destruct (service_error env) as [e|].
  { injection H as <-. left. eauto. }
  destruct (window_since env days_ start_date) as [since | e1]; [|discriminate H].
  destruct (window_until env end_date) as [until | e2]; [|discriminate H].
  cbn [bind] in H. injection H as <-. right.
  exists since, until.
  split; [reflexivity|]. split; [reflexivity|]. cbv zeta.
  split; [reflexivity|]. split; [reflexivity|].
  eexists _, _. reflexivity.
Qed.

(** C1, amended: in every result with diagnostics,
    [matching_sales <= name_matches <= total_rows]; a sheet is in [per_sheet]
    only with its computed subtotal, and only if that is above zero; a sheet
    whose subtotal is not above zero is left out, while [total_rows] counts
    the rows examined in every sheet that was read; and when no sheet is
    listed twice, [total] is the sum of the values of [per_sheet]. *)
Theorem fetch_sales_invariants (env : environment) (user_name : string) (days_ : Z)
        (start_date end_date : option datetime) (res : sales_result) :
  fetch_sales_from_sheets env user_name days_ start_date end_date = Return res ->
  (forall d, debug res = Some d ->
     0 <= dbg_matching_sales d <= dbg_name_matches d /\
     dbg_name_matches d <= dbg_total_rows d) /\
  (NoDup (SHEETS_IDS env) ->
     total res = float_sum (dict_values (per_sheet res))) /\
  (forall id v, dict_get id (per_sheet res) = Some v ->
     In id (SHEETS_IDS env) /\ (0 <? v)%float = true) /\
  (forall since until,
     window_since env days_ start_date = Return since ->
     window_until env end_date = Return until ->
     (forall id v, dict_get id (per_sheet res) = Some v ->
        sheet_subtotal (fetch_values env) user_name since until id = Some v) /\
     (forall id v, In id (SHEETS_IDS env) ->
        sheet_subtotal (fetch_values env) user_name since until id = Some v ->
        (0 <? v)%float = false -> dict_get id (per_sheet res) = None) /\
     (forall d, debug res = Some d ->
        dbg_total_rows d =
        sum_Z (map (rows_examined (fetch_values env)) (SHEETS_IDS env)))).
Proof.
  intros H. apply not_configured_result in H.
  destruct H as [(msg & ->) | (since & until & Hs & Hu & Ht & Hp & range & samples & Hd)].
  - cbn. repeat split; intros; try discriminate; reflexivity.
  - cbv zeta in Ht, Hp, Hd.
    pose proof (fold_sheets_ok (fetch_values env) user_name since until (SHEETS_IDS env))
      as [Hc Hr Hpres Habs Htot].
    rewrite Ht, Hp, Hd.
    split; [intros d E; injection E as <-; exact Hc|].
    split; [exact Htot|].
    split; [intros id v E; destruct (Hpres id v E) as (? & ? & ?); auto|].
    intros since' until' Hs' Hu'.
    rewrite Hs in Hs'. rewrite Hu in Hu'. injection Hs' as <-. injection Hu' as <-.
    split; [intros id v E; destruct (Hpres id v E) as (? & ? & ?); auto|].
    split; [exact Habs|].
    intros d E. injection E as <-. exact Hr.
Qed.

Lemma float_neq_10_5 : 10%float <> 5%float.
Proof.
  intros H. apply (f_equal (fun x => PrimFloat.eqb x 5)) in H.
  vm_compute in H. discriminate H.
Qed.

Lemma fetch_sales_invariants_witness :
  fetch_sales_from_sheets (example_env ["up"; "down"] one_sale_source) "Bob" 1
    (Some january_start) (Some january_end) = Return example_result /\
  total example_result = float_sum (dict_values (per_sheet example_result)).
Proof.
  assert (H : fetch_sales_from_sheets (example_env ["up"; "down"] one_sale_source)
                "Bob" 1 (Some january_start) (Some january_end) =
              Return example_result) by reflexivity.
  split; [exact H|].
  apply (fetch_sales_invariants _ _ _ _ _ _ H).
  cbn. repeat constructor; cbn; intuition discriminate.
Defined.

(** C1 as stated fails when a sheet is listed twice: its subtotal is added
    to the total twice and stored in the breakdown once. *)
Lemma total_differs_for_repeated_sheet :
  exists res,
    fetch_sales_from_sheets (example_env ["up"; "up"] one_sale_source) "Bob" 1
      (Some january_start) (Some january_end) = Return res /\
    dict_get "up" (per_sheet res) = Some 5%float /\
    total res = 10%float /\
    float_sum (dict_values (per_sheet res)) = 5%float /\
    total res <> float_sum (dict_values (per_sheet res)).
Proof.
  eexists. split; [reflexivity|]. split; [reflexivity|].
  split; [reflexivity|]. split; [reflexivity|].
  exact float_neq_10_5.
Qed.

(** C4: when the request for a sheet fails, the aggregation does not
    raise; its result is the result of the run without that sheet.  When
    the requests can be made at all, the result has no error and its total
    is the sum of the subtotals above zero of the other sheets; the failed
    sheet is not in the breakdown and adds no row to [total_rows]. *)
Theorem fetch_sales_skips_failed_sheet (env : environment) (user_name : string)
        (days_ : Z) (start_date end_date : option datetime)
        (bad : string) (e : exn) (since until : datetime) :
  fetch_values env bad = Raise e ->
  window_since env days_ start_date = Return since ->
  window_until env end_date = Return until ->
  let others := filter (fun id => negb (String.eqb id bad)) (SHEETS_IDS env) in
  exists res,
    fetch_sales_from_sheets env user_name days_ start_date end_date = Return res /\
    fetch_sales_from_sheets (with_sheets env others)
      user_name days_ start_date end_date = Return res /\
    (service_available env ->
     error res = None /\
     total res =
     float_sum (positive_subtotals (fetch_values env) user_name since until others)) /\
    rows_examined (fetch_values env) bad = 0 /\
    dict_get bad (per_sheet res) = None /\
    (forall d, debug res = Some d ->
       dbg_total_rows d =
       sum_Z (map (rows_examined (fetch_values env)) (SHEETS_IDS env))).
Proof.
  intros Hbad Hs Hu others.
  assert (Hrows : rows_examined (fetch_values env) bad = 0)
    by (unfold rows_examined; rewrite Hbad; reflexivity).
  unfold fetch_sales_from_sheets.
  change (SERVICE_ACCOUNT_JSON (with_sheets env _)) with (SERVICE_ACCOUNT_JSON env).
  change (path_exists (with_sheets env _)) with (path_exists env).
  change (google_client_installed (with_sheets env _)) with (google_client_installed env).
  change (service_error (with_sheets env _)) with (service_error env).
  change (window_since (with_sheets env _) days_ start_date)
    with (window_since env days_ start_date).
  change (window_until (with_sheets env _) end_date) with (window_until env end_date).
  cbn [SHEETS_IDS fetch_values with_sheets].
  destruct (match SERVICE_ACCOUNT_JSON env with
            | None => true
            | Some "" => true
            | Some (String _ _ as path) => negb (path_exists env path)
            end) eqn:Hacc.
  { eexists. repeat split; try reflexivity; try assumption;
      try (intros d E; discriminate E);
      exfalso; destruct H as ((c & path & Hp & Hex) & _);
      rewrite Hp in Hacc; cbv beta iota in Hacc; rewrite Hex in Hacc;
      cbn [negb] in Hacc; discriminate Hacc. }
  destruct (negb (google_client_installed env)) eqn:Hcl.
  { eexists. repeat split; try reflexivity; try assumption;
      try (intros d E; discriminate E);
      exfalso; destruct H as (_ & Hin & _); rewrite Hin in Hcl; cbn [negb] in Hcl; discriminate Hcl. }
  destruct (service_error env) as [msg|] eqn:Hse.
  { eexists. repeat split; try reflexivity; try assumption;
      try (intros d E; discriminate E);
      exfalso; destruct H as (_ & _ & Hno); rewrite Hse in Hno; discriminate Hno. }
  rewrite Hs, Hu. cbn [bind].
  rewrite <- (fold_sheets_skip_failed (fetch_values env) user_name since until bad e
                (SHEETS_IDS env) Hbad).
  pose proof (fold_sheets_ok (fetch_values env) user_name since until (SHEETS_IDS env))
    as [Hc Hr Hpres Habs Htot].
  eexists. split; [reflexivity|]. split; [reflexivity|].
  cbn [per_sheet debug total error]. split; [|split; [assumption|split]].
  - intros _. split; [reflexivity|].
    rewrite (fold_sheets_skip_failed (fetch_values env) user_name since until bad e
               (SHEETS_IDS env) Hbad).
    apply fold_sheets_totals.
  - destruct (dict_get bad _) as [v|] eqn:E; [|reflexivity].
    destruct (Hpres bad v E) as (_ & _ & Hsub).
    unfold sheet_subtotal in Hsub. rewrite Hbad in Hsub. discriminate Hsub.
  - intros d E. injection E as <-. exact Hr.
Qed.

Lemma fetch_sales_skips_failed_sheet_witness :
  exists res,
    fetch_sales_from_sheets (example_env ["down"; "up"] one_sale_source) "Bob" 1
      (Some january_start) (Some january_end) = Return res /\
    fetch_sales_from_sheets (example_env ["up"] one_sale_source) "Bob" 1
      (Some january_start) (Some january_end) = Return res /\
    error res = None /\ total res = 5%float /\
    rows_examined one_sale_source "down" = 0 /\
    dict_get "down" (per_sheet res) = None /\
    (forall d, debug res = Some d -> dbg_total_rows d = 1).
Proof.
  destruct (fetch_sales_skips_failed_sheet (example_env ["down"; "up"] one_sale_source)
           "Bob" 1 (Some january_start) (Some january_end) "down" (HttpError "503")
           (mk_datetime 2025 1 1 0 0 0 0) (mk_datetime 2025 1 31 23 59 59 999999)
           eq_refl eq_refl eq_refl)
    as (res & H1 & H2 & Htot & H3 & H4 & H5).
  exists res. split; [exact H1|]. split; [exact H2|].
  destruct Htot as [He Ht].
  { split; [exists "s"%char, "ervice-account.json"; split; reflexivity|].
    split; reflexivity. }
  split; [exact He|]. split; [exact Ht|]. split; [exact H3|]. split; [exact H4|exact H5].
Defined.

(** C8: without a service account (the variable is not set, or names a
    file that does not exist), the function returns the result with total
    0.0, an empty breakdown and an error text, and raises nothing. *)
Theorem fetch_sales_not_configured (env : environment) (user_name : string)
        (days_ : Z) (start_date end_date : option datetime) :
  SERVICE_ACCOUNT_JSON env = None \/
  (exists path, SERVICE_ACCOUNT_JSON env = Some path /\ path_exists env path = false) ->
  fetch_sales_from_sheets env user_name days_ start_date end_date =
  Return (mk_result 0 [] (Some "Service account not configured") None).
Proof.
  intros [H | (path & H & Hp)]; unfold fetch_sales_from_sheets; rewrite H.
  - reflexivity.
  - destruct path; [reflexivity|]. rewrite Hp. reflexivity.
Qed.

Lemma fetch_sales_not_configured_witness :
  fetch_sales_from_sheets
    (mk_env (Some "missing.json") (fun _ => false) true None ["up"] one_sale_source
            example_now example_now) "Bob" 1 None None =
  Return (mk_result 0 [] (Some "Service account not configured") None).
Proof.
  apply fetch_sales_not_configured. right. exists "missing.json". split; reflexivity.
Defined.

Lemma process_row_matched (conf : sheet_config) (user_name : string)
      (since until : datetime) (st : loop_state) (row : list string)
      (sale_date : datetime) :
  (Nat.max (name_idx conf) (Nat.max (date_idx conf) (sale_idx conf)) < List.length row)%nat ->
  lower (strip (nth (name_idx conf) row "")) = lower user_name ->
  parse_row_date conf (strip (nth (date_idx conf) row "")) = Some sale_date ->
  datetime_leb since sale_date = true ->
  datetime_leb sale_date until = true ->
  let st' := process_row conf user_name since until st row in
  total_rows st' = total_rows st + 1 /\
  name_matches st' = name_matches st + 1 /\
  match parse_amount (strip (nth (sale_idx conf) row "")) with
  | Some amount =>
    sheet_total st' = (sheet_total st + amount)%float /\
    matching_sales st' = matching_sales st + 1 /\
    sheet_sales_count st' = sheet_sales_count st + 1
  | None =>
    sheet_total st' = sheet_total st /\
    matching_sales st' = matching_sales st /\
    sheet_sales_count st' = sheet_sales_count st
  end.
Proof.
  intros Hlen Hname Hdate Hlo Hhi st'. subst st'. unfold process_row.
  apply Nat.leb_gt in Hlen. rewrite Hlen, Hname, String.eqb_refl, Hdate, Hlo, Hhi.
  cbn [negb andb].
  destruct (parse_amount (strip (nth (sale_idx conf) row "")));
    destruct (List.length (sample_dates _) <? 5)%nat; cbn; repeat split; reflexivity.
Qed.

Lemma remove_currency (s : string) :
  remove_char "," (remove_char "$" s) =
  string_of_list_ascii (filter amount_char (list_ascii_of_string s)).
Proof.
  induction s as [| x s IH]; [reflexivity|].
  cbn [remove_char list_ascii_of_string filter]. unfold amount_char at 1.
  destruct (Ascii.eqb x "$") eqn:E1; cbn [orb negb]; [exact IH|].
  cbn [remove_char]. destruct (Ascii.eqb x ","); cbn [negb string_of_list_ascii];
    [exact IH | rewrite IH; reflexivity].
Qed.

Lemma lstrip_decomp (s : string) :
  exists a, s = a ++ lstrip s /\ all_chars is_space a = true.
Proof.
  induction s as [| c s (a & E & Ha)]; [exists ""; auto|].
  cbn [lstrip]. destruct (is_space c) eqn:Hc.
  - exists (String c a). cbn. rewrite Hc, Ha, <- E. auto.
  - exists "". auto.
Qed.

Lemma rstrip_decomp (s : string) :
  exists b, s = rstrip s ++ b /\ all_chars is_space b = true.
Proof.
  induction s as [| c s (b & E & Hb)]; [exists ""; auto|].
  cbn [rstrip]. destruct (rstrip s) as [| c' r] eqn:Er.
  - destruct (is_space c) eqn:Hc.
    + exists (String c s). split; [reflexivity|].
      cbn [append] in E. subst b. cbn. rewrite Hc, Hb. reflexivity.
    + exists s. split; [reflexivity|]. cbn [append] in E. subst b. exact Hb.
  - exists b. split; [|exact Hb]. cbn [append] in E |- *. congruence.
Qed.

Lemma lstrip_starts (s : string) (c : ascii) (r : string) :
  lstrip s = String c r -> is_space c = false.
Proof.
  induction s as [| x s IH]; [discriminate|].
  cbn [lstrip]. destruct (is_space x) eqn:Hx; [exact IH|].
  intros E. injection E as <- _. exact Hx.
Qed.

Lemma rstrip_starts (s : string) (c : ascii) (r : string) :
  rstrip s = String c r -> exists t, s = String c t.
Proof.
  destruct s as [| x s]; [discriminate|]. cbn [rstrip].
  destruct (rstrip s); [destruct (is_space x); [discriminate|]|];
    intros E; injection E as <- _; eauto.
Qed.

Lemma rstrip_ends (s : string) :
  forall t c, rstrip s = t ++ String c "" -> is_space c = false.
Proof.
  induction s as [| x s IH]; intros t c; [destruct t; discriminate|].
  cbn [rstrip]. destruct (rstrip s) as [| y r].
  - destruct (is_space x) eqn:Hx; [destruct t; discriminate|].
    destruct t as [| z [| z' t]]; cbn [append]; intros E; try discriminate E.
    injection E as <-. exact Hx.
  - destruct t as [| z t]; cbn [append]; intros E; [discriminate E|].
    injection E as _ E. exact (IH t c E).
Qed.

Lemma clean_amount_spec (s : string) :
  (exists a b,
     string_of_list_ascii (filter amount_char (list_ascii_of_string s)) =
     a ++ clean_amount s ++ b /\
     all_chars is_space a = true /\ all_chars is_space b = true) /\
  (forall c r, clean_amount s = String c r -> is_space c = false) /\
  (forall t c, clean_amount s = t ++ String c "" -> is_space c = false).
Proof.
  unfold clean_amount. rewrite remove_currency.
  set (kept := string_of_list_ascii (filter amount_char (list_ascii_of_string s))).
  unfold strip. split; [|split].
  - destruct (lstrip_decomp kept) as (a & Ea & Ha).
    destruct (rstrip_decomp (lstrip kept)) as (b & Eb & Hb).
    exists a, b. rewrite <- Eb. auto.
  - intros c r E. apply rstrip_starts in E. destruct E as [t E].
    exact (lstrip_starts kept c t E).
  - apply rstrip_ends.
Qed.

(** C7: the cleaned amount is the text without its [$] and [,], cut of
    the white space at its two ends: ["$1,234.50"] is 1234.50, the empty
    text is 0.0, and ["abc"] is no amount.  In a row whose name matches and
    whose date is in the window, an empty cleaned text adds 0.0 and a text
    that [float] reads adds its value, and the row counts as a matching
    sale; a text that [float] rejects changes neither the subtotal nor the
    count, and the loop goes on with the next row. *)
Theorem amount_cleaning (conf : sheet_config) (user_name : string)
        (since until : datetime) (st : loop_state) (row : list string)
        (sale_date : datetime) :
  (Nat.max (name_idx conf) (Nat.max (date_idx conf) (sale_idx conf)) < List.length row)%nat ->
  lower (strip (nth (name_idx conf) row "")) = lower user_name ->
  parse_row_date conf (strip (nth (date_idx conf) row "")) = Some sale_date ->
  datetime_leb since sale_date = true ->
  datetime_leb sale_date until = true ->
  let st' := process_row conf user_name since until st row in
  (forall s,
     (exists a b,
        string_of_list_ascii (filter amount_char (list_ascii_of_string s)) =
        a ++ clean_amount s ++ b /\
        all_chars is_space a = true /\ all_chars is_space b = true) /\
     (forall c r, clean_amount s = String c r -> is_space c = false) /\
     (forall t c, clean_amount s = t ++ String c "" -> is_space c = false)) /\
  clean_amount "$1,234.50" = "1234.50" /\
  parse_amount "$1,234.50" = Some 1234.5%float /\
  parse_amount "" = Some 0%float /\
  clean_amount "abc" = "abc" /\
  py_float "abc" = None /\
  parse_amount "abc" = None /\
  total_rows st' = total_rows st + 1 /\
  name_matches st' = name_matches st + 1 /\
  match clean_amount (strip (nth (sale_idx conf) row "")) with
  | "" =>
    sheet_total st' = (sheet_total st + 0)%float /\
    matching_sales st' = matching_sales st + 1 /\
    sheet_sales_count st' = sheet_sales_count st + 1
  | String c t =>
    match py_float (String c t) with
    | Some amount =>
      sheet_total st' = (sheet_total st + amount)%float /\
      matching_sales st' = matching_sales st + 1 /\
      sheet_sales_count st' = sheet_sales_count st + 1
    | None =>
      sheet_total st' = sheet_total st /\
      matching_sales st' = matching_sales st /\
      sheet_sales_count st' = sheet_sales_count st
    end
  end /\
  (forall rest,
     fold_left (process_row conf user_name since until) (row :: rest) st =
     fold_left (process_row conf user_name since until) rest st').
Proof.
  intros Hlen Hname Hdate Hlo Hhi st'.
  split; [exact clean_amount_spec|].
  split; [reflexivity|]. split; [reflexivity|]. split; [reflexivity|].
  split; [reflexivity|]. split; [reflexivity|]. split; [reflexivity|].
  destruct (process_row_matched conf user_name since until st row sale_date
              Hlen Hname Hdate Hlo Hhi) as (Hr & Hn & Ha).
  split; [exact Hr|]. split; [exact Hn|]. split.
  - unfold parse_amount in Ha.
    destruct (clean_amount (strip (nth (sale_idx conf) row ""))); exact Ha.
  - intros rest. reflexivity.
Qed.

Lemma amount_cleaning_witness :
  let st' := process_row DEFAULT_CONFIG "Bob" january_start
               (mk_datetime 2025 1 31 23 59 59 999999)
               (mk_state 3 2 1 [] 7.5%float 1) (example_row "$ 1,2,$34.50 ") in
  clean_amount "$ 1,2,$34.50" = "1234.50" /\
  total_rows st' = 4 /\ name_matches st' = 3 /\
  sheet_total st' = (7.5 + 1234.5)%float /\ matching_sales st' = 2.
Proof.
  destruct (amount_cleaning DEFAULT_CONFIG "Bob" january_start
              (mk_datetime 2025 1 31 23 59 59 999999)
              (mk_state 3 2 1 [] 7.5%float 1) (example_row "$ 1,2,$34.50 ")
              (mk_datetime 2025 1 15 0 0 0 0))
    as (_ & _ & _ & _ & _ & _ & _ & Hrows & Hnames & Hamount & _).
  - cbn. lia.
  - reflexivity.
  - reflexivity.
  - reflexivity.
  - reflexivity.
  - cbv zeta.
    change (clean_amount (strip (nth (sale_idx DEFAULT_CONFIG)
                                     (example_row "$ 1,2,$34.50 ") "")))
      with "1234.50" in Hamount.
    change (py_float "1234.50") with (Some 1234.5%float) in Hamount.
    destruct Hamount as (Ht & Hm & _).
    split; [reflexivity|]. repeat split; assumption.
Defined.

(** * Further properties *)

Local Close Scope string_scope.

(** ** More on the windows *)

Lemma cmp_datetime_same_month (y m d1 h1 mi1 s1 us1 d2 h2 mi2 s2 us2 : Z) :
  cmp_datetime (mk_datetime y m d1 h1 mi1 s1 us1) (mk_datetime y m d2 h2 mi2 s2 us2) =
  match d1 ?= d2 with
  | Eq => cmp_datetime (mk_datetime 1 1 1 h1 mi1 s1 us1) (mk_datetime 1 1 1 h2 mi2 s2 us2)
  | c => c
  end.
Proof.
  unfold cmp_datetime. cbn [year month day hour minute second microsecond].
  rewrite !Z.compare_refl. reflexivity.
Qed.

Lemma leb_midnight (y m d : Z) (dt : datetime) :
  y = year dt -> m = month dt -> d <= day dt ->
  check_time_fields (hour dt) (minute dt) (second dt) (microsecond dt) = true ->
  datetime_leb (mk_datetime y m d 0 0 0 0) dt = true.
Proof.
  intros -> -> Hd Ht. apply check_time_fields_spec in Ht.
  unfold datetime_leb, cmp_datetime. cbn [year month day hour minute second microsecond].
  rewrite !Z.compare_refl.
  destruct (Z.compare_spec d (day dt)); try lia; try reflexivity.
  destruct (Z.compare_spec 0 (hour dt)); try lia; try reflexivity.
  destruct (Z.compare_spec 0 (minute dt)); try lia; try reflexivity.
  destruct (Z.compare_spec 0 (second dt)); try lia; try reflexivity.
  destruct (Z.compare_spec 0 (microsecond dt)); try lia; reflexivity.
Qed.

Lemma leb_midnight_later_day (y m d : Z) (dt : datetime) :
  y = year dt -> m = month dt -> day dt < d ->
  datetime_leb (mk_datetime y m d 0 0 0 0) dt = false.
Proof.
  intros -> -> Hd.
  unfold datetime_leb, cmp_datetime. cbn [year month day hour minute second microsecond].
  rewrite !Z.compare_refl.
  destruct (Z.compare_spec d (day dt)); try lia; reflexivity.
Qed.

Lemma leb_end_of_day (y m d : Z) (dt : datetime) :
  y = year dt -> m = month dt -> day dt <= d ->
  check_time_fields (hour dt) (minute dt) (second dt) (microsecond dt) = true ->
  datetime_leb dt (mk_datetime y m d 23 59 59 999999) = true.
Proof.
  intros -> -> Hd Ht. apply check_time_fields_spec in Ht.
  unfold datetime_leb, cmp_datetime. cbn [year month day hour minute second microsecond].
  rewrite !Z.compare_refl.
  destruct (Z.compare_spec (day dt) d); try lia; try reflexivity.
  destruct (Z.compare_spec (hour dt) 23); try lia; try reflexivity.
  destruct (Z.compare_spec (minute dt) 59); try lia; try reflexivity.
  destruct (Z.compare_spec (second dt) 59); try lia; try reflexivity.
  destruct (Z.compare_spec (microsecond dt) 999999); try lia; reflexivity.
Qed.

Lemma leb_end_of_earlier_day (y m d : Z) (dt : datetime) :
  y = year dt -> m = month dt -> d < day dt ->
  datetime_leb dt (mk_datetime y m d 23 59 59 999999) = false.
Proof.
  intros -> -> Hd.
  unfold datetime_leb, cmp_datetime. cbn [year month day hour minute second microsecond].
  rewrite !Z.compare_refl.
  destruct (Z.compare_spec (day dt) d); try lia; reflexivity.
Qed.

(** A day 28 of the month before is before every instant of this month. *)
Lemma leb_prev_month_day28 (dt : datetime) :
  1 <= month dt <= 12 ->
  datetime_leb (prev_month_day28 dt) dt = true.
Proof.
  intros Hm. unfold prev_month_day28, prev_month.
  destruct (Z.eqb_spec (month dt) 1) as [E | Hne];
    unfold datetime_leb, cmp_datetime; cbn [year month day hour minute second microsecond].
  - destruct (Z.compare_spec (year dt - 1) (year dt)); try lia; reflexivity.
  - rewrite Z.compare_refl.
    destruct (Z.compare_spec (month dt - 1) (month dt)); try lia; reflexivity.
Qed.

Local Open Scope string_scope.

(** X1: [get_window_range] gives the window [third] from day 18 at
    00:00:00 to day 27 at 23:59:59.999999 of the month of today. *)
Theorem third_window_bounds (today : datetime) :
  valid_datetime today ->
  get_window_range today "third" =
  Return (mk_datetime (year today) (month today) 18 0 0 0 0,
          mk_datetime (year today) (month today) 27 23 59 59 999999).
Proof. apply get_window_range_third. Qed.

Lemma third_window_bounds_witness :
  get_window_range (mk_datetime 2024 2 29 23 59 59 0) "third" =
  Return (mk_datetime 2024 2 18 0 0 0 0, mk_datetime 2024 2 27 23 59 59 999999).
Proof.
  apply (third_window_bounds (mk_datetime 2024 2 29 23 59 59 0)).
  split; reflexivity.
Defined.

(** X2: today lies in the range [first] exactly when its day is at most 7,
    in [second] exactly for the days 8 to 17 and in [third] exactly for the
    days 18 to 27; from day 28 on, today is in none of the three ranges that
    [get_window_range] computes on that day. *)
Theorem named_windows_cover (today : datetime) :
  valid_datetime today ->
  1 < month today \/ MINYEAR < year today ->
  exists first second third,
    get_window_range today "first" = Return first /\
    get_window_range today "second" = Return second /\
    get_window_range today "third" = Return third /\
    in_range today first = (day today <=? 7)%Z /\
    in_range today second = ((8 <=? day today) && (day today <=? 17))%Z /\
    in_range today third = ((18 <=? day today) && (day today <=? 27))%Z /\
    (28 <= day today ->
     in_range today first = false /\ in_range today second = false /\
     in_range today third = false).
Proof.
  intros Hv Hne.
  pose proof (valid_datetime_date today Hv) as (Hy & Hm & Hd).
  destruct Hv as [Hdate Htime].
  assert (Hv : valid_datetime today) by (split; assumption).
  do 3 eexists.
  split; [apply get_window_range_first; assumption|].
  split; [apply get_window_range_second; assumption|].
  split; [apply get_window_range_third; assumption|].
  assert (H1 : in_range today
                 (prev_month_day28 today,
                  mk_datetime (year today) (month today) 7 23 59 59 999999) =
               (day today <=? 7)%Z).
  { unfold in_range. cbn [fst snd]. rewrite leb_prev_month_day28 by assumption.
    cbn [andb]. destruct (Z.leb_spec (day today) 7).
    - apply leb_end_of_day; auto.
    - apply leb_end_of_earlier_day; auto. }
  assert (H2 : in_range today
                 (mk_datetime (year today) (month today) 8 0 0 0 0,
                  mk_datetime (year today) (month today) 17 23 59 59 999999) =
               ((8 <=? day today) && (day today <=? 17))%Z).
  { unfold in_range. cbn [fst snd].
    destruct (Z.leb_spec 8 (day today)); cbn [andb].
    - rewrite leb_midnight by auto. cbn [andb].
      destruct (Z.leb_spec (day today) 17).
      + apply leb_end_of_day; auto.
      + apply leb_end_of_earlier_day; auto.
    - rewrite leb_midnight_later_day by auto. reflexivity. }
  assert (H3 : in_range today
                 (mk_datetime (year today) (month today) 18 0 0 0 0,
                  mk_datetime (year today) (month today) 27 23 59 59 999999) =
               ((18 <=? day today) && (day today <=? 27))%Z).
  { unfold in_range. cbn [fst snd].
    destruct (Z.leb_spec 18 (day today)); cbn [andb].
    - rewrite leb_midnight by auto. cbn [andb].
      destruct (Z.leb_spec (day today) 27).
      + apply leb_end_of_day; auto.
      + apply leb_end_of_earlier_day; auto.
    - rewrite leb_midnight_later_day by auto. reflexivity. }
  split; [exact H1|]. split; [exact H2|]. split; [exact H3|].
  intros H28. rewrite H1, H2, H3.
  destruct (Z.leb_spec (day today) 7); [lia|].
  destruct (Z.leb_spec (day today) 17); [lia|].
  destruct (Z.leb_spec (day today) 27); [lia|].
  rewrite !andb_false_r. auto.
Qed.

Lemma named_windows_cover_witness :
  exists first second third,
    get_window_range (mk_datetime 2025 1 30 8 0 0 0) "first" = Return first /\
    get_window_range (mk_datetime 2025 1 30 8 0 0 0) "second" = Return second /\
    get_window_range (mk_datetime 2025 1 30 8 0 0 0) "third" = Return third /\
    in_range (mk_datetime 2025 1 30 8 0 0 0) first = false /\
    in_range (mk_datetime 2025 1 30 8 0 0 0) second = false /\
    in_range (mk_datetime 2025 1 30 8 0 0 0) third = false.
Proof.
  destruct (named_windows_cover (mk_datetime 2025 1 30 8 0 0 0))
    as (r1 & r2 & r3 & E1 & E2 & E3 & _ & _ & _ & Hnone).
  - split; reflexivity.
  - right. reflexivity.
  - exists r1, r2, r3. destruct Hnone as (N1 & N2 & N3); [cbn; lia|].
    repeat split; assumption.
Defined.

Lemma window_start_valid (today : datetime) :
  valid_datetime today -> window_start_exists today ->
  check_date_fields (year (window_start today)) (month (window_start today))
                    (day (window_start today)) = true /\
  hour (window_start today) = 0 /\ minute (window_start today) = 0 /\
  second (window_start today) = 0 /\ microsecond (window_start today) = 0.
Proof.
  intros Hv Hs. pose proof (valid_datetime_date today Hv) as (Hy & Hm & Hd).
  destruct Hv as [Hdate _]. unfold window_start_exists, MINYEAR in Hs.
  unfold window_start, prev_month_day28. cbv zeta.
  destruct (Z.leb_spec 28 (day today));
    [cbn; split; [eapply check_date_fields_day_le; [eassumption | lia] | auto]|].
  destruct (Z.leb_spec 18 (day today));
    [cbn; split; [eapply check_date_fields_day_le; [eassumption | lia] | auto]|].
  destruct (Z.leb_spec 8 (day today));
    [cbn; split; [eapply check_date_fields_day_le; [eassumption | lia] | auto]|].
  pose proof (prev_month_valid (year today) (month today) Hm ltac:(lia) ltac:(lia)) as Hpv.
  destruct (prev_month (year today) (month today)) as [py pm]. cbn [fst snd] in Hpv.
  cbn. split; [|auto]. apply check_date_fields_spec. unfold MINYEAR, MAXYEAR.
  pose proof (days_in_month_bounds py pm ltac:(lia)). lia.
Qed.

Lemma since_window_start (now today : datetime) :
  valid_datetime today -> window_start_exists today ->
  toordinal now = toordinal today ->
  (since <- sub_days now (toordinal today - toordinal (window_start today) + 1 - 1) ;;
   replace since None (Some 0) (Some 0) (Some 0) (Some 0)) =
  Return (window_start today).
Proof.
  intros Hv Hs Hsame.
  destruct (window_start_valid today Hv Hs) as (Hd & Hh & Hmi & Hse & Hus).
  pose proof (proj1 (check_date_fields_spec _ _ _) Hd) as (Hy' & Hm' & Hd').
  unfold sub_days. rewrite Hsame.
  replace (toordinal today - (toordinal today - toordinal (window_start today) + 1 - 1))
    with (toordinal (window_start today)) by lia.
  unfold toordinal at 1 2 3.
  pose proof (ymd2ord_range _ _ _ Hy' Hm' Hd') as [H0 H1].
  apply Z.ltb_lt in H0. apply Z.leb_le in H1. rewrite H0, H1. cbn [andb].
  rewrite ord2ymd_ymd2ord by (unfold MINYEAR in Hy'; lia).
  cbn [bind]. unfold replace. cbn [or_default year month day].
  rewrite new_datetime_ok by (assumption || reflexivity).
  f_equal. destruct (window_start today) as [y m d h mi s us].
  cbn in *. subst. reflexivity.
Qed.

(** X3: called with the number of days that [calculate_window_days]
    returns, on a clock reading of the same day, [fetch_sales_from_sheets]
    takes as [since] the midnight at which the window of today starts. *)
Theorem current_window_since (env : environment) (today : datetime) (n : Z) :
  valid_datetime today -> window_start_exists today ->
  valid_datetime (utcnow_since env) ->
  toordinal (utcnow_since env) = toordinal today ->
  calculate_window_days today = Return n ->
  window_since env n None = Return (window_start today).
Proof.
  intros Hv Hs Hnow Hsame Hn.
  assert (Hs' : 7 < day today \/ MINYEAR < year today \/ 1 < month today)
    by (unfold window_start_exists in Hs; tauto).
  rewrite (calculate_window_days_anchor today Hv Hs') in Hn. injection Hn as <-.
  unfold window_since. apply since_window_start; assumption.
Qed.

Lemma current_window_since_witness :
  window_since (example_env [] one_sale_source) 3 None =
  Return (mk_datetime 2025 1 18 0 0 0 0).
Proof.
  apply (current_window_since (example_env [] one_sale_source)
           (mk_datetime 2025 1 20 23 30 0 0) 3).
  - split; reflexivity.
  - left. cbn. lia.
  - split; reflexivity.
  - reflexivity.
  - reflexivity.
Defined.

(** X4: the bounds that [get_window_range] returns are used as they are:
    the truncations of [fetch_sales_from_sheets] to midnight and to the end
    of the day leave them unchanged. *)
Theorem named_window_bounds_kept (env : environment) (today : datetime)
        (window : string) (days_ : Z) (start end_ : datetime) :
  valid_datetime today ->
  get_window_range today window = Return (start, end_) ->
  window_since env days_ (Some start) = Return start /\
  window_until env (Some end_) = Return end_.
Proof.
  intros Hv H.
  pose proof (valid_datetime_date today Hv) as (Hy & Hm & Hd).
  assert (H1 : check_date_fields (year today) (month today) 1 = true)
    by (destruct Hv as [Hdate _]; eapply check_date_fields_day; [eassumption | lia]).
  assert (Hday : forall d, 1 <= d <= 28 ->
            check_date_fields (year today) (month today) d = true)
    by (intros d Hr; eapply check_date_fields_day; eassumption).
  unfold get_window_range in H. rewrite month_start_ok in H by assumption.
  cbn [bind] in H.
  destruct (String.eqb window "first").
  - destruct (sub_days _ 1) as [p | e] eqn:Esub; [|discriminate H]. cbn [bind] in H.
    destruct (replace p (Some 28) (Some 0) (Some 0) (Some 0) (Some 0)) as [s | e] eqn:Es;
      [|discriminate H].
    cbn [bind] in H. rewrite replace_month_start in H by (auto; lia).
    cbn [bind] in H. injection H as <- <-.
    unfold replace, new_datetime in Es. cbn [or_default] in Es.
    destruct (check_date_fields (year p) (month p) 28) eqn:Ec; [|discriminate Es].
    cbn in Es. injection Es as <-.
    unfold window_since, window_until, replace. cbn [or_default year month day].
    rewrite !new_datetime_ok by (auto; try reflexivity; apply Hday; lia). auto.
  - destruct (String.eqb window "second").
    + rewrite !replace_month_start in H by (auto; lia). cbn [bind] in H.
      injection H as <- <-.
      unfold window_since, window_until, replace. cbn [or_default year month day].
      rewrite !new_datetime_ok by (try reflexivity; apply Hday; lia). auto.
    + destruct (String.eqb window "third"); [|discriminate H].
      rewrite !replace_month_start in H by (auto; lia). cbn [bind] in H.
      injection H as <- <-.
      unfold window_since, window_until, replace. cbn [or_default year month day].
      rewrite !new_datetime_ok by (try reflexivity; apply Hday; lia). auto.
Qed.

Lemma named_window_bounds_kept_witness :
  window_since (example_env [] one_sale_source) 1
    (Some (mk_datetime 2024 2 28 0 0 0 0)) = Return (mk_datetime 2024 2 28 0 0 0 0) /\
  window_until (example_env [] one_sale_source)
    (Some (mk_datetime 2024 3 7 23 59 59 999999)) =
  Return (mk_datetime 2024 3 7 23 59 59 999999).
Proof.
  apply (named_window_bounds_kept (example_env [] one_sale_source)
           (mk_datetime 2024 3 15 10 20 30 40) "first" 1).
  - split; reflexivity.
  - reflexivity.
Defined.

(** ** More on the date parser *)

Lemma all_chars_lstrip (p : ascii -> bool) (s : string) :
  all_chars p s = true -> all_chars p (lstrip s) = true.
Proof.
  induction s as [| c s IH]; cbn; [auto|].
  intros H. apply andb_true_iff in H. destruct H as [Hc Hs].
  destruct (is_space c); [auto|]. cbn. rewrite Hc, Hs. reflexivity.
Qed.

Lemma all_chars_rstrip (p : ascii -> bool) (s : string) :
  all_chars p s = true -> all_chars p (rstrip s) = true.
Proof.
  induction s as [| c s IH]; cbn; [auto|].
  intros H. apply andb_true_iff in H. destruct H as [Hc Hs].
  specialize (IH Hs). destruct (rstrip s) as [| c' r].
  - destruct (is_space c); cbn; [reflexivity | rewrite Hc; reflexivity].
  - cbn [all_chars]. rewrite Hc. exact IH.
Qed.

Lemma all_chars_strip (p : ascii -> bool) (s : string) :
  all_chars p s = true -> all_chars p (strip s) = true.
Proof. intros H. unfold strip. apply all_chars_rstrip, all_chars_lstrip, H. Qed.

Lemma all_chars_split_head (p : ascii -> bool) (sep s : string) :
  all_chars p s = true -> all_chars p (split_head sep s) = true.
Proof.
  induction s as [| c s IH]; intros H.
  - cbn [split_head]. destruct (prefix sep ""); reflexivity.
  - cbn [split_head]. destruct (prefix sep (String c s)); [reflexivity|].
    cbn in H |- *. apply andb_true_iff in H. destruct H as [Hc Hs].
    rewrite Hc. apply IH, Hs.
Qed.

Lemma all_chars_sub_ordinals (p : ascii -> bool) (s : string) :
  all_chars p s = true -> all_chars p (sub_ordinals s) = true.
Proof.
  assert (H : forall n s, (String.length s <= n)%nat ->
                all_chars p s = true -> all_chars p (sub_ordinals s) = true).
  { clear s. induction n as [| n IH]; intros s Hlen Hs.
    - destruct s; [reflexivity | cbn in Hlen; lia].
    - destruct s as [| c s]; [reflexivity|].
      cbn in Hlen. cbn in Hs. apply andb_true_iff in Hs. destruct Hs as [Hc Hs].
      cbn [sub_ordinals all_chars]. rewrite Hc. cbn [andb].
      destruct (is_digit c); [|apply IH; [lia | assumption]].
      destruct s as [| a [| b rest]]; try (apply IH; [cbn in *; lia | assumption]).
      destruct (is_ordinal_suffix a b); [|apply IH; [cbn in *; lia | assumption]].
      apply IH; [cbn in *; lia|].
      cbn in Hs. apply andb_true_iff in Hs. destruct Hs as [_ Hs].
      apply andb_true_iff in Hs. tauto. }
  apply (H (String.length s)). lia.
Qed.

Lemma all_chars_clean_date (p : ascii -> bool) (raw : string) :
  all_chars p raw = true -> all_chars p (clean_date raw) = true.
Proof.
  intros H. unfold clean_date. apply all_chars_sub_ordinals.
  destruct (contains " GMT" (strip raw)).
  - apply all_chars_strip, all_chars_split_head, all_chars_strip, H.
  - apply all_chars_strip, H.
Qed.

Lemma all_chars_substring (p : ascii -> bool) (s : string) :
  forall n m, all_chars p s = true -> all_chars p (substring n m s) = true.
Proof.
  induction s as [| c s IH]; intros n m H.
  - destruct n, m; reflexivity.
  - cbn in H. apply andb_true_iff in H. destruct H as [Hc Hs].
    destruct n as [| n]; destruct m as [| m]; cbn; auto.
    rewrite Hc. cbn. apply IH, Hs.
Qed.

Lemma count_char_absent (c : ascii) (s : string) :
  all_chars (fun x => negb (Ascii.eqb x c)) s = true -> count_char c s = O.
Proof.
  induction s as [| x s IH]; cbn; [reflexivity|].
  intros H. apply andb_true_iff in H. destruct H as [Hx Hs].
  apply negb_true_iff in Hx. rewrite Hx. apply IH, Hs.
Qed.

Lemma all_chars_impl (p q : ascii -> bool) (s : string) :
  (forall c, p c = true -> q c = true) ->
  all_chars p s = true -> all_chars q s = true.
Proof.
  intros Hpq. induction s as [| c s IH]; cbn; [reflexivity|].
  intros H. apply andb_true_iff in H. destruct H as [Hc Hs].
  rewrite (Hpq c Hc), (IH Hs). reflexivity.
Qed.

Lemma all_chars_app_r (p : ascii -> bool) (t r : string) :
  all_chars p (t ++ r) = true -> all_chars p r = true.
Proof. rewrite all_chars_app. intros H. apply andb_true_iff in H. tauto. Qed.

Lemma match_spaces_sound (s : string) :
  forall t r, In (t, r) (match_spaces s) -> s = t ++ r.
Proof.
  induction s as [| c s IH]; intros t r H; [destruct H|].
  cbn in H. destruct (is_space c); [|destruct H].
  apply in_app_or in H. destruct H as [H | [H | []]].
  - apply in_map_iff in H. destruct H as ([t' r'] & E & H).
    cbn [fst snd] in E. injection E as <- <-. cbn. f_equal. apply IH, H.
  - injection H as <- <-. reflexivity.
Qed.

(** A literal of the format that no character of the text matches: the
    pattern does not match. *)
Lemma match_items_literal (items : list fmt_item) (c : ascii) :
  In c (literals items) ->
  forall s, all_chars (fun x => negb (chr c x)) s = true -> match_items items s = [].
Proof.
  induction items as [| it items IH]; intros Hin s Hs; [destruct Hin|].
  cbn [match_items].
  destruct (match_item it s) as [| gr l] eqn:Em; [reflexivity|].
  assert (Hall : forall g r, In (g, r) (match_item it s) ->
                   match_items items r = [] ).
  { intros g r Hgr. destruct it as [d | | c'].
    - apply in_match_item_dir in Hgr. destruct Hgr as (t & _ & -> & _).
      apply IH; [exact Hin | eapply all_chars_app_r; exact Hs].
    - cbn [match_item] in Hgr. apply in_map_iff in Hgr.
      destruct Hgr as ([t r'] & E & Hgr). cbn [fst snd] in E. injection E as <- <-.
      apply match_spaces_sound in Hgr. subst s.
      apply IH; [exact Hin | eapply all_chars_app_r; exact Hs].
    - cbn [match_item] in Hgr. apply in_map_iff in Hgr.
      destruct Hgr as ([t r'] & E & Hgr). cbn [fst snd] in E. injection E as <- <-.
      apply match_alts_sound in Hgr. destruct Hgr as [-> (cs & [<- | []] & Hok)].
      destruct t as [| x [| x' t']]; cbn in Hok; try tauto.
      destruct Hok as [Hx _].
      cbn [literals] in Hin. destruct Hin as [<- | Hin].
      + cbn in Hs. rewrite Hx in Hs. discriminate Hs.
      + apply IH; [exact Hin | eapply (all_chars_app_r _ (String x "")); exact Hs]. }
  rewrite <- Em. clear Em gr l.
  induction (match_item it s) as [| [g r] l IHl]; [reflexivity|].
  cbn [flat_map fst snd]. rewrite (Hall g r) by (left; reflexivity). cbn [map app].
  apply IHl. intros g' r' H'. apply (Hall g' r'). right. exact H'.
Qed.

Lemma strptime_literal (s fmt : string) (items : list fmt_item) (c : ascii) :
  compile_format fmt = Some items -> In c (literals items) ->
  all_chars (fun x => negb (chr c x)) s = true ->
  strptime s fmt = None.
Proof.
  intros Hc Hin Hs. unfold strptime. rewrite Hc.
  rewrite (match_items_literal items c Hin s Hs). reflexivity.
Qed.

Lemma no_separator_chr (c : ascii) :
  no_separator c = true ->
  negb (chr ":" c) = true /\ negb (chr "-" c) = true /\ negb (chr "/" c) = true /\
  negb (Ascii.eqb c "-") = true /\ negb (Ascii.eqb c "/") = true.
Proof. each_char c; intros H; try discriminate H; repeat split. Qed.

(** X5: a text with none of the characters [:], [-] and [/] is never
    parsed: every candidate format holds one of them as a literal, and the
    retries on the first ten characters count two [-] or two [/].  So a date
    such as ["Nov 15, 2025"], which the layout format [%b %d, %Y] reads, is
    no date for [parse_sheet_date]. *)
Theorem parse_sheet_date_needs_separator (raw : string) :
  all_chars no_separator raw = true -> parse_sheet_date raw = None.
Proof.
  intros Hraw.
  pose proof (all_chars_clean_date _ _ Hraw) as Hc.
  set (cleaned := clean_date raw) in *.
  assert (Hcolon : all_chars (fun x => negb (chr ":" x)) cleaned = true)
    by (eapply all_chars_impl; [|exact Hc]; intros c H; apply no_separator_chr in H; tauto).
  assert (Hdash : all_chars (fun x => negb (chr "-" x)) cleaned = true)
    by (eapply all_chars_impl; [|exact Hc]; intros c H; apply no_separator_chr in H; tauto).
  assert (Hslash : all_chars (fun x => negb (chr "/" x)) cleaned = true)
    by (eapply all_chars_impl; [|exact Hc]; intros c H; apply no_separator_chr in H; tauto).
  unfold parse_sheet_date. fold cleaned. unfold candidates. cbn [try_formats].
  rewrite (strptime_literal cleaned "%B %d, %Y at %I:%M %p" _ ":" eq_refl)
    by (assumption || (cbn; tauto)).
  rewrite (strptime_literal cleaned "%b %d, %Y at %I:%M %p" _ ":" eq_refl)
    by (assumption || (cbn; tauto)).
  rewrite (strptime_literal cleaned "%b %d, %Y, %I:%M:%S %p" _ ":" eq_refl)
    by (assumption || (cbn; tauto)).
  rewrite (strptime_literal cleaned "%B %d, %Y, %I:%M:%S %p" _ ":" eq_refl)
    by (assumption || (cbn; tauto)).
  rewrite (strptime_literal cleaned "%Y-%m-%d" _ "-" eq_refl)
    by (assumption || (cbn; tauto)).
  rewrite (strptime_literal cleaned "%Y/%m/%d" _ "/" eq_refl)
    by (assumption || (cbn; tauto)).
  rewrite (strptime_literal cleaned "%m/%d/%Y" _ "/" eq_refl)
    by (assumption || (cbn; tauto)).
  rewrite (strptime_literal cleaned "%d/%m/%Y" _ "/" eq_refl)
    by (assumption || (cbn; tauto)).
  rewrite (strptime_literal cleaned "%Y-%m-%d %H:%M" _ ":" eq_refl)
    by (assumption || (cbn; tauto)).
  rewrite (strptime_literal cleaned "%Y/%m/%d %H:%M" _ ":" eq_refl)
    by (assumption || (cbn; tauto)).
  destruct (10 <=? String.length cleaned)%nat; [|reflexivity].
  cbv zeta.
  assert (Hhead : all_chars no_separator (substring 0 10 cleaned) = true)
    by (apply all_chars_substring; exact Hc).
  rewrite (count_char_absent "-"), (count_char_absent "/"); [reflexivity | |];
    (eapply all_chars_impl; [|exact Hhead]; intros c H; apply no_separator_chr in H; tauto).
Qed.

Lemma parse_sheet_date_needs_separator_witness :
  strptime "Nov 15, 2025" "%b %d, %Y" = Some (mk_datetime 2025 11 15 0 0 0 0) /\
  parse_sheet_date "Nov 15, 2025" = None.
Proof.
  split; [reflexivity|].
  apply parse_sheet_date_needs_separator. reflexivity.
Defined.

Lemma lstrip_blank_app (a s : string) :
  all_chars is_space a = true -> lstrip (a ++ s) = lstrip s.
Proof.
  induction a as [| c a IH]; cbn; [reflexivity|].
  intros H. apply andb_true_iff in H. destruct H as [Hc Ha].
  rewrite Hc. apply IH, Ha.
Qed.

Lemma rstrip_blank (b : string) :
  all_chars is_space b = true -> rstrip b = "".
Proof.
  induction b as [| c b IH]; cbn; [reflexivity|].
  intros H. apply andb_true_iff in H. destruct H as [Hc Hb].
  rewrite (IH Hb), Hc. reflexivity.
Qed.

(** [rstrip] looks at the text from its end. *)
Lemma rstrip_app (a b : string) :
  rstrip (a ++ b) =
  match rstrip b with
  | "" => rstrip a
  | String c r => a ++ String c r
  end.
Proof.
  induction a as [| x a IH]; cbn [append rstrip].
  - destruct (rstrip b); reflexivity.
  - rewrite IH. destruct (rstrip b) as [| c r]; [reflexivity|].
    destruct a; reflexivity.
Qed.

Lemma lstrip_app (s x : string) :
  lstrip s <> "" -> lstrip (s ++ x) = lstrip s ++ x.
Proof.
  induction s as [| c s IH]; cbn; [congruence|].
  destruct (is_space c); [exact IH | reflexivity].
Qed.

Lemma lstrip_all_blank (s : string) :
  lstrip s = "" -> all_chars is_space s = true.
Proof.
  induction s as [| c s IH]; cbn; [reflexivity|].
  destruct (is_space c); [exact IH | discriminate].
Qed.

Lemma strip_padding (a s b : string) :
  all_chars is_space a = true -> all_chars is_space b = true ->
  strip (a ++ s ++ b) = strip s.
Proof.
  intros Ha Hb. unfold strip. rewrite lstrip_blank_app by assumption.
  destruct (lstrip s) as [| c u] eqn:E.
  - assert (Hs : all_chars is_space (s ++ b) = true)
      by (rewrite all_chars_app, (lstrip_all_blank s E), Hb; reflexivity).
    pose proof (rstrip_blank _ (all_chars_lstrip _ _ Hs)) as H. rewrite H.
    reflexivity.
  - rewrite lstrip_app by congruence. rewrite E, rstrip_app.
    rewrite (rstrip_blank b Hb). reflexivity.
Qed.

(** X6: white space before and after a text does not change what
    [parse_sheet_date] returns for it. *)
Theorem parse_sheet_date_ignores_padding (a s b : string) :
  all_chars is_space a = true -> all_chars is_space b = true ->
  parse_sheet_date (a ++ s ++ b) = parse_sheet_date s.
Proof.
  intros Ha Hb. unfold parse_sheet_date, clean_date.
  rewrite strip_padding by assumption. reflexivity.
Qed.

Lemma parse_sheet_date_ignores_padding_witness :
  parse_sheet_date "  11/15/2025 " = parse_sheet_date "11/15/2025".
Proof.
  exact (parse_sheet_date_ignores_padding "  " "11/15/2025" " " eq_refl eq_refl).
Defined.

Lemma contains_tail (sep : string) (c : ascii) (s : string) :
  contains sep (String c s) = false ->
  prefix sep (String c s) = false /\ contains sep s = false.
Proof.
  cbn [contains]. destruct (prefix sep (String c s)); [discriminate | auto].
Qed.

Lemma contains_lstrip (sep s : string) :
  contains sep s = false -> contains sep (lstrip s) = false.
Proof.
  induction s as [| c s IH]; [auto|].
  intros H. cbn [lstrip]. destruct (is_space c); [|exact H].
  apply IH. apply contains_tail in H. tauto.
Qed.

Lemma prefix_nil (w : string) : prefix "" w = true.
Proof. destruct w; reflexivity. Qed.

(** A text against the marker [" GMT"]: only its first four characters
    count. *)
Lemma prefix_GMT_app (w x : string) :
  w <> "" -> prefix " GMT" w = false -> prefix " GMT" (w ++ " GMT" ++ x) = false.
Proof.
  intros Hne H.
  destruct w as [| c1 [| c2 [| c3 [| c4 w]]]]; [congruence | | | |];
    cbn [append prefix] in H |- *.
  - destruct (ascii_dec " " c1); [|reflexivity].
    destruct (ascii_dec "G" " "); [discriminate | reflexivity].
  - destruct (ascii_dec " " c1); [|reflexivity].
    destruct (ascii_dec "G" c2); [|reflexivity].
    destruct (ascii_dec "M" " "); [discriminate | reflexivity].
  - destruct (ascii_dec " " c1); [|reflexivity].
    destruct (ascii_dec "G" c2); [|reflexivity].
    destruct (ascii_dec "M" c3); [|reflexivity].
    destruct (ascii_dec "T" " "); [discriminate | reflexivity].
  - rewrite prefix_nil in H |- *. exact H.
Qed.

Lemma prefix_app_self (sep x : string) : prefix sep (sep ++ x) = true.
Proof.
  induction sep as [| c sep IH]; cbn [append prefix]; [destruct x; reflexivity|].
  destruct (ascii_dec c c); [exact IH | congruence].
Qed.

Lemma split_head_GMT (u x : string) :
  contains " GMT" u = false ->
  contains " GMT" (u ++ " GMT" ++ x) = true /\
  split_head " GMT" (u ++ " GMT" ++ x) = u.
Proof.
  induction u as [| c u IH]; intros H.
  - change ("" ++ " GMT" ++ x) with (" GMT" ++ x).
    unfold contains, split_head.
    destruct (" GMT" ++ x) eqn:E; [discriminate E|].
    rewrite <- E, prefix_app_self. auto.
  - apply contains_tail in H. destruct H as [Hp Hc].
    destruct (IH Hc) as [IH1 IH2].
    assert (Hp' : prefix " GMT" (String c u ++ " GMT" ++ x) = false)
      by (apply prefix_GMT_app; [discriminate | exact Hp]).
    change (String c u ++ " GMT" ++ x) with (String c (u ++ " GMT" ++ x)) in *.
    cbn [contains split_head]. rewrite Hp'. rewrite IH1, IH2. auto.
Qed.

Lemma prefix_app_l (sep a b : string) :
  prefix sep a = true -> prefix sep (a ++ b) = true.
Proof.
  revert a. induction sep as [| c sep IH]; intros a H; [apply prefix_nil|].
  destruct a as [| x a]; [discriminate H|].
  cbn [append prefix] in H |- *. destruct (ascii_dec c x); [auto | discriminate H].
Qed.

Lemma contains_app_l (sep a b : string) :
  contains sep (a ++ b) = false -> contains sep a = false.
Proof.
  induction a as [| x a IH]; intros H.
  - cbn [contains]. destruct (prefix sep "") eqn:E; [|reflexivity].
    apply (prefix_app_l sep "" b) in E. cbn [append] in E, H.
    destruct b; cbn [contains] in H; rewrite E in H; discriminate H.
  - change (String x a ++ b) with (String x (a ++ b)) in H.
    apply contains_tail in H. destruct H as [Hp Hc].
    cbn [contains]. rewrite (IH Hc).
    destruct (prefix sep (String x a)) eqn:E; [|reflexivity].
    apply (prefix_app_l sep (String x a) b) in E.
    change (String x a ++ b) with (String x (a ++ b)) in E. congruence.
Qed.

(** What [rstrip] removes is white space at the end. *)
Lemma contains_rstrip (sep s : string) :
  contains sep s = false -> contains sep (rstrip s) = false.
Proof.
  intros H. destruct (rstrip_decomp s) as (b & E & _).
  rewrite E in H. apply contains_app_l in H. exact H.
Qed.

Lemma lstrip_idem (s : string) : lstrip (lstrip s) = lstrip s.
Proof.
  induction s as [| c s IH]; [reflexivity|].
  cbn [lstrip]. destruct (is_space c) eqn:Hc; [exact IH|].
  cbn [lstrip]. rewrite Hc. reflexivity.
Qed.

Lemma rstrip_GMT (t : string) : exists c r, rstrip (" GMT" ++ t) = String c r /\
  String c r = " GMT" ++ rstrip t.
Proof.
  rewrite rstrip_app. destruct (rstrip t) as [| c r]; cbn; eauto.
Qed.

(** X7: what follows the first [" GMT"] of a text is dropped, marker
    included: a text with a time zone after it is parsed as the text
    without it, and no offset is applied to the time. *)
Theorem parse_sheet_date_drops_timezone (s t : string) :
  contains " GMT" s = false -> lstrip s <> "" ->
  parse_sheet_date (s ++ " GMT" ++ t) = parse_sheet_date s.
Proof.
  intros Hno Hs.
  assert (E : clean_date (s ++ " GMT" ++ t) = clean_date s).
  { unfold clean_date, strip.
    rewrite lstrip_app by assumption.
    rewrite rstrip_app. destruct (rstrip_GMT t) as (c & r & -> & ->).
    pose proof (contains_lstrip _ _ Hno) as Hu.
    destruct (split_head_GMT (lstrip s) (rstrip t) Hu) as [-> ->].
    rewrite lstrip_idem. rewrite (contains_rstrip _ _ Hu). reflexivity. }
  unfold parse_sheet_date. rewrite E. reflexivity.
Qed.

Lemma parse_sheet_date_drops_timezone_witness :
  parse_sheet_date "2025-11-15 GMT+8" = parse_sheet_date "2025-11-15".
Proof.
  apply (parse_sheet_date_drops_timezone "2025-11-15" "+8").
  - reflexivity.
  - discriminate.
Defined.

(** ** More on the aggregation *)

Lemma fold_left_ext {A B : Type} (f g : A -> B -> A) (l : list B) :
  (forall a b, f a b = g a b) -> forall a, fold_left f l a = fold_left g l a.
Proof.
  intros H. induction l as [| b l IH]; intros a; cbn; [reflexivity|].
  rewrite H. apply IH.
Qed.

Lemma process_row_user_case (conf : sheet_config) (u1 u2 : string)
      (since until : datetime) (st : loop_state) (row : list string) :
  lower u1 = lower u2 ->
  process_row conf u1 since until st row = process_row conf u2 since until st row.
Proof. intros E. unfold process_row. rewrite E. reflexivity. Qed.

Lemma process_sheet_user_case (fetch : string -> outcome (list (list string)))
      (u1 u2 : string) (since until : datetime) (run : run_state) (id : string) :
  lower u1 = lower u2 ->
  process_sheet fetch u1 since until run id = process_sheet fetch u2 since until run id.
Proof.
  intros E. unfold process_sheet, process_rows.
  destruct (fetch id) as [[| header data] | e]; try reflexivity.
  rewrite (fold_left_ext _ (process_row (get_config SHEET_CONFIGS id) u2 since until));
    [reflexivity|].
  intros st row. apply process_row_user_case, E.
Qed.

(** X8: the user name is compared without regard to letter case: two names
    with the same lower-case form get the same result. *)
Theorem fetch_sales_user_case (env : environment) (u1 u2 : string) (days_ : Z)
        (start_date end_date : option datetime) :
  lower u1 = lower u2 ->
  fetch_sales_from_sheets env u1 days_ start_date end_date =
  fetch_sales_from_sheets env u2 days_ start_date end_date.
Proof.
  intros E. unfold fetch_sales_from_sheets.
  destruct (match SERVICE_ACCOUNT_JSON env with
            | None => true
            | Some "" => true
            | Some (String _ _ as path) => negb (path_exists env path)
            end); [reflexivity|].
  destruct (negb (google_client_installed env)); [reflexivity|].
  destruct (service_error env); [reflexivity|].
  destruct (window_since env days_ start_date) as [since|]; [|reflexivity].
  destruct (window_until env end_date) as [until|]; [|reflexivity].
  cbn [bind].
  rewrite (fold_left_ext _ (process_sheet (fetch_values env) u2 since until));
    [reflexivity|].
  intros run id. apply process_sheet_user_case, E.
Qed.

Lemma fetch_sales_user_case_witness :
  fetch_sales_from_sheets (example_env ["up"] one_sale_source) "BOB" 1
    (Some january_start) (Some january_end) =
  fetch_sales_from_sheets (example_env ["up"] one_sale_source) "bob" 1
    (Some january_start) (Some january_end).
Proof. apply fetch_sales_user_case. reflexivity. Defined.

(** X10: in a result without error, [total] is the sum, in the order of
    [SHEETS_IDS] and once for each time a sheet is listed, of the subtotals
    that are above zero. *)
Theorem total_sums_positive_subtotals (env : environment) (user_name : string)
        (days_ : Z) (start_date end_date : option datetime) (res : sales_result) :
  fetch_sales_from_sheets env user_name days_ start_date end_date = Return res ->
  error res = None ->
  exists since until,
    window_since env days_ start_date = Return since /\
    window_until env end_date = Return until /\
    total res =
    float_sum (positive_subtotals (fetch_values env) user_name since until
                                  (SHEETS_IDS env)).
Proof.
  intros H Herr. apply not_configured_result in H.
  destruct H as [(msg & ->) | (since & until & Hs & Hu & Ht & _)];
    [discriminate Herr|].
  exists since, until. split; [exact Hs|]. split; [exact Hu|].
  cbv zeta in Ht. rewrite Ht, fold_sheets_totals. reflexivity.
Qed.

Lemma total_sums_positive_subtotals_witness :
  exists res,
    fetch_sales_from_sheets (example_env ["up"; "down"; "up"] one_sale_source)
      "Bob" 1 (Some january_start) (Some january_end) = Return res /\
    total res = 10%float.
Proof.
  eexists. split; [reflexivity|].
  destruct (total_sums_positive_subtotals
              (example_env ["up"; "down"; "up"] one_sale_source) "Bob" 1
              (Some january_start) (Some january_end) _ eq_refl eq_refl)
    as (since & until & Hs & Hu & Ht).
  injection Hs as <-. injection Hu as <-. rewrite Ht. reflexivity.
Defined.

(** ** The users file *)

Lemma str_of_Z_inj (a b : Z) : str_of_Z a = str_of_Z b -> a = b.
Proof.
  unfold str_of_Z. intros H.
  assert (Hn : forall z, Z.to_int z <> Decimal.Pos Decimal.Nil /\
                         Z.to_int z <> Decimal.Neg Decimal.Nil).
  { intros [| p | p]; cbn; split; try discriminate;
      intros E; injection E as E; exact (DecimalPos.Unsigned.to_uint_nonnil p E). }
  apply (f_equal NilZero.int_of_string) in H.
  rewrite !NilZero.isi in H by apply Hn.
  injection H as H. apply (f_equal Z.of_int) in H.
  rewrite !DecimalZ.of_to in H. exact H.
Qed.

Lemma map_get_set_same (k : string) (v : json) (d : list (string * json)) :
  map_get k (map_set k v d) = Some v.
Proof.
  induction d as [| [k' v'] d IH]; cbn.
  - rewrite String.eqb_refl. reflexivity.
  - destruct (String.eqb_spec k' k) as [-> | Hne]; cbn.
    + rewrite String.eqb_refl. reflexivity.
    + destruct (String.eqb_spec k' k); [contradiction | exact IH].
Qed.

Lemma map_get_set_other (k k0 : string) (v : json) (d : list (string * json)) :
  k <> k0 -> map_get k0 (map_set k v d) = map_get k0 d.
Proof.
  intros Hne. induction d as [| [k' v'] d IH]; cbn.
  - destruct (String.eqb_spec k k0); [contradiction | reflexivity].
  - destruct (String.eqb_spec k' k) as [-> | Hne']; cbn.
    + destruct (String.eqb_spec k k0); [contradiction | reflexivity].
    + destruct (String.eqb_spec k' k0); [reflexivity | exact IH].
Qed.

Lemma truthy_name (s : string) : s <> "" -> truthy (JStr s) = true.
Proof. intros H. destruct s; [congruence | reflexivity]. Qed.

(** X11: [/setname] with a name, on a users file that reads as a mapping,
    ends without an exception, and [resolve_user_name] then returns that
    name for the same user, whatever the mapping held and whatever
    [DEFAULT_USER] is.  On every other file it raises before it replies,
    and leaves the file as it is. *)
Theorem setname_then_resolve (repr : json -> string) (DEFAULT_USER : string)
        (f : users_file) (u : telegram_user) (args : list string) :
  args <> [] -> strip (join " " args) <> "" ->
  let h := setname repr DEFAULT_USER f u args in
  if reads_as_mapping f then
    raised h = None /\
    resolve_user_name DEFAULT_USER (file_after h) u =
    (file_after h, Ok (JStr (strip (join " " args))))
  else
    raised h <> None /\ replies h = [] /\ file_after h = f.
Proof.
  intros Hargs Hname. destruct args as [| a args]; [congruence|].
  cbv zeta. unfold setname.
  assert (Hdone : forall d f0,
            resolve_user_name DEFAULT_USER
              (save_user_map
                 (JDict (map_set (str_of_Z (user_id u))
                                 (JStr (strip (join " " (a :: args)))) d)) f0) u =
            (save_user_map
               (JDict (map_set (str_of_Z (user_id u))
                               (JStr (strip (join " " (a :: args)))) d)) f0,
             Ok (JStr (strip (join " " (a :: args)))))).
  { intros d f0. unfold resolve_user_name, save_user_map, load_user_map.
    cbn [ensure_data_dir]. rewrite map_get_set_same, truthy_name by assumption.
    reflexivity. }
  destruct f as [| [| b | n | x | s | l | d] | | name];
    cbn [reads_as_mapping load_user_map ensure_data_dir raised replies file_after];
    try (split; [reflexivity | apply Hdone]);
    (split; [discriminate | split; reflexivity]).
Qed.

Lemma setname_then_resolve_witness :
  resolve_user_name "Team"
    (file_after (setname (fun _ => "?") "Team" BadJson (mk_user 42 "Ann Lee")
                         ["  Ann"; "L. "]))
    (mk_user 42 "Ann Lee") =
  (JsonFile (JDict [("42", JStr "Ann L.")]), Ok (JStr "Ann L.")).
Proof.
  exact (proj2 (setname_then_resolve (fun _ => "?") "Team" BadJson
                  (mk_user 42 "Ann Lee") ["  Ann"; "L. "]
                  ltac:(discriminate) ltac:(discriminate))).
Defined.

(** X12: [/setname] by one user does not change what [resolve_user_name]
    returns or raises for a user with another identifier, whatever the
    users file holds. *)
Theorem setname_keeps_other_users (repr : json -> string) (DEFAULT_USER : string)
        (f : users_file) (u v : telegram_user) (args : list string) :
  user_id v <> user_id u ->
  snd (resolve_user_name DEFAULT_USER
         (file_after (setname repr DEFAULT_USER f u args)) v) =
  snd (resolve_user_name DEFAULT_USER f v).
Proof.
  intros Hne.
  assert (Hk : str_of_Z (user_id u) <> str_of_Z (user_id v))
    by (intros E; apply Hne; symmetry; apply str_of_Z_inj, E).
  unfold setname. destruct args as [| a args].
  - unfold resolve_user_name, load_user_map.
    destruct f as [| [| b | n | x | s | l | d] | | name];
      cbn [ensure_data_dir map_get file_after snd]; try reflexivity.
    destruct (map_get (str_of_Z (user_id u)) d) as [m |];
      [destruct (truthy m)|]; reflexivity.
  - unfold resolve_user_name, save_user_map, load_user_map.
    destruct f as [| [| b | n | x | s | l | d] | | name];
      cbn [ensure_data_dir file_after snd]; try reflexivity;
      rewrite map_get_set_other by assumption;
      match goal with
      | |- context [map_get ?k ?d] =>
        destruct (map_get k d) as [m |]; [destruct (truthy m)|]; reflexivity
      end.
Qed.

Lemma setname_keeps_other_users_witness :
  snd (resolve_user_name ""
         (file_after (setname (fun _ => "?") "" (JsonFile (JDict [("7", JStr "Bob")]))
                              (mk_user 42 "Ann Lee") ["Ann"]))
         (mk_user 7 "Robert")) = Ok (JStr "Bob").
Proof.
  rewrite (setname_keeps_other_users (fun _ => "?") ""
             (JsonFile (JDict [("7", JStr "Bob")]))
             (mk_user 42 "Ann Lee") (mk_user 7 "Robert") ["Ann"]).
  - reflexivity.
  - discriminate.
Defined.

(** ** The sales message *)

Lemma dict_set_not_nil (k : string) (v : float) (d : dict) : dict_set k v d <> [].
Proof. destruct d as [| [k' v'] d]; cbn; [|destruct (String.eqb k' k)]; discriminate. Qed.

Lemma fold_sheets_empty_breakdown (fetch : string -> outcome (list (list string)))
      (user_name : string) (since until : datetime) (ids : list string) :
  forall run,
    (breakdown run = [] -> totals run = 0%float) ->
    let run' := fold_left (process_sheet fetch user_name since until) ids run in
    breakdown run' = [] -> totals run' = 0%float.
Proof.
  induction ids as [| id ids IH]; intros run H; cbn [fold_left]; [exact H|].
  apply IH. unfold process_sheet.
  destruct (fetch id) as [[| header data] | e]; try exact H.
  destruct (0 <? _)%float; cbn [breakdown totals]; [|exact H].
  intros E. exfalso. exact (dict_set_not_nil _ _ _ E).
Qed.

(** X14: when the service account file is not configured, the run returns
    and the message built from its result is the error text, whatever the
    user name and the descriptor are. *)
Theorem message_not_configured (format_2f : float -> string) (env : environment)
        (user_name descriptor : string) (days_ : Z)
        (start_date end_date : option datetime) :
  SERVICE_ACCOUNT_JSON env = None \/
  (exists path, SERVICE_ACCOUNT_JSON env = Some path /\ path_exists env path = false) ->
  exists res,
    fetch_sales_from_sheets env user_name days_ start_date end_date = Return res /\
    build_sales_message format_2f user_name res descriptor =
    "❌ Error: Service account not configured" ++ newline ++ newline ++
    "Please contact the bot administrator.".
Proof.
  intros H. eexists. split.
  - unfold fetch_sales_from_sheets. destruct H as [H | (path & H & Hp)]; rewrite H.
    + reflexivity.
    + destruct path; [reflexivity|]. rewrite Hp. reflexivity.
  - reflexivity.
Qed.

Lemma message_not_configured_witness :
  exists res,
    fetch_sales_from_sheets
      (mk_env None (fun _ => true) true None ["up"] one_sale_source
              example_now example_now) "Bob" 3 None None = Return res /\
    build_sales_message (fun _ => "?") "Bob" res "the current window (3 days)" =
    "❌ Error: Service account not configured" ++ newline ++ newline ++
    "Please contact the bot administrator.".
Proof.
  apply message_not_configured. left. reflexivity.
Defined.

(** X15: for a run that returns without an error, a positive total comes
    with a breakdown that is not empty; and when the breakdown is empty the
    message is the [No sales found] text followed by the diagnostics of the
    run. *)
Theorem message_without_breakdown (format_2f : float -> string) (env : environment)
        (user_name descriptor : string) (days_ : Z)
        (start_date end_date : option datetime) (res : sales_result) :
  fetch_sales_from_sheets env user_name days_ start_date end_date = Return res ->
  error res = None ->
  ((0 <? total res)%float = true -> per_sheet res <> []) /\
  (per_sheet res = [] ->
   exists d,
     debug res = Some d /\
     build_sales_message format_2f user_name res descriptor =
     "📊 " ++ user_name ++ ": No sales found for " ++ descriptor ++ newline ++ newline ++
     "Debug info:" ++ newline ++
     "• Total rows checked: " ++ str_of_Z (dbg_total_rows d) ++ newline ++
     "• Rows with your name: " ++ str_of_Z (dbg_name_matches d) ++ newline ++
     "• Date range: " ++ dbg_date_range d ++ newline ++
     "• Sample dates found: " ++ dbg_sample_dates d).
Proof.
  intros H Herr. apply not_configured_result in H.
  destruct H as [(msg & ->) | (since & until & _ & _ & Ht & Hp & range & samples & Hd)];
    [discriminate Herr|].
  cbv zeta in Ht, Hp, Hd.
  assert (Hzero : per_sheet res = [] -> total res = 0%float).
  { rewrite Ht, Hp.
    apply (fold_sheets_empty_breakdown (fetch_values env) user_name since until
             (SHEETS_IDS env) initial_run). reflexivity. }
  split.
  - intros Hpos E. rewrite (Hzero E) in Hpos. discriminate Hpos.
  - intros E. eexists. split; [exact Hd|].
    unfold build_sales_message. rewrite Herr, (Hzero E), Hd. reflexivity.
Qed.

Lemma message_without_breakdown_witness :
  exists res,
    fetch_sales_from_sheets (example_env ["down"] one_sale_source) "Bob" 1
      (Some january_start) (Some january_end) = Return res /\
    build_sales_message (fun _ => "?") "Bob" res "January" =
    "📊 Bob: No sales found for January" ++ newline ++ newline ++
    "Debug info:" ++ newline ++
    "• Total rows checked: 0" ++ newline ++
    "• Rows with your name: 0" ++ newline ++
    "• Date range: 2025-01-01 to 2025-01-31" ++ newline ++
    "• Sample dates found: None found".
Proof.
  eexists. split; [reflexivity|].
  destruct (message_without_breakdown (fun _ => "?")
              (example_env ["down"] one_sale_source) "Bob" "January" 1
              (Some january_start) (Some january_end) _ eq_refl eq_refl)
    as (_ & Hmsg).
  destruct (Hmsg eq_refl) as (d & Hd & ->).
  injection Hd as <-. reflexivity.
Defined.

(** ** The sales commands *)

Lemma fetch_returns (env : environment) (user_name : string) (days_ : Z)
      (start_date end_date : option datetime) (since until : datetime) :
  window_since env days_ start_date = Return since ->
  window_until env end_date = Return until ->
  exists data,
    fetch_sales_from_sheets env user_name days_ start_date end_date = Return data.
Proof.
  intros Hs Hu. unfold fetch_sales_from_sheets.
  destruct (SERVICE_ACCOUNT_JSON env) as [[| c path] |];
    try (eexists; reflexivity).
  destruct (negb (path_exists env (String c path))); [eexists; reflexivity|].
  destruct (negb (google_client_installed env)); [eexists; reflexivity|].
  destruct (service_error env); [eexists; reflexivity|].
  rewrite Hs, Hu. cbn [bind]. eexists. reflexivity.
Qed.

Lemma fetch_for_returns (env : environment) (user : json) (days_ : Z)
      (start_date end_date : option datetime) (since until : datetime) :
  window_since env days_ start_date = Return since ->
  window_until env end_date = Return until ->
  exists data, fetch_sales_for env user days_ start_date end_date = Return data.
Proof.
  intros Hs Hu.
  destruct user as [| b | n | x | s | l | d];
    try exact (fetch_returns env s days_ start_date end_date since until Hs Hu);
    unfold fetch_sales_for;
    (destruct (SERVICE_ACCOUNT_JSON env) as [[| c path] |];
     try (eexists; reflexivity);
     destruct (negb (path_exists env (String c path))); [eexists; reflexivity|];
     destruct (negb (google_client_installed env)); [eexists; reflexivity|];
     destruct (service_error env); [eexists; reflexivity|];
     rewrite Hs, Hu; cbn [bind]; eexists; reflexivity).
Qed.

Lemma resolve_mapping (DEFAULT_USER : string) (f : users_file) (u : telegram_user) :
  reads_as_mapping f = true ->
  exists user, snd (resolve_user_name DEFAULT_USER f u) = Ok user.
Proof.
  unfold resolve_user_name, load_user_map.
  destruct f as [| [| b | n | x | s | l | d] | | name]; try discriminate;
    intros _; cbn [ensure_data_dir map_get snd]; try (eexists; reflexivity).
  destruct (map_get (str_of_Z (user_id u)) d) as [m |];
    [destruct (truthy m)|]; eexists; reflexivity.
Qed.

Lemma resolve_no_mapping (DEFAULT_USER : string) (f : users_file) (u : telegram_user) :
  reads_as_mapping f = false ->
  exists e, resolve_user_name DEFAULT_USER f u = (f, Failed e).
Proof.
  unfold resolve_user_name, load_user_map.
  destruct f as [| [| b | n | x | s | l | d] | | name]; try discriminate;
    intros _; cbn [ensure_data_dir]; eexists; reflexivity.
Qed.

Lemma window_until_now (env : environment) :
  valid_datetime (utcnow_until env) ->
  exists until, window_until env None = Return until.
Proof.
  intros [Hd _]. unfold window_until, replace. cbn [or_default].
  rewrite new_datetime_ok by (assumption || reflexivity). eexists. reflexivity.
Qed.

Lemma window_given (env : environment) (days_ y m d1 d2 : Z) :
  check_date_fields y m d1 = true -> check_date_fields y m d2 = true ->
  window_since env days_ (Some (mk_datetime y m d1 0 0 0 0)) =
  Return (mk_datetime y m d1 0 0 0 0) /\
  window_until env (Some (mk_datetime y m d2 23 59 59 999999)) =
  Return (mk_datetime y m d2 23 59 59 999999).
Proof.
  intros H1 H2. unfold window_since, window_until, replace.
  cbn [or_default year month day].
  rewrite !new_datetime_ok by (assumption || reflexivity). auto.
Qed.

Lemma send_window_answers (repr : json -> string) (format_2f : float -> string)
      (DEFAULT_USER : string) (env : environment) (f : users_file)
      (u : telegram_user) (label : string) (start end_ : datetime) :
  window_since env 1 (Some start) = Return start ->
  window_until env (Some end_) = Return end_ ->
  let h := _send_window_sales repr format_2f DEFAULT_USER env f u label start end_ in
  if reads_as_mapping f
  then raised h = None /\ List.length (replies h) = 2%nat
  else raised h <> None /\ replies h = [] /\ file_after h = f.
Proof.
  intros Hs Hu. cbv zeta. unfold _send_window_sales.
  destruct (reads_as_mapping f) eqn:Hf.
  - destruct (resolve_mapping DEFAULT_USER f u Hf) as [user Hres].
    destruct (resolve_user_name DEFAULT_USER f u) as [f' r]. cbn [snd] in Hres.
    subst r.
    destruct (fetch_for_returns env user 1 (Some start) (Some end_) _ _ Hs Hu)
      as [data ->].
    split; reflexivity.
  - destruct (resolve_no_mapping DEFAULT_USER f u Hf) as [e ->].
    split; [discriminate | split; reflexivity].
Qed.

(** X16: on every day whose window start exists, and with a users file
    that reads as a mapping, [/mysales] ends without an exception after
    exactly two replies, the notice and the summary of the run over the [n]
    days of the current window, whatever the sheets hold and whether they
    can be read or not.  With any other users file it raises before it
    replies. *)
Theorem mysales_always_answers (repr : json -> string) (format_2f : float -> string)
        (DEFAULT_USER : string) (env : environment) (today : datetime)
        (f : users_file) (u : telegram_user) :
  valid_datetime today -> window_start_exists today ->
  toordinal (utcnow_since env) = toordinal today ->
  valid_datetime (utcnow_until env) ->
  let h := mysales repr format_2f DEFAULT_USER env today f u in
  if reads_as_mapping f then
    exists user n data,
      snd (resolve_user_name DEFAULT_USER f u) = Ok user /\
      calculate_window_days today = Return n /\
      fetch_sales_for env user n None None = Return data /\
      h = mk_handled (fst (resolve_user_name DEFAULT_USER f u))
            ["🔍 Checking sales for " ++ text_of repr user ++ "...";
             build_sales_message format_2f (text_of repr user) data
               ("the current window (" ++ str_of_Z n ++ " days)")]
            None
  else
    raised h <> None /\ replies h = [] /\ file_after h = f.
Proof.
  intros Hv Hs Hsame Hu. cbv zeta. unfold mysales.
  destruct (reads_as_mapping f) eqn:Hf.
  - destruct (resolve_mapping DEFAULT_USER f u Hf) as [user Hres].
    destruct (resolve_user_name DEFAULT_USER f u) as [f' r]. cbn [fst snd] in *.
    subst r.
    assert (Hs' : (7 < day today \/ MINYEAR < year today \/ 1 < month today)%Z)
      by (unfold window_start_exists in Hs; tauto).
    rewrite (calculate_window_days_anchor today Hv Hs').
    destruct (window_until_now env Hu) as [until Huntil].
    assert (Hsince : window_since env
                       (toordinal today - toordinal (window_start today) + 1)%Z None =
                     Return (window_start today))
      by (unfold window_since; apply since_window_start; assumption).
    destruct (fetch_for_returns env user _ None None _ _ Hsince Huntil)
      as [data Hdata].
    exists user, (toordinal today - toordinal (window_start today) + 1)%Z, data.
    rewrite Hdata. auto.
  - destruct (resolve_no_mapping DEFAULT_USER f u Hf) as [e ->].
    split; [discriminate | split; reflexivity].
Qed.

Lemma mysales_always_answers_witness :
  exists user n data,
    snd (resolve_user_name "" NoFile (mk_user 7 "Bob")) = Ok user /\
    calculate_window_days example_now = Return n /\
    fetch_sales_for (example_env ["up"; "down"] one_sale_source)
      user n None None = Return data /\
    mysales (fun _ => "?") (fun _ => "5.00") ""
            (example_env ["up"; "down"] one_sale_source)
            example_now NoFile (mk_user 7 "Bob") =
    mk_handled (fst (resolve_user_name "" NoFile (mk_user 7 "Bob")))
      ["🔍 Checking sales for " ++ text_of (fun _ => "?") user ++ "...";
       build_sales_message (fun _ => "5.00") (text_of (fun _ => "?") user) data
         ("the current window (" ++ str_of_Z n ++ " days)")]
      None.
Proof.
  apply (mysales_always_answers (fun _ => "?") (fun _ => "5.00") ""
           (example_env ["up"; "down"] one_sale_source) example_now NoFile
           (mk_user 7 "Bob")).
  - split; reflexivity.
  - left. reflexivity.
  - reflexivity.
  - split; reflexivity.
Defined.

(** X17: on every day but those of January of year 1, and with a users
    file that reads as a mapping, each of the three window commands ends
    without an exception after exactly two replies, whatever the sheets
    hold and whether they can be read or not.  With any other users file
    each raises before it replies. *)
Theorem window_commands_always_answer (repr : json -> string)
        (format_2f : float -> string)
        (DEFAULT_USER : string) (env : environment) (today : datetime)
        (f : users_file) (u : telegram_user) (h : handled) :
  valid_datetime today ->
  (1 < month today \/ MINYEAR < year today)%Z ->
  In h [first_window repr format_2f DEFAULT_USER env today f u;
        second_window repr format_2f DEFAULT_USER env today f u;
        third_window repr format_2f DEFAULT_USER env today f u] ->
  if reads_as_mapping f
  then raised h = None /\ List.length (replies h) = 2%nat
  else raised h <> None /\ replies h = [] /\ file_after h = f.
Proof.
  intros Hv Hne Hin.
  pose proof (valid_datetime_date today Hv) as (Hy & Hm & Hd).
  assert (Hday : forall d, (1 <= d <= 28)%Z ->
            check_date_fields (year today) (month today) d = true)
    by (intros d Hr; destruct Hv as [Hdate _];
        eapply check_date_fields_day; eassumption).
  destruct Hin as [<- | [<- | [<- | []]]].
  - unfold first_window. rewrite get_window_range_first by assumption.
    unfold prev_month_day28.
    pose proof (prev_month_valid (year today) (month today) Hm
                  ltac:(unfold MINYEAR in Hne; lia) ltac:(lia)) as Hpv.
    destruct (prev_month (year today) (month today)) as [py pm]. cbn [fst snd] in Hpv.
    assert (Hp : check_date_fields py pm 28 = true).
    { apply check_date_fields_spec. unfold MINYEAR, MAXYEAR.
      pose proof (days_in_month_bounds py pm ltac:(lia)). lia. }
    apply send_window_answers.
    + unfold window_since, replace. cbn [or_default year month day].
      rewrite new_datetime_ok by (assumption || reflexivity). reflexivity.
    + unfold window_until, replace. cbn [or_default year month day].
      rewrite new_datetime_ok by (try reflexivity; apply Hday; lia). reflexivity.
  - unfold second_window. rewrite get_window_range_second by assumption.
    pose proof (window_given env 1 (year today) (month today) 8 17
                  (Hday 8%Z ltac:(lia)) (Hday 17%Z ltac:(lia))) as [Hs Hu].
    apply send_window_answers; assumption.
  - unfold third_window. rewrite get_window_range_third by assumption.
    pose proof (window_given env 1 (year today) (month today) 18 27
                  (Hday 18%Z ltac:(lia)) (Hday 27%Z ltac:(lia))) as [Hs Hu].
    apply send_window_answers; assumption.
Qed.

Lemma window_commands_always_answer_witness :
  raised (first_window (fun _ => "?") (fun _ => "5.00") ""
            (example_env ["up"; "down"] one_sale_source)
            example_now (JsonFile (JDict [("7", JInt 5)])) (mk_user 7 "Bob")) = None /\
  List.length
    (replies (first_window (fun _ => "?") (fun _ => "5.00") ""
                (example_env ["up"; "down"] one_sale_source)
                example_now (JsonFile (JDict [("7", JInt 5)])) (mk_user 7 "Bob")))
  = 2%nat.
Proof.
  apply (window_commands_always_answer (fun _ => "?") (fun _ => "5.00") ""
           (example_env ["up"; "down"] one_sale_source) example_now
           (JsonFile (JDict [("7", JInt 5)])) (mk_user 7 "Bob")).
  - split; reflexivity.
  - right. reflexivity.
  - left. reflexivity.
Defined.

(** ** Dates written as [YYYY-MM-DD] *)

Lemma digit_char_facts (n : Z) :
  is_digit (digit_char n) = true /\
  (Z.of_nat (nat_of_ascii (digit_char n)) - 48 = n mod 10)%Z.
Proof.
  unfold digit_char.
  assert (H : (0 <= n mod 10 < 10)%Z) by (apply Z.mod_pos_bound; lia).
  set (k := (n mod 10)%Z) in *. clearbody k.
  enum_Z k 0%Z 10%nat; split; reflexivity.
Qed.

Lemma is_digit_facts (c : ascii) :
  is_digit c = true ->
  dig c = true /\ iso_char c = true /\ Ascii.eqb c "-" = false.
Proof. each_char c; intros H; try discriminate H; repeat split. Qed.

Lemma iso_char_facts (c : ascii) :
  iso_char c = true ->
  is_space c = false /\ c <> " "%char /\ Ascii.eqb c "s" = false /\
  Ascii.eqb c "n" = false /\ Ascii.eqb c "r" = false /\ Ascii.eqb c "t" = false.
Proof. each_char c; intros H; try discriminate H; repeat split; discriminate. Qed.

Lemma strftime_date_chars (dt : datetime) :
  strftime_date dt =
  String (digit_char (year dt / 100 / 10)) (String (digit_char (year dt / 100))
  (String (digit_char (year dt / 10)) (String (digit_char (year dt))
  (String "-" (String (digit_char (month dt / 10)) (String (digit_char (month dt))
  (String "-" (String (digit_char (day dt / 10)) (String (digit_char (day dt))
  ""))))))))).
Proof. reflexivity. Qed.

Lemma int_digits_digit (acc n : Z) (t : string) :
  int_digits acc (String (digit_char n) t) = int_digits (10 * acc + n mod 10)%Z t.
Proof.
  cbn [int_digits]. destruct (digit_char_facts n) as [-> ->]. reflexivity.
Qed.

Lemma iso_tail (m d : Z) :
  (1 <= m <= 12)%Z -> (1 <= d <= 31)%Z ->
  let text := String "-" (String (digit_char (m / 10)) (String (digit_char m)
              (String "-" (String (digit_char (d / 10)) (String (digit_char d) ""))))) in
  let items := [Lit "-"; Dir dir_m; Lit "-"; Dir dir_d] in
  match_items items text =
  ([(dir_m, String (digit_char (m / 10)) (String (digit_char m) ""));
    (dir_d, String (digit_char (d / 10)) (String (digit_char d) ""))], "")
    :: tl (match_items items text).
Proof.
  intros Hm Hd.
  enum_Z m 1%Z 12%nat; enum_Z d 1%Z 31%nat; vm_compute; reflexivity.
Qed.

Lemma match_year (c1 c2 c3 c4 : ascii) (r : string) :
  is_digit c1 = true -> is_digit c2 = true -> is_digit c3 = true ->
  is_digit c4 = true ->
  match_item (Dir dir_Y) (String c1 (String c2 (String c3 (String c4 r)))) =
  [([(dir_Y, String c1 (String c2 (String c3 (String c4 ""))))], r)].
Proof.
  intros H1 H2 H3 H4.
  apply is_digit_facts in H1, H2, H3, H4.
  destruct H1 as (H1 & _), H2 as (H2 & _), H3 as (H3 & _), H4 as (H4 & _).
  cbn [match_item regex_of match_alts flat_map match_seq].
  rewrite H1, H2, H3, H4. reflexivity.
Qed.

Lemma match_items_step (it : fmt_item) (items : list fmt_item) (s : string) :
  match_items (it :: items) s =
  flat_map (fun gr => map (fun gr' => ((fst gr ++ fst gr')%list, snd gr'))
                          (match_items items (snd gr)))
           (match_item it s).
Proof. reflexivity. Qed.

Lemma strptime_iso (dt : datetime) :
  valid_datetime dt ->
  strptime (strftime_date dt) "%Y-%m-%d" =
  Some (mk_datetime (year dt) (month dt) (day dt) 0 0 0 0).
Proof.
  intros Hv. pose proof (valid_datetime_date dt Hv) as (Hy & Hm & Hd).
  destruct Hv as [Hdate _].
  pose proof (days_in_month_bounds (year dt) (month dt) Hm) as Hdim.
  unfold strptime.
  change (compile_format "%Y-%m-%d")
    with (Some (Dir dir_Y :: [Lit "-"; Dir dir_m; Lit "-"; Dir dir_d])).
  cbv beta iota. rewrite strftime_date_chars, match_items_step.
  rewrite match_year by apply digit_char_facts.
  cbn [flat_map fst snd]. rewrite iso_tail by lia.
  cbn [map app fst snd].
  change (fields_of_groups ?g) with
    (py_int (String (digit_char (year dt / 100 / 10))
               (String (digit_char (year dt / 100))
                  (String (digit_char (year dt / 10))
                     (String (digit_char (year dt)) "")))),
     py_int (String (digit_char (month dt / 10)) (String (digit_char (month dt)) "")),
     py_int (String (digit_char (day dt / 10)) (String (digit_char (day dt)) "")),
     0%Z, 0%Z, 0%Z).
  unfold py_int. rewrite !int_digits_digit. cbn [int_digits].
  replace (10 * (10 * (10 * (10 * 0 + year dt / 100 / 10 mod 10) +
                       year dt / 100 mod 10) + year dt / 10 mod 10) +
           year dt mod 10)%Z with (year dt) by zdiv.
  replace (10 * (10 * 0 + month dt / 10 mod 10) + month dt mod 10)%Z
    with (month dt) by zdiv.
  replace (10 * (10 * 0 + day dt / 10 mod 10) + day dt mod 10)%Z
    with (day dt) by zdiv.
  rewrite new_datetime_ok by (assumption || reflexivity). reflexivity.
Qed.

Lemma strftime_date_iso (dt : datetime) :
  all_chars iso_char (strftime_date dt) = true.
Proof.
  rewrite strftime_date_chars. cbn [all_chars].
  repeat match goal with
         | |- context [iso_char (digit_char ?n)] =>
           rewrite (proj1 (proj2 (is_digit_facts _ (proj1 (digit_char_facts n)))))
         end.
  reflexivity.
Qed.

Lemma lstrip_iso (s : string) : all_chars iso_char s = true -> lstrip s = s.
Proof.
  destruct s as [| c s]; [reflexivity|]. cbn [all_chars lstrip]. intros H.
  apply andb_true_iff in H. destruct H as [H _].
  apply iso_char_facts in H. destruct H as (-> & _). reflexivity.
Qed.

Lemma rstrip_iso (s : string) : all_chars iso_char s = true -> rstrip s = s.
Proof.
  induction s as [| c s IH]; [reflexivity|]. cbn [all_chars rstrip]. intros H.
  apply andb_true_iff in H. destruct H as [Hc Hs]. rewrite (IH Hs).
  apply iso_char_facts in Hc. destruct Hc as (-> & _). destruct s; reflexivity.
Qed.

Lemma contains_GMT_iso (s : string) :
  all_chars iso_char s = true -> contains " GMT" s = false.
Proof.
  induction s as [| c s IH]; [reflexivity|]. cbn [all_chars]. intros H.
  apply andb_true_iff in H. destruct H as [Hc Hs].
  cbn [contains]. rewrite (IH Hs). cbn [prefix].
  apply iso_char_facts in Hc. destruct Hc as (_ & Hc & _).
  destruct (ascii_dec " " c) as [E | _]; [congruence | reflexivity].
Qed.

Lemma sub_ordinals_iso (s : string) :
  all_chars iso_char s = true -> sub_ordinals s = s.
Proof.
  induction s as [| c s IH]; [reflexivity|].
  intros H. cbn in H. apply andb_true_iff in H. destruct H as [Hc Hs].
  specialize (IH Hs). cbn [sub_ordinals].
  destruct s as [| a [| b rest]]; try (rewrite IH; destruct (is_digit c); reflexivity).
  assert (Ha : is_ordinal_suffix a b = false).
  { cbn in Hs. apply andb_true_iff in Hs. destruct Hs as [Ha _].
    apply iso_char_facts in Ha. destruct Ha as (_ & _ & E1 & E2 & E3 & E4).
    unfold is_ordinal_suffix. rewrite E1, E2, E3, E4. reflexivity. }
  rewrite Ha, IH. destruct (is_digit c); reflexivity.
Qed.

Lemma clean_date_iso (s : string) : all_chars iso_char s = true -> clean_date s = s.
Proof.
  intros H. unfold clean_date, strip.
  rewrite lstrip_iso, rstrip_iso, contains_GMT_iso by assumption.
  apply sub_ordinals_iso. assumption.
Qed.

Lemma month_formats_need_name (c : ascii) (r : string) :
  is_digit c = true ->
  strptime (String c r) "%B %d, %Y at %I:%M %p" = None /\
  strptime (String c r) "%b %d, %Y at %I:%M %p" = None /\
  strptime (String c r) "%b %d, %Y, %I:%M:%S %p" = None /\
  strptime (String c r) "%B %d, %Y, %I:%M:%S %p" = None.
Proof.
  intros Hc. pose proof (month_name_digit c r Hc) as [HB Hb].
  unfold strptime. repeat split.
  - change (compile_format "%B %d, %Y at %I:%M %p") with
      (Some (Dir dir_B :: [Spaces; Dir dir_d; Lit ","; Spaces; Dir dir_Y; Spaces;
             Lit "a"; Lit "t"; Spaces; Dir dir_I; Lit ":"; Dir dir_M; Spaces; Dir dir_p])).
    cbv beta iota. cbn [match_items match_item]. rewrite HB. reflexivity.
  - change (compile_format "%b %d, %Y at %I:%M %p") with
      (Some (Dir dir_b :: [Spaces; Dir dir_d; Lit ","; Spaces; Dir dir_Y; Spaces;
             Lit "a"; Lit "t"; Spaces; Dir dir_I; Lit ":"; Dir dir_M; Spaces; Dir dir_p])).
    cbv beta iota. cbn [match_items match_item]. rewrite Hb. reflexivity.
  - change (compile_format "%b %d, %Y, %I:%M:%S %p") with
      (Some (Dir dir_b :: [Spaces; Dir dir_d; Lit ","; Spaces; Dir dir_Y; Lit ","; Spaces;
             Dir dir_I; Lit ":"; Dir dir_M; Lit ":"; Dir dir_S; Spaces; Dir dir_p])).
    cbv beta iota. cbn [match_items match_item]. rewrite Hb. reflexivity.
  - change (compile_format "%B %d, %Y, %I:%M:%S %p") with
      (Some (Dir dir_B :: [Spaces; Dir dir_d; Lit ","; Spaces; Dir dir_Y; Lit ","; Spaces;
             Dir dir_I; Lit ":"; Dir dir_M; Lit ":"; Dir dir_S; Spaces; Dir dir_p])).
    cbv beta iota. cbn [match_items match_item]. rewrite HB. reflexivity.
Qed.

(** X18: a date written by [strftime('%Y-%m-%d')], as the sample dates of
    the diagnostics are, is read back by [parse_sheet_date] as that day at
    midnight.  The years are those that [strftime] writes on four digits. *)
Theorem parse_sheet_date_iso_round_trip (dt : datetime) :
  valid_datetime dt -> (1000 <= year dt)%Z ->
  parse_sheet_date (strftime_date dt) =
  Some (mk_datetime (year dt) (month dt) (day dt) 0 0 0 0).
Proof.
  intros Hv _. unfold parse_sheet_date.
  rewrite clean_date_iso by apply strftime_date_iso.
  pose proof (strptime_iso dt Hv) as Hiso.
  rewrite strftime_date_chars in Hiso |- *.
  destruct (month_formats_need_name _
              (String (digit_char (year dt / 100))
              (String (digit_char (year dt / 10)) (String (digit_char (year dt))
              (String "-" (String (digit_char (month dt / 10))
              (String (digit_char (month dt))
              (String "-" (String (digit_char (day dt / 10))
              (String (digit_char (day dt)) "")))))))))
              (proj1 (digit_char_facts (year dt / 100 / 10))))
    as (F1 & F2 & F3 & F4).
  unfold candidates. cbn [try_formats]. rewrite F1, F2, F3, F4, Hiso. reflexivity.
Qed.

Lemma parse_sheet_date_iso_round_trip_witness :
  strftime_date example_now = "2025-01-20" /\
  parse_sheet_date "2025-01-20" = Some (mk_datetime 2025 1 20 0 0 0 0).
Proof.
  split; [reflexivity|].
  apply (parse_sheet_date_iso_round_trip example_now).
  - split; reflexivity.
  - cbn. lia.
Defined.

(** X19: when none of the ten formats accepts the cleaned text as a whole
    and the text starts with a date [YYYY-MM-DD], the result is that day at
    midnight: what follows the first ten characters is not read, so a time
    with seconds is dropped. *)
Theorem parse_sheet_date_iso_prefix (raw t : string) (dt : datetime) :
  valid_datetime dt -> (1000 <= year dt)%Z ->
  clean_date raw = strftime_date dt ++ t ->
  try_formats (clean_date raw) candidates = None ->
  parse_sheet_date raw =
  Some (mk_datetime (year dt) (month dt) (day dt) 0 0 0 0).
Proof.
  intros Hv _ Hc Hnone. unfold parse_sheet_date. rewrite Hnone, Hc.
  pose proof (strptime_iso dt Hv) as Hiso.
  rewrite strftime_date_chars in Hiso |- *.
  cbn [append String.length Nat.leb substring].
  cbn [count_char].
  repeat match goal with
         | |- context [Ascii.eqb (digit_char ?n) "-"] =>
           rewrite (proj2 (proj2 (is_digit_facts _ (proj1 (digit_char_facts n)))))
         end.
  change (Ascii.eqb "-" "-") with true. cbv iota.
  replace (substring 0 0 t) with "" by (destruct t; reflexivity).
  cbn [count_char Nat.eqb]. rewrite Hiso. reflexivity.
Qed.

Lemma parse_sheet_date_iso_prefix_witness :
  strptime "2025-11-15 14:30" "%Y-%m-%d %H:%M" =
    Some (mk_datetime 2025 11 15 14 30 0 0) /\
  parse_sheet_date "2025-11-15 14:30:45" = Some (mk_datetime 2025 11 15 0 0 0 0).
Proof.
  split; [reflexivity|].
  apply (parse_sheet_date_iso_prefix "2025-11-15 14:30:45" " 14:30:45"
           (mk_datetime 2025 11 15 0 0 0 0)).
  - split; reflexivity.
  - cbn. lia.
  - reflexivity.
  - reflexivity.
Defined.

(** ** The rows of a user *)

Lemma process_row_own (conf : sheet_config) (user_name : string)
      (since until : datetime) (st st' : loop_state) (row : list string) :
  own_row conf user_name row = true -> same_sales st st' ->
  same_sales (process_row conf user_name since until st row)
             (process_row conf user_name since until st' row).
Proof.
  unfold own_row. intros Hown (H1 & H2 & H3 & H4 & H5 & H6).
  apply andb_true_iff in Hown. destruct Hown as [Hlen Hname].
  apply negb_true_iff in Hlen.
  unfold process_row. rewrite Hlen, Hname. cbn [negb].
  cbn [total_rows name_matches matching_sales sample_dates sheet_total
       sheet_sales_count].
  rewrite H1, H2, H3, H4, H5, H6, H1.
  destruct (parse_row_date conf _) as [sale_date|];
    [|unfold same_sales; cbn; repeat split; lia].
  destruct (List.length (sample_dates st) <? 5)%nat;
    cbn [total_rows name_matches matching_sales sample_dates sheet_total
         sheet_sales_count];
    (destruct (datetime_leb since sale_date && datetime_leb sale_date until);
     [destruct (parse_amount _)|]; unfold same_sales; cbn; repeat split; lia).
Qed.

Lemma process_row_other (conf : sheet_config) (user_name : string)
      (since until : datetime) (st st' : loop_state) (row : list string) :
  own_row conf user_name row = false -> same_sales st st' ->
  same_sales (process_row conf user_name since until st row) st'.
Proof.
  unfold own_row. intros Hown H. unfold process_row.
  destruct (List.length row <=? _)%nat; [exact H|].
  cbn [negb andb] in Hown. rewrite Hown. exact H.
Qed.

Lemma process_rows_own (conf : sheet_config) (user_name : string)
      (since until : datetime) (data : list (list string)) :
  forall st st',
    same_sales st st' ->
    same_sales (fold_left (process_row conf user_name since until) data st)
               (fold_left (process_row conf user_name since until)
                          (filter (own_row conf user_name) data) st').
Proof.
  induction data as [| row data IH]; intros st st' H; [exact H|].
  cbn [filter fold_left]. destruct (own_row conf user_name row) eqn:Hown.
  - cbn [fold_left]. apply IH, process_row_own; assumption.
  - apply IH, process_row_other; assumption.
Qed.

Lemma process_sheet_own (fetch : string -> outcome (list (list string)))
      (user_name : string) (since until : datetime) (run run' : run_state)
      (sheet_id : string) :
  same_run run run' ->
  same_run (process_sheet fetch user_name since until run sheet_id)
           (process_sheet (own_rows_only user_name fetch) user_name since until
                          run' sheet_id).
Proof.
  intros H. unfold process_sheet, own_rows_only.
  destruct (fetch sheet_id) as [[| header data] | e]; try exact H.
  destruct H as (H1 & H2 & H3 & H4 & H5 & H6).
  pose proof (process_rows_own (get_config SHEET_CONFIGS sheet_id) user_name
                since until data
                (mk_state (run_total_rows run) (run_name_matches run)
                          (run_matching_sales run) (run_sample_dates run) 0%float 0)
                (mk_state (run_total_rows run') (run_name_matches run')
                          (run_matching_sales run') (run_sample_dates run') 0%float 0))
    as Hrows.
  unfold process_rows.
  destruct Hrows as (R1 & R2 & R3 & R4 & R5 & R6);
    [unfold same_sales; cbn; auto 10|].
  rewrite R4. destruct (0 <? sheet_total _)%float;
    unfold same_run; cbn; rewrite ?H1, ?H2; auto 10.
Qed.

Lemma fold_sheets_own (fetch : string -> outcome (list (list string)))
      (user_name : string) (since until : datetime) (ids : list string) :
  forall run run',
    same_run run run' ->
    same_run (fold_left (process_sheet fetch user_name since until) ids run)
             (fold_left (process_sheet (own_rows_only user_name fetch) user_name
                                       since until) ids run').
Proof.
  induction ids as [| id ids IH]; intros run run' H; [exact H|].
  cbn [fold_left]. apply IH, process_sheet_own, H.
Qed.

(** X20: the rows of the other users, and the rows too short for the
    layout, change nothing in the result but the count of the rows
    examined: without them the run returns the same total, breakdown,
    counts of matches and sample dates, and examines as many rows as it
    finds with the name of the user. *)
Theorem other_rows_ignored (env : environment) (user_name : string) (days_ : Z)
        (start_date end_date : option datetime) (res : sales_result) :
  fetch_sales_from_sheets env user_name days_ start_date end_date = Return res ->
  fetch_sales_from_sheets
    (with_source env (own_rows_only user_name (fetch_values env)))
    user_name days_ start_date end_date =
  Return (with_total_rows
            (match debug res with Some d => dbg_name_matches d | None => 0 end) res).
Proof.
  unfold fetch_sales_from_sheets, with_source.
  cbn [SERVICE_ACCOUNT_JSON path_exists google_client_installed service_error
       SHEETS_IDS fetch_values].
  change (window_since (mk_env _ _ _ _ _ _ (utcnow_since env) (utcnow_until env))
                       days_ start_date)
    with (window_since env days_ start_date).
  change (window_until (mk_env _ _ _ _ _ _ (utcnow_since env) (utcnow_until env))
                       end_date)
    with (window_until env end_date).
  destruct (match SERVICE_ACCOUNT_JSON env with
            | None => true
            | Some "" => true
            | Some (String _ _ as path) => negb (path_exists env path)
            end).
  { intros H. injection H as <-. reflexivity. }
  destruct (negb (google_client_installed env)).
  { intros H. injection H as <-. reflexivity. }
  destruct (service_error env) as [e|].
  { intros H. injection H as <-. reflexivity. }
  destruct (window_since env days_ start_date) as [since | e1]; [|discriminate].
  destruct (window_until env end_date) as [until | e2]; [|discriminate].
  cbn [bind]. intros H. injection H as <-.
  destruct (fold_sheets_own (fetch_values env) user_name since until
              (SHEETS_IDS env) initial_run initial_run)
    as (H1 & H2 & H3 & H4 & H5 & H6);
    [unfold same_run; cbn; auto 10|].
  unfold with_total_rows.
  cbn [total per_sheet error debug dbg_name_matches dbg_matching_sales
       dbg_date_range dbg_sample_dates].
  rewrite H1, H2, H6, H3, H4, H5. reflexivity.
Qed.

Lemma other_rows_ignored_witness :
  fetch_sales_from_sheets (example_env ["up"] shared_source)
    "Bob" 1 (Some january_start) (Some january_end) =
  Return (mk_result 5 [("up", 5%float)] None
            (Some (mk_debug 3 1 1 "2025-01-01 to 2025-01-31" "2025-01-15"))) /\
  fetch_sales_from_sheets
    (with_source (example_env ["up"] shared_source)
       (own_rows_only "Bob" shared_source))
    "Bob" 1 (Some january_start) (Some january_end) =
  Return (mk_result 5 [("up", 5%float)] None
            (Some (mk_debug 1 1 1 "2025-01-01 to 2025-01-31" "2025-01-15"))).
Proof.
  split; [reflexivity|].
  exact (other_rows_ignored (example_env ["up"] shared_source) "Bob" 1
           (Some january_start) (Some january_end)
           (mk_result 5 [("up", 5%float)] None
              (Some (mk_debug 3 1 1 "2025-01-01 to 2025-01-31" "2025-01-15")))
           eq_refl).
Defined.

